(** * Chat-driven task manager: agent orchestration core

    A shallow embedding of the backend's conversational layer:

    - [services/mcp_tools.py]   the four task tools bound to the task table;
    - [services/agent.py]       the tool-calling orchestrator and its
                                keyword fallback;
    - [services/conversation.py] conversations, messages and the audit log;
    - [api/routes/chat.py]      the [POST /chat] handler that ties them up
                                and the two handlers that read conversations;
    - [schemas/task.py], [api/deps.py], [api/routes/tasks.py]
                                the REST interface to the same task table.

    Python values are modelled as the code has them: text as [string],
    integers as [Z], [Optional[T]] as [option T], decoded JSON and [dict]s as
    [jval], exceptions as a result type threaded with the database through a
    small state-and-exception monad. *)

From Stdlib Require Import String Ascii List ZArith Bool Lia DecimalString.
From Stdlib Require Import Permutation Sorted.
Import ListNotations.
Local Open Scope string_scope.
Local Open Scope Z_scope.

Set Implicit Arguments.

(* ===================================================================== *)
(** ** Python text primitives

    Text is a [string] of ASCII characters; [lower], [strip] and the
    character classes of [re] are those of [str] on that range. *)
(* ===================================================================== *)

Module Py.

(** [str(n)] for an [int]. *)
Definition str_of_int (n : Z) : string :=
  NilZero.string_of_int (Z.to_int n).

(** [c.isspace()] on the ASCII range: TAB..CR, FS..US and the blank. *)
Definition isspace (c : ascii) : bool :=
  let n := nat_of_ascii c in
  ((9 <=? n) && (n <=? 13) || (28 <=? n) && (n <=? 32))%nat.

(** One character of [s.lower()] (ASCII letters). *)
Definition lower_char (c : ascii) : ascii :=
  let n := nat_of_ascii c in
  if ((65 <=? n) && (n <=? 90))%nat then ascii_of_nat (n + 32) else c.

(** [s.lower()] *)
Fixpoint lower (s : string) : string :=
  match s with
  | EmptyString => EmptyString
  | String c s' => String (lower_char c) (lower s')
  end.

(** [s.lstrip()] *)
Fixpoint lstrip (s : string) : string :=
  match s with
  | EmptyString => EmptyString
  | String c s' => if isspace c then lstrip s' else s
  end.

(** [s.rstrip()] *)
Fixpoint rstrip (s : string) : string :=
  match s with
  | EmptyString => EmptyString
  | String c s' =>
      match rstrip s' with
      | EmptyString => if isspace c then EmptyString else String c EmptyString
      | r => String c r
      end
  end.

(** [s.strip()] *)
Definition strip (s : string) : string := rstrip (lstrip s).

(** [needle in hay] for two [str]s. *)
Fixpoint contains (needle hay : string) : bool :=
  if prefix needle hay then true
  else match hay with
       | EmptyString => false
       | String _ hay' => contains needle hay'
       end.

(** [any(word in s for word in words)] *)
Definition any_in (words : list string) (s : string) : bool :=
  existsb (fun word => contains word s) words.

(** [len(s)] *)
Definition len (s : string) : Z := Z.of_nat (String.length s).

(** [s[n:]] *)
Fixpoint drop (n : nat) (s : string) : string :=
  match n, s with
  | O, _ => s
  | S n', String _ s' => drop n' s'
  | S _, EmptyString => EmptyString
  end.

End Py.

(* ===================================================================== *)
(** ** The fragment of [re] that the fallback uses

    A backtracking matcher with Python's priorities: alternatives are tried
    left to right, [?] and [+] prefer to take, [+?] prefers to stop.  The
    two patterns of the source only repeat single-character classes, so
    repetition is over a class. *)
(* ===================================================================== *)

Module Re.

Inductive cls : Type :=
| Dot      (* [.]  any character but a newline *)
| Space.   (* [\s] *)

Definition in_cls (c : cls) (a : ascii) : bool :=
  match c with
  | Dot => negb (Ascii.eqb a "010"%char)
  | Space => Py.isspace a
  end.

Inductive regex : Type :=
| Lit (s : string)                    (* literal text *)
| Chr (c : cls)                       (* one character of a class *)
| Star (greedy : bool) (c : cls)      (* [c*] or [c*?] *)
| Cat (r1 r2 : regex)
| Alt (r1 r2 : regex)                 (* [r1|r2] *)
| Opt (r : regex)                     (* [(?:r)?] *)
| Group (n : nat) (r : regex)         (* n-th capturing group *)
| Eol.                                (* [$] *)

(** [c+] and [c+?] *)
Definition Plus (greedy : bool) (c : cls) : regex :=
  Cat (Chr c) (Star greedy c).

(** Spans of the capturing groups, latest first. *)
Definition caps : Type := list (nat * (nat * nat)).

(** [$] (no MULTILINE): at the end, or before a final newline. *)
Definition at_eol (s : string) : bool :=
  match s with
  | EmptyString => true
  | String a EmptyString => Ascii.eqb a "010"%char
  | _ => false
  end.

Section Match.
Variable R : Type.

(** The continuation receives what is left of the subject, the position
    reached and the groups so far. *)
Definition cont : Type := string -> nat -> caps -> option R.

Fixpoint star (greedy : bool) (c : cls) (k : cont)
         (s : string) (pos : nat) (cs : caps) : option R :=
  match s with
  | String a s' =>
      if in_cls c a then
        if greedy then
          match star greedy c k s' (S pos) cs with
          | Some r => Some r
          | None => k s pos cs
          end
        else
          match k s pos cs with
          | Some r => Some r
          | None => star greedy c k s' (S pos) cs
          end
      else k s pos cs
  | EmptyString => k s pos cs
  end.

Fixpoint run (r : regex) (s : string) (pos : nat) (cs : caps)
         (k : cont) {struct r} : option R :=
  match r with
  | Lit l =>
      if prefix l s
      then k (Py.drop (String.length l) s) (pos + String.length l)%nat cs
      else None
  | Chr c =>
      match s with
      | String a s' => if in_cls c a then k s' (S pos) cs else None
      | EmptyString => None
      end
  | Star g c => star g c k s pos cs
  | Cat r1 r2 => run r1 s pos cs (fun s' p' cs' => run r2 s' p' cs' k)
  | Alt r1 r2 =>
      match run r1 s pos cs k with
      | Some x => Some x
      | None => run r2 s pos cs k
      end
  | Opt r1 =>
      match run r1 s pos cs k with
      | Some x => Some x
      | None => k s pos cs
      end
  | Group n r1 =>
      run r1 s pos cs (fun s' p' cs' => k s' p' ((n, (pos, p')) :: cs'))
  | Eol => if at_eol s then k s pos cs else None
  end.
End Match.

(** A match object: the subject, the span of the match and the groups. *)
Record match_object : Type := MatchObject {
  subject : string;
  span : nat * nat;
  groups : caps
}.

(** Match [r] at the head of [s], which sits at [pos] in the subject. *)
Definition match_here (r : regex) (s : string) (pos : nat)
  : option (nat * caps) :=
  run r s pos [] (fun _ p cs => Some (p, cs)).

Fixpoint search_from (r : regex) (whole s : string) (pos : nat)
  : option match_object :=
  match match_here r s pos with
  | Some (e, cs) => Some (MatchObject whole (pos, e) cs)
  | None =>
      match s with
      | String _ s' => search_from r whole s' (S pos)
      | EmptyString => None
      end
  end.

(** [re.search(r, s)]: the leftmost match. *)
Definition search (r : regex) (s : string) : option match_object :=
  search_from r s s 0.

Fixpoint lookup_group (n : nat) (cs : caps) : option (nat * nat) :=
  match cs with
  | [] => None
  | (m, sp) :: cs' => if Nat.eqb m n then Some sp else lookup_group n cs'
  end.

(** [m.group(n)]; [None] when the group took no part in the match. *)
Definition group (m : match_object) (n : nat) : option string :=
  match lookup_group n (groups m) with
  | Some (b, e) => Some (substring b (e - b) (subject m))
  | None => None
  end.

(** [re.sub(r, '', s)]: every non-overlapping match, leftmost first, is
    deleted.  [skip] counts the characters of the current match that are
    still to be dropped; an empty match deletes nothing. *)
Fixpoint sub_empty_from (r : regex) (s : string) (skip : nat) : string :=
  match s with
  | EmptyString => EmptyString
  | String a s' =>
      match skip with
      | S n => sub_empty_from r s' n
      | O =>
          match match_here r s 0 with
          | Some (S n, _) => sub_empty_from r s' n
          | _ => String a (sub_empty_from r s' 0)
          end
      end
  end.

Definition sub_empty (r : regex) (s : string) : string :=
  sub_empty_from r s 0.

End Re.

(** [r'(?:create|add|make|new)\s+(?:a\s+)?(?:task\s+(?:to|called|for)\s+|to\s+)?(.+?)(?:\.|$)'] *)
Definition title_pattern : Re.regex :=
  let ws := Re.Plus true Re.Space in
  Re.Cat (Re.Alt (Re.Lit "create") (Re.Alt (Re.Lit "add")
                 (Re.Alt (Re.Lit "make") (Re.Lit "new"))))
  (Re.Cat ws
  (Re.Cat (Re.Opt (Re.Cat (Re.Lit "a") ws))
  (Re.Cat (Re.Opt (Re.Alt
             (Re.Cat (Re.Lit "task")
               (Re.Cat ws
               (Re.Cat (Re.Alt (Re.Lit "to") (Re.Alt (Re.Lit "called") (Re.Lit "for")))
                       ws)))
             (Re.Cat (Re.Lit "to") ws)))
  (Re.Cat (Re.Group 1 (Re.Plus false Re.Dot))
          (Re.Alt (Re.Lit ".") Re.Eol))))).

(** [r'\s*(please|now|today|tomorrow)\s*$'] *)
Definition filler_pattern : Re.regex :=
  Re.Cat (Re.Star true Re.Space)
  (Re.Cat (Re.Group 1 (Re.Alt (Re.Lit "please") (Re.Alt (Re.Lit "now")
                      (Re.Alt (Re.Lit "today") (Re.Lit "tomorrow")))))
  (Re.Cat (Re.Star true Re.Space) Re.Eol)).

(** The title heuristic of the fallback's create branch (agent.py). *)
Definition extract_title (message_content : string) : string :=
  let title := "sample task" in  (* default *)
  match Re.search title_pattern message_content with
  | Some m =>
      match Re.group m 1 with
      | Some g =>
          let title := Py.strip g in
          (* Clean up title - remove common phrases *)
          let title := Py.strip (Re.sub_empty filler_pattern title) in
          (* Ensure we have a valid title *)
          if (String.eqb title "") || (Py.len (Py.strip title) =? 0)
          then "sample task" else title
      | None => "sample task"  (* [None.strip()] raises: the except branch *)
      end
  | None => title
  end.

(* ===================================================================== *)
(** ** Decoded JSON, Python dicts and exceptions *)
(* ===================================================================== *)

#[local] Set Warnings "-register-all".

(** What [json.loads] returns and what the tools build: [None], [bool],
    [int], [str], [list] and [dict] (keys in insertion order). *)
Inductive jval : Type :=
| JNull
| JBool (b : bool)
| JInt (n : Z)
| JStr (s : string)
| JList (l : list jval)
| JDict (d : list (string * jval)).

Definition dict : Type := list (string * jval).

(** Python truth value: [bool(v)]. *)
Definition truthy (v : jval) : bool :=
  match v with
  | JNull => false
  | JBool b => b
  | JInt n => negb (n =? 0)
  | JStr s => negb (String.eqb s "")
  | JList l => match l with [] => false | _ => true end
  | JDict d => match d with [] => false | _ => true end
  end.

(** [d.get(k)] *)
Fixpoint dict_get (k : string) (d : dict) : option jval :=
  match d with
  | [] => None
  | (k', v) :: d' => if String.eqb k' k then Some v else dict_get k d'
  end.

(** [k in d] *)
Definition dict_mem (k : string) (d : dict) : bool :=
  match dict_get k d with Some _ => true | None => false end.

(** [{**d, k: v}]: an existing key keeps its place and takes the new value,
    a new key goes last. *)
Fixpoint dict_set (k : string) (v : jval) (d : dict) : dict :=
  match d with
  | [] => [(k, v)]
  | (k', v') :: d' =>
      if String.eqb k' k then (k, v) :: d' else (k', v') :: dict_set k v d'
  end.

(** [Optional[str]] as the JSON it serialises to. *)
Definition of_opt_str (o : option string) : jval :=
  match o with Some s => JStr s | None => JNull end.

(** The exception classes that the core raises or meets; [str e] is the
    message. *)
Inductive exn : Type :=
| ValueError (msg : string)
| TypeError (msg : string)
| KeyError (msg : string)
| IndexError (msg : string)
| DBAPIError (msg : string)        (* raised by the database driver *)
| APIError (msg : string)          (* raised by the OpenAI client   *)
| HTTPException (status_code : Z) (code msg : string).

Definition str (e : exn) : string :=
  match e with
  | ValueError m | TypeError m | KeyError m | IndexError m
  | DBAPIError m | APIError m | HTTPException _ _ m => m
  end.

Definition is_ValueError (e : exn) : bool :=
  match e with ValueError _ => true | _ => false end.

Inductive result (A : Type) : Type :=
| Ok (a : A)
| Raise (e : exn).
Arguments Ok {A} a.
Arguments Raise {A} e.

(** [len(v)] *)
Definition py_len (v : jval) : result Z :=
  match v with
  | JStr s => Ok (Py.len s)
  | JList l => Ok (Z.of_nat (length l))
  | JDict d => Ok (Z.of_nat (length d))
  | JNull => Raise (TypeError "object of type 'NoneType' has no len()")
  | JBool _ => Raise (TypeError "object of type 'bool' has no len()")
  | JInt _ => Raise (TypeError "object of type 'int' has no len()")
  end.

(* ===================================================================== *)
(** ** Tables (models/) and the world a request runs in *)
(* ===================================================================== *)

(** models/task.py *)
Record Task : Type := mkTask {
  task_id : Z;
  task_title : string;
  task_description : option string;
  task_completed : bool;
  task_user_id : Z;
  task_created_at : Z;
  task_updated_at : Z
}.

(** models/conversation.py *)
Record Conversation : Type := mkConversation {
  conv_id : Z;
  conv_user_id : Z;
  conv_created_at : Z;
  conv_updated_at : Z
}.

(** One element of the [tool_invocations] list that the agent returns:
    [{"tool": .., "inputs": .., "outputs": .., "error": ..}]. *)
Record invocation : Type := mkInvocation {
  inv_tool : string;
  inv_inputs : dict;
  inv_outputs : option jval;
  inv_error : option string
}.

(** models/message.py; [msg_tool_invocations] holds the list whose
    [json.dumps] text the column stores. *)
Record Message : Type := mkMessage {
  msg_id : Z;
  msg_conversation_id : Z;
  msg_role : string;
  msg_content : string;
  sequence_number : Z;
  msg_created_at : Z;
  msg_tool_invocations : option (list invocation)
}.

(** models/tool_invocation.py; [log_inputs] and [log_outputs] hold the
    values whose [json.dumps] text the columns store. *)
Record ToolInvocationLog : Type := mkLog {
  log_id : Z;
  log_user_id : Z;
  log_message_id : option Z;
  tool_name : string;
  log_inputs : dict;
  log_outputs : option jval;
  success : bool;
  error_message : option string;
  log_created_at : Z
}.

(** The database behind the [AsyncSession], the clock behind
    [datetime.utcnow()] (a tick count) and a count of the requests sent to
    the LLM provider.  Each table comes with the next value of its
    primary-key sequence. *)
Record world : Type := mkWorld {
  tasks : list Task;
  conversations : list Conversation;
  messages : list Message;
  tool_invocation_logs : list ToolInvocationLog;
  task_seq : Z;
  conversation_seq : Z;
  message_seq : Z;
  log_seq : Z;
  now : Z;
  provider_calls : nat
}.

Definition set_tasks (ts : list Task) (seq : Z) (w : world) : world :=
  mkWorld ts (conversations w) (messages w) (tool_invocation_logs w)
          seq (conversation_seq w) (message_seq w) (log_seq w)
          (now w) (provider_calls w).

Definition set_conversations (cs : list Conversation) (seq : Z) (w : world) : world :=
  mkWorld (tasks w) cs (messages w) (tool_invocation_logs w)
          (task_seq w) seq (message_seq w) (log_seq w)
          (now w) (provider_calls w).

Definition set_messages (ms : list Message) (seq : Z) (w : world) : world :=
  mkWorld (tasks w) (conversations w) ms (tool_invocation_logs w)
          (task_seq w) (conversation_seq w) seq (log_seq w)
          (now w) (provider_calls w).

Definition set_logs (ls : list ToolInvocationLog) (seq : Z) (w : world) : world :=
  mkWorld (tasks w) (conversations w) (messages w) ls
          (task_seq w) (conversation_seq w) (message_seq w) seq
          (now w) (provider_calls w).

Definition count_provider_call (w : world) : world :=
  mkWorld (tasks w) (conversations w) (messages w) (tool_invocation_logs w)
          (task_seq w) (conversation_seq w) (message_seq w) (log_seq w)
          (now w) (S (provider_calls w)).

(* ===================================================================== *)
(** ** State and exceptions *)
(* ===================================================================== *)

(** A computation reads and writes the world and returns or raises. *)
Definition M (A : Type) : Type := world -> result A * world.

Definition ret {A} (a : A) : M A := fun w => (Ok a, w).

Definition raise {A} (e : exn) : M A := fun w => (Raise e, w).

Definition bind {A B} (m : M A) (k : A -> M B) : M B :=
  fun w =>
    match m w with
    | (Ok a, w') => k a w'
    | (Raise e, w') => (Raise e, w')
    end.

(** [try: m  except Exception as e: h e] *)
Definition try_except {A} (m : M A) (h : exn -> M A) : M A :=
  fun w =>
    match m w with
    | (Ok a, w') => (Ok a, w')
    | (Raise e, w') => h e w'
    end.

Definition lift {A} (r : result A) : M A := fun w => (r, w).

Definition get_world : M world := fun w => (Ok w, w).

Declare Scope py_scope.
Delimit Scope py_scope with py.
Notation "x <- m ;; k" := (bind m (fun x => k))
  (at level 61, m at next level, right associativity) : py_scope.
Notation "m ;;; k" := (bind m (fun _ => k))
  (at level 61, right associativity) : py_scope.
Local Open Scope py_scope.

(** [datetime.utcnow()] *)
Definition utcnow : M Z := fun w => (Ok (now w), w).

(** [t.isoformat()]: a timestamp is a tick count, its text stands for the
    ISO-8601 string. *)
Definition isoformat (t : Z) : string := Py.str_of_int t.

(** [result.scalar_one_or_none()] *)
Definition scalar_one_or_none {A} (rows : list A) : result (option A) :=
  match rows with
  | [] => Ok None
  | [r] => Ok (Some r)
  | _ => Raise (DBAPIError "Multiple rows were found when one or none was required")
  end.

(** How the driver binds a Python value to a column: a value of another
    type than the column's is refused. *)
Definition bind_text (v : jval) : result string :=
  match v with
  | JStr s => Ok s
  | _ => Raise (DBAPIError "invalid input for query argument: expected str")
  end.

Definition bind_opt_text (v : jval) : result (option string) :=
  match v with
  | JNull => Ok None
  | JStr s => Ok (Some s)
  | _ => Raise (DBAPIError "invalid input for query argument: expected str")
  end.

Definition bind_int (v : jval) : result Z :=
  match v with
  | JInt n => Ok n
  | _ => Raise (DBAPIError "invalid input for query argument: expected int")
  end.

Definition bind_bool (v : jval) : result bool :=
  match v with
  | JBool b => Ok b
  | _ => Raise (DBAPIError "invalid input for query argument: expected bool")
  end.

(* ===================================================================== *)
(** ** services/mcp_tools.py *)
(* ===================================================================== *)

(** The rows a [select(Task).where(Task.user_id == user_id)] returns. *)
Definition tasks_of (user_id : Z) (ts : list Task) : list Task :=
  filter (fun t => task_user_id t =? user_id) ts.

(** [db.add(task); await db.commit(); await db.refresh(task)]: the row
    takes the next primary key. *)
Definition insert_task (title : string) (description : option string)
           (user_id : Z) (created updated : Z) : M Task :=
  fun w =>
    let task := mkTask (task_seq w) title description false user_id
                       created updated in
    (Ok task, set_tasks (tasks w ++ [task]) (task_seq w + 1) w).

(** [await db.commit()] after the attributes of a loaded row were
    assigned: the row with that primary key is rewritten. *)
Definition commit_task (task : Task) : M unit :=
  fun w =>
    (Ok tt,
     set_tasks (map (fun t => if task_id t =? task_id task then task else t)
                    (tasks w))
               (task_seq w) w).

(** [await db.delete(task); await db.commit()] *)
Definition delete_row (task : Task) : M unit :=
  fun w =>
    (Ok tt,
     set_tasks (filter (fun t => negb (task_id t =? task_id task)) (tasks w))
               (task_seq w) w).

(** [await db.rollback()]: nothing of a failed unit of work was written. *)
Definition rollback : M unit := ret tt.

(** [select(Task).where(Task.id == task_id, Task.user_id == user_id)]
    followed by [scalar_one_or_none()]. *)
Definition find_task (task_id_arg : jval) (user_id : Z) : M (option Task) :=
  id <- lift (bind_int task_id_arg) ;;
  w <- get_world ;;
  lift (scalar_one_or_none
          (filter (fun t => (task_id t =? id) && (task_user_id t =? user_id))
                  (tasks w))).

(** What the [except] clauses of every tool do: a [ValueError] goes through,
    anything else is rolled back and wrapped. *)
Definition reraise_as (prefix : string) (e : exn) {A} : M A :=
  if is_ValueError e then raise e
  else rollback ;;; raise (ValueError (prefix ++ str e)).

(** [f"{task_id}"] *)
Definition format_value (v : jval) : string :=
  match v with
  | JInt n => Py.str_of_int n
  | JStr s => s
  | JBool true => "True"
  | JBool false => "False"
  | JNull => "None"
  | JList _ => "[...]"
  | JDict _ => "{...}"
  end.

(** [create_task(title, user_id, db, description=None)] *)
Definition create_task (title : jval) (user_id : Z) (description : jval)
  : M jval :=
  try_except
    ((* Validate inputs *)
     bad_title <- (if negb (truthy title) then ret true
                   else n <- lift (py_len title) ;; ret (500 <? n)) ;;
     if bad_title : bool
     then raise (ValueError "Title must be between 1 and 500 characters")
     else
     bad_description <- (if truthy description
                         then n <- lift (py_len description) ;; ret (5000 <? n)
                         else ret false) ;;
     if bad_description : bool
     then raise (ValueError "Description must be less than 5000 characters")
     else
     (* Create task *)
     created <- utcnow ;;
     updated <- utcnow ;;
     title' <- lift (bind_text title) ;;
     description' <- lift (bind_opt_text description) ;;
     task <- insert_task title' description' user_id created updated ;;
     ret (JDict [("task_id", JInt (task_id task));
                 ("title", JStr (task_title task));
                 ("description", of_opt_str (task_description task));
                 ("completed", JBool (task_completed task));
                 ("created_at", JStr (isoformat (task_created_at task)))]))
    (fun e => reraise_as "Failed to create task: " e).

(** One element of the ["tasks"] list of [list_tasks]. *)
Definition task_entry (task : Task) : jval :=
  JDict [("task_id", JInt (task_id task));
         ("title", JStr (task_title task));
         ("description", of_opt_str (task_description task));
         ("completed", JBool (task_completed task));
         ("created_at", JStr (isoformat (task_created_at task)));
         ("updated_at", JStr (isoformat (task_updated_at task)))].

(** [list_tasks(user_id, db, completed=None)] *)
Definition list_tasks (user_id : Z) (completed : jval) : M jval :=
  try_except
    (w <- get_world ;;
     (* Build query with user_id filter *)
     let query := tasks_of user_id (tasks w) in
     (* Add completion filter if specified *)
     rows <- (match completed with
              | JNull => ret query
              | _ => c <- lift (bind_bool completed) ;;
                     ret (filter (fun t => Bool.eqb (task_completed t) c) query)
              end) ;;
     let task_list := map task_entry rows in
     ret (JDict [("tasks", JList task_list);
                 ("total_count", JInt (Z.of_nat (length task_list)))]))
    (fun e => raise (ValueError ("Failed to list tasks: " ++ str e))).

(** [update_task(task_id, user_id, db, title=None, description=None,
    completed=None)] *)
Definition update_task (task_id_arg : jval) (user_id : Z)
           (title description completed : jval) : M jval :=
  try_except
    ((* Find task with user_id verification *)
     found <- find_task task_id_arg user_id ;;
     match found with
     | None =>
         raise (ValueError ("Task " ++ format_value task_id_arg
                            ++ " not found or does not belong to user"))
     | Some task =>
         (* Validate and update fields *)
         new_title <-
           (match title with
            | JNull => ret (JStr (task_title task))
            | _ =>
                bad <- (if negb (truthy title) then ret true
                        else n <- lift (py_len title) ;; ret (500 <? n)) ;;
                if bad : bool
                then raise (ValueError "Title must be between 1 and 500 characters")
                else ret title
            end) ;;
         new_description <-
           (match description with
            | JNull => ret (of_opt_str (task_description task))
            | _ =>
                n <- lift (py_len description) ;;
                if 5000 <? n
                then raise (ValueError "Description must be less than 5000 characters")
                else ret description
            end) ;;
         let new_completed :=
           match completed with
           | JNull => JBool (task_completed task)
           | _ => completed
           end in
         (* Update timestamp *)
         updated <- utcnow ;;
         title' <- lift (bind_text new_title) ;;
         description' <- lift (bind_opt_text new_description) ;;
         completed' <- lift (bind_bool new_completed) ;;
         let task' := mkTask (task_id task) title' description' completed'
                             (task_user_id task) (task_created_at task)
                             updated in
         commit_task task' ;;;
         ret (JDict [("task_id", JInt (task_id task'));
                     ("title", JStr (task_title task'));
                     ("description", of_opt_str (task_description task'));
                     ("completed", JBool (task_completed task'));
                     ("updated_at", JStr (isoformat (task_updated_at task')))])
     end)
    (fun e => reraise_as "Failed to update task: " e).

(** [delete_task(task_id, user_id, db)] *)
Definition delete_task (task_id_arg : jval) (user_id : Z) : M jval :=
  try_except
    ((* Find task with user_id verification *)
     found <- find_task task_id_arg user_id ;;
     match found with
     | None =>
         raise (ValueError ("Task " ++ format_value task_id_arg
                            ++ " not found or does not belong to user"))
     | Some task =>
         (* Delete task *)
         delete_row task ;;;
         ret (JDict [("success", JBool true);
                     ("message", JStr "Task deleted successfully");
                     ("deleted_task_id", task_id_arg)])
     end)
    (fun e => reraise_as "Failed to delete task: " e).

(* ===================================================================== *)
(** ** services/agent.py *)
(* ===================================================================== *)

(** What [_execute_tool] returns: [{"outputs": .., "error": ..}]. *)
Record tool_result : Type := mkToolResult {
  outputs : option jval;
  error : option string
}.

(** A requested call, [tool_call] of the provider's message.  The argument
    text [function.arguments] is carried as what [json.loads] makes of it,
    [None] when it raises. *)
Record tool_call : Type := mkToolCall {
  tc_id : string;
  tc_name : string;
  tc_arguments : option jval
}.

(** [response.choices[0].message] *)
Record completion_message : Type := mkCompletion {
  content : option string;
  tool_calls : list tool_call
}.

(** [{"role": .., "content": ..}], an element of the history. *)
Record chat_message : Type := mkChatMessage {
  cm_role : string;
  cm_content : string
}.

(** The three shapes of message that go to the provider. *)
Inductive api_message : Type :=
| Plain (m : chat_message)
| AssistantToolCalls (content : string) (calls : list tool_call)
| ToolMessage (tool_call_id : string) (content : jval).

(** The arguments of [client.chat.completions.create] that vary. *)
Record request : Type := mkRequest {
  req_messages : list api_message;
  req_tools : bool
}.

(** [self]: the prompt and the client.  The client answers a request with
    the first choice's message, or raises ([None]). *)
Record AgentService : Type := mkAgentService {
  SYSTEM_PROMPT : string;
  client : request -> option completion_message
}.

(** [await self.client.chat.completions.create(..)] followed by
    [.choices[0].message]; every request is counted. *)
Definition completions_create (self : AgentService) (req : request)
  : M completion_message :=
  fun w =>
    (match client self req with
     | Some m => Ok m
     | None => Raise (APIError "Connection error.")
     end, count_provider_call w).

(** The keys of [tool_map]. *)
Inductive tool : Type := Create_task | List_tasks | Update_task | Delete_task.

Definition tool_map (tool_name : string) : option tool :=
  if String.eqb tool_name "create_task" then Some Create_task
  else if String.eqb tool_name "list_tasks" then Some List_tasks
  else if String.eqb tool_name "update_task" then Some Update_task
  else if String.eqb tool_name "delete_task" then Some Delete_task
  else None.

(** The parameters of a tool besides [user_id] and [db]: required ones,
    then those with a default. *)
Definition signature (t : tool) : list string * list string :=
  match t with
  | Create_task => (["title"], ["description"])
  | List_tasks => ([], ["completed"])
  | Update_task => (["task_id"], ["title"; "description"; "completed"])
  | Delete_task => (["task_id"], [])
  end.

Definition mem (k : string) (l : list string) : bool :=
  existsb (String.eqb k) l.

(** [f(user_id=user_id, db=db, **tool_args)]: binding the keywords.  A
    value that is no mapping, a key that repeats [user_id] or [db], a key
    that is no parameter, and a required parameter left out each raise a
    [TypeError] before the body runs. *)
Definition bind_keywords (t : tool) (tool_args : jval) : result dict :=
  match tool_args with
  | JDict kw =>
      if dict_mem "user_id" kw
      then Raise (TypeError "got multiple values for keyword argument 'user_id'")
      else if dict_mem "db" kw
      then Raise (TypeError "got multiple values for keyword argument 'db'")
      else
        let (required, optional) := signature t in
        if negb (forallb (fun kv => mem (fst kv) (required ++ optional)) kw)
        then Raise (TypeError "got an unexpected keyword argument")
        else if negb (forallb (fun k => dict_mem k kw) required)
        then Raise (TypeError "missing 1 required positional argument")
        else Ok kw
  | _ => Raise (TypeError "argument after ** must be a mapping")
  end.

(** The value a parameter is bound to: the keyword's, else the default
    [None]. *)
Definition param (k : string) (kw : dict) : jval :=
  match dict_get k kw with Some v => v | None => JNull end.

(** [await tool_func(user_id=user_id, db=db, **tool_args)] *)
Definition call_tool (t : tool) (user_id : Z) (tool_args : jval) : M jval :=
  kw <- lift (bind_keywords t tool_args) ;;
  match t with
  | Create_task => create_task (param "title" kw) user_id (param "description" kw)
  | List_tasks => list_tasks user_id (param "completed" kw)
  | Update_task =>
      update_task (param "task_id" kw) user_id (param "title" kw)
                  (param "description" kw) (param "completed" kw)
  | Delete_task => delete_task (param "task_id" kw) user_id
  end.

(** [AgentService._execute_tool] *)
Definition _execute_tool (tool_name : string) (tool_args : jval)
           (user_id : Z) : M tool_result :=
  try_except
    (match tool_map tool_name with
     | None => raise (ValueError ("Unknown tool: " ++ tool_name))
     | Some tool_func =>
         (* Execute tool with user_id *)
         result <- call_tool tool_func user_id tool_args ;;
         ret (mkToolResult (Some result) None)
     end)
    (fun e => ret (mkToolResult None (Some (str e)))).

(** [{**tool_args, "user_id": user_id}] *)
Definition with_user_id (tool_args : jval) (user_id : Z) : result dict :=
  match tool_args with
  | JDict d => Ok (dict_set "user_id" (JInt user_id) d)
  | _ => Raise (TypeError "object is not a mapping")
  end.

(** The body of [for tool_call in assistant_message.tool_calls]. *)
Definition run_tool_call (tc : tool_call) (user_id : Z) : M invocation :=
  let tool_name := tc_name tc in
  tool_args <- lift (match tc_arguments tc with
                     | Some v => Ok v
                     | None => Raise (ValueError "Expecting value")
                     end) ;;
  (* Execute tool and get result *)
  tool_result <- _execute_tool tool_name tool_args user_id ;;
  inputs <- lift (with_user_id tool_args user_id) ;;
  ret (mkInvocation tool_name inputs (outputs tool_result) (error tool_result)).

(** The loop; [tool_invocations] is the list appended to. *)
Fixpoint run_tool_calls (calls : list tool_call) (user_id : Z)
         (tool_invocations : list invocation) : M (list invocation) :=
  match calls with
  | [] => ret tool_invocations
  | tc :: calls' =>
      inv <- run_tool_call tc user_id ;;
      run_tool_calls calls' user_id (tool_invocations ++ [inv])
  end.

(** [tool_invocations[i].get("outputs") or {"error": ..}], the payload of
    the tool message. *)
Definition tool_payload (inv : invocation) : jval :=
  match inv_outputs inv with
  | Some v => if truthy v then v else JDict [("error", of_opt_str (inv_error inv))]
  | None => JDict [("error", of_opt_str (inv_error inv))]
  end.

(** [v[k]] *)
Definition subscript (v : jval) (k : string) : result jval :=
  match v with
  | JDict d =>
      match dict_get k d with
      | Some x => Ok x
      | None => Raise (KeyError k)
      end
  | _ => Raise (TypeError "object is not subscriptable")
  end.

(** [v.get(k, default)] *)
Definition get_default (v : jval) (k : string) (default : jval) : result jval :=
  match v with
  | JDict d => Ok (match dict_get k d with Some x => x | None => default end)
  | _ => Raise (TypeError "object has no attribute 'get'")
  end.

(** Iterating a value. *)
Definition iterate (v : jval) : result (list jval) :=
  match v with
  | JList l => Ok l
  | _ => Raise (TypeError "object is not iterable")
  end.

(** The [for i, task in enumerate(tasks_result['tasks'], 1)] loop. *)
Fixpoint enumerate_tasks (i : Z) (l : list jval) (response_text : string)
  : result string :=
  match l with
  | [] => Ok response_text
  | task :: l' =>
      match subscript task "completed" with
      | Raise e => Raise e
      | Ok c =>
          let status := if truthy c then "completed" else "not completed" in
          match subscript task "title" with
          | Raise e => Raise e
          | Ok t =>
              enumerate_tasks (i + 1) l'
                (response_text ++ String "010" (Py.str_of_int i) ++ ". "
                               ++ format_value t ++ " (" ++ status ++ ")")
          end
      end
  end.

Definition greeting_reply : string :=
  "Hello! I'm your AI task assistant. You can ask me to create, list, update, or delete tasks.".

Definition update_reply : string :=
  "I can help you update tasks. Please specify which task you'd like to update and what changes to make.".

Definition delete_reply : string :=
  "I can help you delete tasks. Please specify which task you'd like to delete.".

(** [messages[-1]] *)
Definition last_message (messages : list chat_message) : result chat_message :=
  match rev messages with
  | m :: _ => Ok m
  | [] => Raise (IndexError "list index out of range")
  end.

(** The [except Exception as openai_error] block of [AgentService.chat]:
    parse the intent of the latest message and call the tools directly. *)
Definition fallback (messages : list chat_message) (user_id : Z)
  : M (string * list invocation) :=
  let message_content :=
    match last_message messages with
    | Ok m => Py.lower (cm_content m)
    | Raise _ => ""
    end in
  if Py.contains "hello" message_content || Py.contains "hi" message_content
     || Py.contains "hey" message_content
  then ret (greeting_reply, [])
  else if Py.any_in ["create"; "add"; "make"; "new"] message_content
  then
    (* Extract task title from message (simple heuristic) *)
    let title := extract_title message_content in
    try_except
      (task_result <- create_task (JStr title) user_id JNull ;;
       ret ("I've created a task '" ++ title ++ "' for you.",
            [mkInvocation "create_task"
                          [("title", JStr title); ("user_id", JInt user_id)]
                          (Some task_result) None]))
      (fun e =>
         ret ("I had trouble creating the task '" ++ title ++ "': " ++ str e,
              [mkInvocation "create_task"
                            [("title", JStr title); ("user_id", JInt user_id)]
                            None (Some (str e))]))
  else if Py.any_in ["show"; "list"; "view"; "see"; "my tasks"] message_content
  then
    try_except
      (tasks_result <- list_tasks user_id JNull ;;
       listed <- lift (get_default tasks_result "tasks" (JList [])) ;;
       task_count <- lift (py_len listed) ;;
       response_text <-
         (if task_count =? 0
          then ret "You don't have any tasks yet. You can create one by asking me to create a task."
          else
            all <- lift (subscript tasks_result "tasks") ;;
            rows <- lift (iterate all) ;;
            lift (enumerate_tasks 1 rows
                    ("You have " ++ Py.str_of_int task_count ++ " tasks:"))) ;;
       ret (response_text,
            [mkInvocation "list_tasks" [("user_id", JInt user_id)]
                          (Some tasks_result) None]))
      (fun e =>
         ret ("I had trouble listing your tasks: " ++ str e,
              [mkInvocation "list_tasks" [("user_id", JInt user_id)]
                            None (Some (str e))]))
  else if Py.any_in ["update"; "complete"; "done"; "finish"] message_content
  then ret (update_reply, [])
  else if Py.any_in ["delete"; "remove"] message_content
  then ret (delete_reply, [])
  else
    m <- lift (last_message messages) ;;
    ret ("I received your message: '" ++ cm_content m
         ++ "' and I'm ready to help you manage your tasks.", []).

(** [AgentService.chat] *)
Definition chat (self : AgentService) (messages : list chat_message)
           (user_id : Z) : M (option string * list invocation) :=
  (* Add system prompt *)
  let full_messages :=
    Plain (mkChatMessage "system" (SYSTEM_PROMPT self)) :: map Plain messages in
  try_except
    (assistant_message <- completions_create self (mkRequest full_messages true) ;;
     (* Check if agent wants to call tools *)
     match tool_calls assistant_message with
     | _ :: _ =>
         (* Execute all tool calls *)
         tool_invocations <-
           run_tool_calls (tool_calls assistant_message) user_id [] ;;
         (* Send tool results back to agent for final response *)
         let messages_with_tools : list api_message :=
           (full_messages
            ++ [AssistantToolCalls
                  (match content assistant_message with Some c => c | None => "" end)
                  (tool_calls assistant_message)]
            ++ map (fun p => ToolMessage (tc_id (fst p)) (tool_payload (snd p)))
                   (combine (tool_calls assistant_message) tool_invocations))%list in
         (* Get final response from agent *)
         final_response <-
           completions_create self (mkRequest messages_with_tools false) ;;
         ret (content final_response, tool_invocations)
     | [] =>
         (* No tool calls, just return the response *)
         ret (content assistant_message, [])
     end)
    (fun openai_error =>
       r <- fallback messages user_id ;;
       ret (Some (fst r), snd r)).

(* ===================================================================== *)
(** ** services/conversation.py *)
(* ===================================================================== *)

(** [ConversationService.create_conversation] *)
Definition create_conversation (user_id : Z) : M Conversation :=
  fun w =>
    let conversation :=
      mkConversation (conversation_seq w) user_id (now w) (now w) in
    (Ok conversation,
     set_conversations (conversations w ++ [conversation])
                       (conversation_seq w + 1) w).

(** [await db.get(Conversation, conversation_id)] *)
Definition get_conversation (conversation_id : Z) (w : world)
  : option Conversation :=
  find (fun c => conv_id c =? conversation_id) (conversations w).

(** [select(func.max(Message.sequence_number)).where(..)] then [.scalar()]:
    [None] when the conversation has no message. *)
Definition max_sequence_number (conversation_id : Z) (w : world) : option Z :=
  fold_left
    (fun acc m =>
       if msg_conversation_id m =? conversation_id
       then match acc with
            | Some a => Some (Z.max a (sequence_number m))
            | None => Some (sequence_number m)
            end
       else acc)
    (messages w) None.

(** [x or -1] for [x : Optional[int]]: [None] and [0] are both false. *)
Definition or_minus_one (x : option Z) : Z :=
  match x with
  | Some n => if n =? 0 then -1 else n
  | None => -1
  end.

(** [ConversationService.add_message].  The [content] column is not
    nullable: a reply of [None] makes the commit fail, and the handler
    rolls back and re-raises. *)
Definition add_message (conversation_id : Z) (role : string)
           (content : option string)
           (tool_invocations : option (list invocation)) : M Message :=
  fun w =>
    (* Get next sequence number *)
    let max_seq := or_minus_one (max_sequence_number conversation_id w) in
    let next_seq := max_seq + 1 in
    match content with
    | None => (Raise (DBAPIError "null value in column content violates not-null constraint"), w)
    | Some text =>
        (* Create message *)
        let message :=
          mkMessage (message_seq w) conversation_id role text next_seq (now w)
                    (match tool_invocations with
                     | Some ((_ :: _) as l) => Some l
                     | _ => None
                     end) in
        let w1 := set_messages (messages w ++ [message]) (message_seq w + 1) w in
        (* Update conversation timestamp *)
        let w2 :=
          set_conversations
            (map (fun c => if conv_id c =? conversation_id
                           then mkConversation (conv_id c) (conv_user_id c)
                                               (conv_created_at c) (now w)
                           else c)
                 (conversations w1))
            (conversation_seq w1) w1 in
        (Ok message, w2)
    end.

(** [ConversationService.log_tool_invocation] *)
Definition log_tool_invocation (user_id : Z) (tool_name : string)
           (inputs : dict) (outputs : option jval) (success : bool)
           (error_message : option string) (message_id : option Z)
  : M ToolInvocationLog :=
  fun w =>
    let log :=
      mkLog (log_seq w) user_id message_id tool_name inputs
            (match outputs with
             | Some v => if truthy v then Some v else None
             | None => None
             end)
            success error_message (now w) in
    (Ok log, set_logs (tool_invocation_logs w ++ [log]) (log_seq w + 1) w).

(** Rows by [sequence_number] descending: insertion into a list that is
    already in that order. *)
Fixpoint insert_desc (m : Message) (l : list Message) : list Message :=
  match l with
  | [] => [m]
  | x :: l' =>
      if sequence_number x <? sequence_number m then m :: l
      else x :: insert_desc m l'
  end.

(** [.order_by(Message.sequence_number.desc())] *)
Definition order_by_sequence_desc (l : list Message) : list Message :=
  fold_right insert_desc [] l.

(** [ConversationService.load_conversation_messages] *)
Definition load_conversation_messages (conversation_id user_id : Z)
           (limit : nat) : M (list chat_message) :=
  w <- get_world ;;
  (* Verify conversation belongs to user *)
  match get_conversation conversation_id w with
  | Some conversation =>
      if negb (conv_user_id conversation =? user_id)
      then raise (ValueError "Conversation not found or does not belong to user")
      else
        (* Load messages ordered by sequence *)
        let rows :=
          firstn limit
            (order_by_sequence_desc
               (filter (fun m => msg_conversation_id m =? conversation_id)
                       (messages w))) in
        (* Reverse to get chronological order *)
        let rows := rev rows in
        (* Convert to OpenAI format *)
        ret (map (fun msg => mkChatMessage (msg_role msg) (msg_content msg)) rows)
  | None => raise (ValueError "Conversation not found or does not belong to user")
  end.

(* ===================================================================== *)
(** ** api/routes/chat.py *)
(* ===================================================================== *)

(** schemas/chat.py *)
Record ChatRequest : Type := mkChatRequest {
  conversation_id : option Z;
  message : string
}.

Record ChatResponse : Type := mkChatResponse {
  resp_conversation_id : Z;
  resp_message_id : Z;
  response : string;
  resp_tool_invocations : list invocation
}.

Module Routes.

(** The [for tool_inv in tool_invocations] loop of the handler. *)
Fixpoint log_tool_invocations (tool_invocations : list invocation)
         (user_id : Z) (message_id : Z) : M unit :=
  match tool_invocations with
  | [] => ret tt
  | tool_inv :: rest =>
      log_tool_invocation user_id (inv_tool tool_inv) (inv_inputs tool_inv)
        (inv_outputs tool_inv)
        (match inv_error tool_inv with None => true | Some _ => false end)
        (inv_error tool_inv) (Some message_id) ;;;
      log_tool_invocations rest user_id message_id
  end.

(** [POST /chat]; [agent] is the [AgentService()] the handler builds and
    [user_id] the caller that [get_current_user] read from the token. *)
Definition chat (agent : AgentService) (request : ChatRequest)
           (user_id : Z) : M ChatResponse :=
  try_except
    ((* Validate message *)
     (if String.eqb (message request) ""
         || (Py.len (Py.strip (message request)) =? 0)
      then raise (HTTPException 400 "VALIDATION_ERROR" "Message cannot be empty")
      else ret tt) ;;;
     (if 10000 <? Py.len (message request)
      then raise (HTTPException 400 "VALIDATION_ERROR"
                    "Message must be less than 10000 characters")
      else ret tt) ;;;
     (* Create or load conversation *)
     loaded <-
       (match conversation_id request with
        | None =>
            conversation <- create_conversation user_id ;;
            ret (conv_id conversation, [])
        | Some conversation_id =>
            conversation_history <-
              try_except
                (load_conversation_messages conversation_id user_id 50)
                (fun e =>
                   if is_ValueError e
                   then raise (HTTPException 404 "NOT_FOUND" "Conversation not found")
                   else raise e) ;;
            ret (conversation_id, conversation_history)
        end) ;;
     let conversation_id := fst loaded in
     (* Add user message to conversation *)
     user_message <-
       add_message conversation_id "user" (Some (message request)) None ;;
     (* Add user message to conversation history for agent *)
     let conversation_history :=
       (snd loaded ++ [mkChatMessage "user" (message request)])%list in
     (* Call AI agent *)
     answer <-
       try_except
         (chat agent conversation_history user_id)
         (fun e => raise (HTTPException 500 "AGENT_ERROR"
                            "Failed to get response from AI agent")) ;;
     let response_text := fst answer in
     let tool_invocations := snd answer in
     (* Add assistant message to conversation *)
     assistant_message <-
       add_message conversation_id "assistant" response_text
                   (Some tool_invocations) ;;
     (* Log tool invocations *)
     log_tool_invocations tool_invocations user_id (msg_id assistant_message) ;;;
     (* Return response *)
     ret (mkChatResponse conversation_id (msg_id assistant_message)
            (match response_text with Some t => t | None => "" end)
            tool_invocations))
    (fun e =>
       match e with
       | HTTPException _ _ _ => raise e
       | _ => raise (HTTPException 500 "INTERNAL_ERROR"
                       "An unexpected error occurred while processing your message")
       end).

End Routes.

(* ===================================================================== *)
(** ** Concrete worlds and providers used in the examples *)
(* ===================================================================== *)

(** Empty tables, every key sequence at 1, the clock at 0. *)
Definition empty_world : world := mkWorld [] [] [] [] 1 1 1 1 0 0.

(** An agent whose provider is unreachable: every request raises. *)
Definition unavailable : AgentService :=
  mkAgentService "You are a helpful task management assistant." (fun _ => None).

(* ===================================================================== *)
(** ** What a tool may do to the world

    One tool call on behalf of [uid] leaves the world alone, or inserts a
    task of [uid], or rewrites or deletes a row that belonged to [uid]. *)
(* ===================================================================== *)

Inductive task_effect (uid : Z) (w : world) : world -> Prop :=
| eff_none : task_effect uid w w
| eff_insert : forall title description created updated,
    task_effect uid w
      (set_tasks (tasks w ++ [mkTask (task_seq w) title description false uid
                                     created updated])
                 (task_seq w + 1) w)
| eff_update : forall task task',
    In task (tasks w) -> task_user_id task = uid ->
    task_id task' = task_id task -> task_user_id task' = uid ->
    task_effect uid w
      (set_tasks (map (fun t => if task_id t =? task_id task' then task' else t)
                      (tasks w))
                 (task_seq w) w)
| eff_delete : forall task,
    In task (tasks w) -> task_user_id task = uid ->
    task_effect uid w
      (set_tasks (filter (fun t => negb (task_id t =? task_id task)) (tasks w))
                 (task_seq w) w).

(** What one run of the agent for [uid] may do: any number of such steps
    and of requests to the provider, one after the other. *)
Inductive agent_effects (uid : Z) : world -> world -> Prop :=
| effs_refl : forall w, agent_effects uid w w
| effs_tool : forall w1 w2 w3,
    agent_effects uid w1 w2 -> task_effect uid w2 w3 -> agent_effects uid w1 w3
| effs_request : forall w1 w2,
    agent_effects uid w1 w2 -> agent_effects uid w1 (count_provider_call w2).

(** The primary key of the task table: ids are unique and below the next
    value of the sequence. *)
Definition task_keys_ok (w : world) : Prop :=
  NoDup (map task_id (tasks w)) /\
  Forall (fun t => task_id t < task_seq w) (tasks w).

(** The tasks that do not belong to [uid]. *)
Definition tasks_of_others (uid : Z) (ts : list Task) : list Task :=
  filter (fun t => negb (task_user_id t =? uid)) ts.

(** The tables of the conversation service and the clock. *)
Definition same_conversations (w w' : world) : Prop :=
  conversations w' = conversations w /\ messages w' = messages w /\
  tool_invocation_logs w' = tool_invocation_logs w /\
  conversation_seq w' = conversation_seq w /\
  message_seq w' = message_seq w /\ log_seq w' = log_seq w /\
  now w' = now w.

(* ===================================================================== *)
(** ** Notions used in the statements *)
(* ===================================================================== *)

(** What of the world a tool reads on behalf of [uid]: the rows of [uid],
    the next key and the clock. *)
Definition own_view (uid : Z) (w : world) : list Task * Z * Z :=
  (tasks_of uid (tasks w), task_seq w, now w).

(** A tool that returns, returns a dict that is not empty. *)
Definition returns_truthy (r : result jval) : Prop :=
  match r with
  | Ok v => truthy v = true
  | Raise _ => True
  end.

(** The two shapes of a recorded call: outputs and no error, or an error
    and no outputs. *)
Definition invocation_ok (inv : invocation) : Prop :=
  (exists v, inv_outputs inv = Some v /\ truthy v = true /\ inv_error inv = None)
  \/ (exists msg, inv_outputs inv = None /\ inv_error inv = Some msg).

(** A computation is an [R]-step of the world, and what it returns
    satisfies [Q]. *)
Definition run_ok (R : world -> world -> Prop) {A} (m : M A) (Q : A -> Prop)
  : Prop :=
  forall w, R w (snd (m w)) /\
            match fst (m w) with Ok a => Q a | Raise _ => True end.

(** The invariant of an audit record. *)
Definition audit_ok (l : ToolInvocationLog) : Prop :=
  success l = true <-> (error_message l = None /\ log_outputs l <> None).

(** The log only grows, and by records that satisfy the invariant. *)
Definition log_grows (w w' : world) : Prop :=
  exists new, tool_invocation_logs w' = (tool_invocation_logs w ++ new)%list
              /\ Forall audit_ok new.

(** Two users, one task each. *)
Definition two_tenants : world :=
  mkWorld [mkTask 1 "pay rent" None false 1 0 0;
           mkTask 2 "call bank" None false 2 0 0]
          [] [] [] 3 1 1 1 5 0.

(** Arguments by which the provider asks to complete task 2 and names its
    owner, user 2. *)
Definition foreign_arguments : jval :=
  JDict [("task_id", JInt 2); ("completed", JBool true); ("user_id", JInt 2)].

(** The conversation is absent or owned by somebody else. *)
Definition not_owned (cid uid : Z) (w : world) : Prop :=
  match get_conversation cid w with
  | None => True
  | Some c => conv_user_id c <> uid
  end.

(** The handler lets the message through its two checks. *)
Definition message_valid (msg : string) : Prop :=
  (String.eqb msg "" || (Py.len (Py.strip msg) =? 0)) = false
  /\ (10000 <? Py.len msg) = false.

(** User 1 owns conversation 1 and has said "hello" in it. *)
Definition one_conversation : world :=
  mkWorld [] [mkConversation 1 1 0 0]
          [mkMessage 1 1 "user" "hello" 0 0 None] [] 1 2 2 1 5 0.

(** The intents of the fallback. *)
Inductive intent : Type :=
| Greeting | Create | List | Update | Delete | Unknown.

(** The keyword sets, tested on the lower-cased message in this order:
    the first that matches wins. *)
Definition classify (message_content : string) : intent :=
  if Py.contains "hello" message_content || Py.contains "hi" message_content
     || Py.contains "hey" message_content
  then Greeting
  else if Py.any_in ["create"; "add"; "make"; "new"] message_content then Create
  else if Py.any_in ["show"; "list"; "view"; "see"; "my tasks"] message_content then List
  else if Py.any_in ["update"; "complete"; "done"; "finish"] message_content then Update
  else if Py.any_in ["delete"; "remove"] message_content then Delete
  else Unknown.

(** The lower-cased text that the fallback classifies. *)
Definition latest_content (messages : list chat_message) : string :=
  match last_message messages with
  | Ok m => Py.lower (cm_content m)
  | Raise _ => ""
  end.

(** The arguments of a call decode to a JSON object. *)
Definition arguments_object (tc : tool_call) : Prop :=
  exists d, tc_arguments tc = Some (JDict d).

(** What the decoded arguments are when they are an object. *)
Definition arguments_of (tc : tool_call) : dict :=
  match tc_arguments tc with
  | Some (JDict d) => d
  | _ => []
  end.

(** The calls carried out one after the other, in the order given, each at
    the world that the calls before it left, failed or not; every call
    contributes one record. *)
Fixpoint sequential (calls : list tool_call) (uid : Z) (w : world)
  : list invocation * world :=
  match calls with
  | [] => ([], w)
  | tc :: rest =>
      let (r, w1) := _execute_tool (tc_name tc) (JDict (arguments_of tc)) uid w in
      let res := match r with Ok res => res | Raise _ => mkToolResult None None end in
      let (invs, w2) := sequential rest uid w1 in
      (mkInvocation (tc_name tc)
                    (dict_set "user_id" (JInt uid) (arguments_of tc))
                    (outputs res) (error res) :: invs,
       w2)
  end.

(** A provider that plans the given calls and then answers [reply]. *)
Definition planner (calls : list tool_call) (reply : option string) : AgentService :=
  mkAgentService "You are a helpful task management assistant."
    (fun req => if req_tools req
                then Some (mkCompletion None calls)
                else Some (mkCompletion reply [])).

(** A provider that plans the given calls and is unreachable afterwards. *)
Definition planner_then_down (calls : list tool_call) : AgentService :=
  mkAgentService "You are a helpful task management assistant."
    (fun req => if req_tools req then Some (mkCompletion None calls) else None).

(** A call whose arguments are the JSON text [[]], followed by a call that
    creates a task. *)
Definition list_then_create : list tool_call :=
  [mkToolCall "call_1" "list_tasks" (Some (JList []));
   mkToolCall "call_2" "create_task" (Some (JDict [("title", JStr "buy milk")]))].

(** A call whose argument text is no JSON at all, followed by a call that
    creates a task. *)
Definition undecodable_then_create : list tool_call :=
  [mkToolCall "call_1" "list_tasks" None;
   mkToolCall "call_2" "create_task" (Some (JDict [("title", JStr "buy milk")]))].

(** A call of an unknown tool, followed by a call that creates a task. *)
Definition unknown_then_create : list tool_call :=
  [mkToolCall "call_1" "archive_task" (Some (JDict [("task_id", JInt 1)]));
   mkToolCall "call_2" "create_task" (Some (JDict [("title", JStr "buy milk")]))].

(* ===================================================================== *)
(** ** services/conversation.py: the list of a user's conversations *)
(* ===================================================================== *)

(** Rows by a key, descending: insertion into a list that is already in
    that order. *)
Fixpoint insert_desc_by {A} (key : A -> Z) (a : A) (l : list A) : list A :=
  match l with
  | [] => [a]
  | x :: l' => if key x <? key a then a :: l else x :: insert_desc_by key a l'
  end.

(** [.order_by(column.desc())] *)
Definition order_desc_by {A} (key : A -> Z) (l : list A) : list A :=
  fold_right (insert_desc_by key) [] l.

(** Rows by a key, ascending; rows of equal key stay in the order in which
    they were stored. *)
Fixpoint insert_asc_by {A} (key : A -> Z) (a : A) (l : list A) : list A :=
  match l with
  | [] => [a]
  | x :: l' => if key a <=? key x then a :: l else x :: insert_asc_by key a l'
  end.

(** [.order_by(column)] *)
Definition order_asc_by {A} (key : A -> Z) (l : list A) : list A :=
  fold_right (insert_asc_by key) [] l.

(** [s[:n]] *)
Definition slice_to (n : nat) (s : string) : string := substring 0 n s.

(** The rows of one conversation. *)
Definition messages_of (conversation_id : Z) (w : world) : list Message :=
  filter (fun m => msg_conversation_id m =? conversation_id) (messages w).

(** The body of the [for conv in conversations] loop of
    [get_user_conversations]: one summary. *)
Definition conversation_summary (w : world) (conv : Conversation) : jval :=
  (* Get message count *)
  let message_count := Z.of_nat (length (messages_of (conv_id conv) w)) in
  (* Get last message preview *)
  let last_message :=
    hd_error (firstn 1 (order_by_sequence_desc (messages_of (conv_id conv) w))) in
  let last_message_preview :=
    match last_message with
    | Some m => JStr (slice_to 100 (msg_content m))
    | None => JNull
    end in
  JDict [("id", JInt (conv_id conv));
         ("created_at", JStr (isoformat (conv_created_at conv)));
         ("updated_at", JStr (isoformat (conv_updated_at conv)));
         ("message_count", JInt message_count);
         ("last_message_preview", last_message_preview)].

(** [ConversationService.get_user_conversations] *)
Definition get_user_conversations (user_id : Z) : M (list jval) :=
  try_except
    (w <- get_world ;;
     (* Load user's conversations *)
     let conversations :=
       order_desc_by conv_updated_at
         (filter (fun c => conv_user_id c =? user_id) (conversations w)) in
     (* Build summaries *)
     ret (map (conversation_summary w) conversations))
    (fun e => raise e).

(* ===================================================================== *)
(** ** api/routes/chat.py: the two read-only handlers *)
(* ===================================================================== *)

(** [GET /chat/conversations] *)
Definition list_conversations (user_id : Z) : M (list jval) :=
  try_except
    (get_user_conversations user_id)
    (fun e => raise (HTTPException 500 "INTERNAL_ERROR"
                       "Failed to retrieve conversations")).

(** One element of [tool_invocations] as the JSON it is stored as. *)
Definition invocation_json (inv : invocation) : jval :=
  JDict [("tool", JStr (inv_tool inv));
         ("inputs", JDict (inv_inputs inv));
         ("outputs", match inv_outputs inv with Some v => v | None => JNull end);
         ("error", of_opt_str (inv_error inv))].

(** One element of the ["messages"] list of [get_conversation_messages];
    the stored [tool_invocations] text is given as the value it encodes. *)
Definition message_entry (msg : Message) : jval :=
  JDict [("id", JInt (msg_id msg));
         ("role", JStr (msg_role msg));
         ("content", JStr (msg_content msg));
         ("sequence_number", JInt (sequence_number msg));
         ("created_at", JStr (isoformat (msg_created_at msg)));
         ("tool_invocations",
          match msg_tool_invocations msg with
          | Some l => JList (map invocation_json l)
          | None => JNull
          end)].

(** [.offset(offset).limit(limit)]: the database refuses a negative
    offset or limit. *)
Definition offset_limit {A} (offset limit : Z) (rows : list A) : result (list A) :=
  if (offset <? 0) || (limit <? 0)
  then Raise (DBAPIError "OFFSET and LIMIT must not be negative")
  else Ok (firstn (Z.to_nat limit) (skipn (Z.to_nat offset) rows)).

(** [GET /chat/conversations/{conversation_id}/messages] *)
Definition get_conversation_messages (conversation_id limit offset user_id : Z)
  : M jval :=
  try_except
    (w <- get_world ;;
     (* Verify conversation belongs to user *)
     conversation <-
       lift (scalar_one_or_none
               (filter (fun c => conv_id c =? conversation_id) (conversations w))) ;;
     match conversation with
     | Some c =>
         if negb (conv_user_id c =? user_id)
         then raise (HTTPException 404 "NOT_FOUND" "Conversation not found")
         else
           (* Get messages with pagination *)
           rows <- lift (offset_limit offset limit
                           (order_asc_by sequence_number
                              (messages_of conversation_id w))) ;;
           (* Get total count *)
           let total := Z.of_nat (length (messages_of conversation_id w)) in
           ret (JDict [("messages", JList (map message_entry rows));
                       ("total", JInt total)])
     | None => raise (HTTPException 404 "NOT_FOUND" "Conversation not found")
     end)
    (fun e =>
       match e with
       | HTTPException _ _ _ => raise e
       | _ => raise (HTTPException 500 "INTERNAL_ERROR" "Failed to retrieve messages")
       end).

(* ===================================================================== *)
(** ** schemas/task.py, api/deps.py and api/routes/tasks.py *)
(* ===================================================================== *)

(** A validated [TaskCreate]. *)
Record TaskCreate : Type := mkTaskCreate {
  create_title : string;
  create_description : option string
}.

(** [TaskCreate.model_validate]: for each field the constraints of the
    [Field] on the text as sent, then the field's validator.  A
    [ValidationError] is a [ValueError]; it is given by the type of its
    first error. *)
Definition validate_TaskCreate (title : string) (description : option string)
  : result TaskCreate :=
  if Py.len title <? 1 then Raise (ValueError "string_too_short")
  else if 500 <? Py.len title then Raise (ValueError "string_too_long")
  else
    (* title_not_empty *)
    if String.eqb title "" || String.eqb (Py.strip title) ""
    then Raise (ValueError "value_error")
    else
      match description with
      | Some v =>
          if 5000 <? Py.len v then Raise (ValueError "string_too_long")
          else
            (* description_length *)
            if 5000 <? Py.len v then Raise (ValueError "value_error")
            else Ok (mkTaskCreate (Py.strip title)
                                  (if String.eqb v "" then None
                                   else Some (Py.strip v)))
      | None => Ok (mkTaskCreate (Py.strip title) None)
      end.

(** A validated [TaskUpdate]; for each field, [None] when the request did
    not set it, [Some None] when it set it to [null]. *)
Record TaskUpdate : Type := mkTaskUpdate {
  update_title : option (option string);
  update_description : option (option string);
  update_completed : option (option bool)
}.

(** [TaskUpdate.model_validate] *)
Definition validate_TaskUpdate (title description : option (option string))
           (completed : option (option bool)) : result TaskUpdate :=
  match
    match title with
    | Some (Some v) =>
        if Py.len v <? 1 then Raise (ValueError "string_too_short")
        else if 500 <? Py.len v then Raise (ValueError "string_too_long")
        else
          (* title_not_empty *)
          if String.eqb v "" || String.eqb (Py.strip v) ""
          then Raise (ValueError "value_error")
          else Ok (Some (Some (Py.strip v)))
    | _ => Ok title
    end
  with
  | Raise e => Raise e
  | Ok title' =>
      match description with
      | Some (Some v) =>
          if 5000 <? Py.len v then Raise (ValueError "string_too_long")
          else Ok (mkTaskUpdate title' description completed)
      | _ => Ok (mkTaskUpdate title' description completed)
      end
  end.

(** [verify_user_access] (api/deps.py): the user of the path must be the
    user of the token. *)
Definition verify_user_access (user_id current_user_id : Z) : M Z :=
  if negb (current_user_id =? user_id)
  then raise (HTTPException 403 "FORBIDDEN" "Cannot access another user's resources")
  else ret current_user_id.

Module TaskRoutes.

(** The [except] clauses shared by the handlers that look a task up. *)
Definition internal_error (message : string) {A} (e : exn) : M A :=
  match e with
  | HTTPException _ _ _ => raise e
  | _ => rollback ;;; raise (HTTPException 500 "INTERNAL_ERROR" message)
  end.

(** [select(Task).where(Task.id == task_id, Task.user_id == user_id)] then
    [scalar_one_or_none()], for a [task_id] that is an [int]. *)
Definition find_own_task (task_id_arg user_id : Z) : M (option Task) :=
  w <- get_world ;;
  lift (scalar_one_or_none
          (filter (fun t => (task_id t =? task_id_arg) && (task_user_id t =? user_id))
                  (tasks w))).

(** [POST /users/{user_id}/tasks]; [current_user_id] is the user of the
    token.  The caller's row exists in the user table (no handler deletes
    a user), so the foreign key holds. *)
Definition create_task (current_user_id user_id : Z) (task_data : TaskCreate)
  : M Task :=
  verify_user_access user_id current_user_id ;;;
  try_except
    (created <- utcnow ;;
     updated <- utcnow ;;
     insert_task (create_title task_data) (create_description task_data)
                 user_id created updated)
    (fun e =>
       if is_ValueError e
       then rollback ;;; raise (HTTPException 400 "VALIDATION_ERROR" (str e))
       else rollback ;;;
            raise (HTTPException 500 "INTERNAL_ERROR"
                     "An unexpected error occurred while creating the task")).

(** [GET /users/{user_id}/tasks] *)
Definition get_tasks (current_user_id user_id : Z) : M (list Task) :=
  verify_user_access user_id current_user_id ;;;
  try_except
    (w <- get_world ;;
     ret (tasks_of user_id (tasks w)))
    (fun e => raise (HTTPException 500 "INTERNAL_ERROR"
                       "An unexpected error occurred while retrieving tasks")).

(** [GET /users/{user_id}/tasks/{task_id}] *)
Definition get_task (current_user_id user_id task_id_arg : Z) : M Task :=
  verify_user_access user_id current_user_id ;;;
  try_except
    (task <- find_own_task task_id_arg user_id ;;
     match task with
     | None => raise (HTTPException 404 "NOT_FOUND" "Task not found")
     | Some t => ret t
     end)
    (fun e =>
       match e with
       | HTTPException _ _ _ => raise e
       | _ => raise (HTTPException 500 "INTERNAL_ERROR"
                       "An unexpected error occurred while retrieving the task")
       end).

(** What the commit makes of an attribute that was set: a [None] in a
    column that is not nullable is refused. *)
Definition not_null {A} (column : string) (old : A) (set : option (option A))
  : result A :=
  match set with
  | None => Ok old
  | Some (Some v) => Ok v
  | Some None =>
      Raise (DBAPIError ("null value in column " ++ column
                         ++ " violates not-null constraint"))
  end.

(** [PUT /users/{user_id}/tasks/{task_id}] *)
Definition update_task (current_user_id user_id task_id_arg : Z)
           (task_data : TaskUpdate) : M Task :=
  verify_user_access user_id current_user_id ;;;
  try_except
    (task <- find_own_task task_id_arg user_id ;;
     match task with
     | None => raise (HTTPException 404 "NOT_FOUND" "Task not found")
     | Some t =>
         (* Partial update - only update provided fields *)
         let description' :=
           match update_description task_data with
           | Some v => v
           | None => task_description t
           end in
         (* Update timestamp *)
         updated <- utcnow ;;
         title' <- lift (not_null "title" (task_title t) (update_title task_data)) ;;
         completed' <- lift (not_null "completed" (task_completed t)
                                      (update_completed task_data)) ;;
         let t' := mkTask (task_id t) title' description' completed'
                          (task_user_id t) (task_created_at t) updated in
         commit_task t' ;;;
         ret t'
     end)
    (fun e =>
       match e with
       | HTTPException _ _ _ => raise e
       | ValueError m =>
           rollback ;;; raise (HTTPException 400 "VALIDATION_ERROR" m)
       | _ => rollback ;;;
              raise (HTTPException 500 "INTERNAL_ERROR"
                       "An unexpected error occurred while updating the task")
       end).

(** [DELETE /users/{user_id}/tasks/{task_id}] *)
Definition delete_task (current_user_id user_id task_id_arg : Z) : M jval :=
  verify_user_access user_id current_user_id ;;;
  try_except
    (task <- find_own_task task_id_arg user_id ;;
     match task with
     | None => raise (HTTPException 404 "NOT_FOUND" "Task not found")
     | Some t =>
         delete_row t ;;;
         ret (JDict [("message", JStr "Task deleted successfully")])
     end)
    (fun e => internal_error "An unexpected error occurred while deleting the task" e).

End TaskRoutes.

(* ===================================================================== *)
(** ** Further notions used in the statements *)
(* ===================================================================== *)

(** No row of the caller has the key [id]. *)
Definition not_own_task (id uid : Z) (w : world) : Prop :=
  forall t, In t (tasks w) -> task_id t = id -> task_user_id t <> uid.


(** The line of the list reply for the [i]-th task. *)
Definition task_line (i : Z) (task : Task) : string :=
  String "010" (Py.str_of_int i) ++ ". " ++ task_title task ++ " ("
  ++ (if task_completed task then "completed" else "not completed") ++ ")".

(** The lines of the list reply, numbered from [i]. *)
Fixpoint task_lines (i : Z) (rows : list Task) : string :=
  match rows with
  | [] => ""
  | task :: rows' => task_line i task ++ task_lines (i + 1) rows'
  end.

(** The first request of a run: the prompt, the history, the tools. *)
Definition planning_request (self : AgentService) (messages : list chat_message)
  : request :=
  mkRequest (Plain (mkChatMessage "system" (SYSTEM_PROMPT self)) :: map Plain messages)
            true.

(** The second request of a run: the first one's messages, the provider's
    answer and one tool message per call. *)
Definition grounding_request (self : AgentService) (messages : list chat_message)
           (answer : completion_message) (invs : list invocation) : request :=
  mkRequest
    ((Plain (mkChatMessage "system" (SYSTEM_PROMPT self)) :: map Plain messages)
     ++ [AssistantToolCalls
           (match content answer with Some c => c | None => "" end)
           (tool_calls answer)]
     ++ map (fun p => ToolMessage (tc_id (fst p)) (tool_payload (snd p)))
            (combine (tool_calls answer) invs))%list
    false.

(** The agent's answer when it falls back at world [w]. *)
Definition fallback_answer (messages : list chat_message) (uid : Z) (w : world)
  : result (option string * list invocation) * world :=
  match fallback messages uid w with
  | (Ok r, w') => (Ok (Some (fst r), snd r), w')
  | (Raise e, w') => (Raise e, w')
  end.

(** What of a conversation never changes: id, owner, creation time. *)
Definition conversation_key (c : Conversation) : Z * Z * Z :=
  (conv_id c, conv_user_id c, conv_created_at c).

(** The conversations of [w] are all in [w'], in place and with the same
    id, owner and creation time; what [w'] has more belongs to [uid]. *)
Definition conversations_kept (uid : Z) (w w' : world) : Prop :=
  exists new,
    map conversation_key (conversations w')
    = (map conversation_key (conversations w) ++ map conversation_key new)%list
    /\ Forall (fun c => conv_user_id c = uid) new.

(** The primary key of the conversation table: ids are unique and below
    the next value of the sequence. *)
Definition conversation_keys_ok (w : world) : Prop :=
  NoDup (map conv_id (conversations w)) /\
  Forall (fun c => conv_id c < conversation_seq w) (conversations w).

(** The key invariant of the task table is kept and the tasks of the
    users other than [uid] stay. *)
Definition tasks_guarded (uid : Z) (w w' : world) : Prop :=
  task_keys_ok w ->
  task_keys_ok w'
  /\ tasks_of_others uid (tasks w') = tasks_of_others uid (tasks w).

(** The message table only grows, by messages of the conversation
    [target], and grows only if [P]. *)
Definition messages_only_into (target : Z) (P : Prop) (w w' : world) : Prop :=
  exists new,
    messages w' = (messages w ++ new)%list
    /\ Forall (fun m => msg_conversation_id m = target) new
    /\ (new <> [] -> P).

(** The conversation that a chat request writes to: the one it names, or
    the one it creates. *)
Definition target_conversation (request : ChatRequest) (w : world) : Z :=
  match conversation_id request with
  | Some cid => cid
  | None => conversation_seq w
  end.

(** The caller owns the conversation that the request names. *)
Definition names_own_conversation (request : ChatRequest) (uid : Z) (w : world)
  : Prop :=
  match conversation_id request with
  | Some cid => exists c, get_conversation cid w = Some c /\ conv_user_id c = uid
  | None => True
  end.

(** The audit record that the handler writes for an invocation, up to its
    key and time. *)
Definition audit_entry (uid message_id : Z) (inv : invocation)
  : Z * option Z * string * dict * option string :=
  (uid, Some message_id, inv_tool inv, inv_inputs inv, inv_error inv).

Definition log_entry (l : ToolInvocationLog)
  : Z * option Z * string * dict * option string :=
  (log_user_id l, log_message_id l, tool_name l, log_inputs l, error_message l).

(** What [lstrip] returns does not start with white space, and [rstrip]
    keeps that. *)
Definition starts_clean (s : string) : Prop :=
  match s with
  | EmptyString => True
  | String c _ => Py.isspace c = false
  end.

(* ===================================================================== *)
(** * Properties *)
(* ===================================================================== *)

(** ** The effect of a tool on the world *)

Lemma same_conversations_refl (w : world) : same_conversations w w.
Proof. unfold same_conversations; tauto. Qed.

Lemma same_conversations_trans (w1 w2 w3 : world) :
  same_conversations w1 w2 -> same_conversations w2 w3 -> same_conversations w1 w3.
Proof.
  unfold same_conversations; intros H12 H23.
  decompose [and] H12; decompose [and] H23.
  repeat split; congruence.
Qed.

Lemma task_effect_same_conversations (uid : Z) (w w' : world) :
  task_effect uid w w' -> same_conversations w w'.
Proof.
  destruct 1; unfold same_conversations; simpl; tauto.
Qed.

(** A tool sends nothing to the provider. *)
Lemma task_effect_provider_calls (uid : Z) (w w' : world) :
  task_effect uid w w' -> provider_calls w' = provider_calls w.
Proof. destruct 1; reflexivity. Qed.

Lemma agent_effects_same_conversations (uid : Z) (w w' : world) :
  agent_effects uid w w' -> same_conversations w w'.
Proof.
  induction 1 as [w | w1 w2 w3 _ IH Hstep | w1 w2 _ IH].
  - apply same_conversations_refl.
  - eapply same_conversations_trans; [exact IH |].
    eapply task_effect_same_conversations; eassumption.
  - eapply same_conversations_trans; [exact IH |].
    unfold same_conversations; simpl; tauto.
Qed.

Lemma agent_effects_one (uid : Z) (w w' : world) :
  task_effect uid w w' -> agent_effects uid w w'.
Proof. intro H. eapply effs_tool; [apply effs_refl | exact H]. Qed.

Lemma agent_effects_trans (uid : Z) (w1 w2 w3 : world) :
  agent_effects uid w1 w2 -> agent_effects uid w2 w3 -> agent_effects uid w1 w3.
Proof.
  intros H12 H23. induction H23 as [w | w2 w3 w4 _ IH Hstep | w2 w3 _ IH].
  - exact H12.
  - eapply effs_tool; [apply IH; exact H12 | exact Hstep].
  - apply effs_request. apply IH. exact H12.
Qed.

(** Rewriting the row with a given key touches no row with another key. *)
Lemma map_rewrite_key (task' : Task) (ts : list Task) :
  map task_id (map (fun t => if task_id t =? task_id task' then task' else t) ts)
  = map task_id ts.
Proof.
  induction ts as [| t ts IH]; simpl; [reflexivity |].
  rewrite IH. destruct (task_id t =? task_id task') eqn:E; [| reflexivity].
  apply Z.eqb_eq in E. now rewrite E.
Qed.

(** Dropping rows keeps the keys unique. *)
Lemma keys_unique_filter (keep : Task -> bool) (ts : list Task) :
  NoDup (map task_id ts) -> NoDup (map task_id (filter keep ts)).
Proof.
  induction ts as [| t ts IH]; simpl; intro H; [constructor |].
  inversion H as [| x xs Hnotin Hnd]; subst.
  destruct (keep t); simpl; [| now apply IH].
  constructor; [| now apply IH].
  intro Hin. apply Hnotin. apply in_map_iff in Hin.
  destruct Hin as [y [Hy Hin]]. apply filter_In in Hin.
  apply in_map_iff. exists y. tauto.
Qed.

Lemma NoDup_snoc {A} (l : list A) (x : A) :
  NoDup l -> ~ In x l -> NoDup (l ++ [x]).
Proof.
  induction l as [| a l IH]; simpl; intros Hnd Hx.
  - constructor; [tauto | constructor].
  - inversion Hnd as [| y ys Hnotin Hnd']; subst.
    constructor.
    + rewrite in_app_iff. simpl. intros [Hin | [Heq | []]]; [tauto |].
      apply Hx. now left.
    + apply IH; tauto.
Qed.

(** With unique keys, a key found on a row of [uid] is on no row of
    another user. *)
Lemma key_of_one_owner (uid : Z) (ts : list Task) (task t : Task) :
  NoDup (map task_id ts) -> In task ts -> In t ts ->
  task_id t = task_id task -> t = task.
Proof.
  induction ts as [| x ts IH]; simpl; intros Hnd Hin1 Hin2 Hid; [contradiction |].
  inversion Hnd as [| y ys Hnotin Hnd']; subst.
  destruct Hin1 as [-> | Hin1], Hin2 as [-> | Hin2]; auto.
  - exfalso. apply Hnotin. rewrite <- Hid. now apply in_map.
  - exfalso. apply Hnotin. rewrite Hid. now apply in_map.
Qed.

Lemma task_effect_keys_ok (uid : Z) (w w' : world) :
  task_keys_ok w -> task_effect uid w w' -> task_keys_ok w'.
Proof.
  intros [Hnd Hlt] Heff. destruct Heff; unfold task_keys_ok; simpl.
  - now split.
  - split.
    + rewrite map_app. simpl. apply NoDup_snoc; [exact Hnd |].
      intro Hin. apply in_map_iff in Hin. destruct Hin as [t [Heq Hin]].
      rewrite Forall_forall in Hlt. specialize (Hlt t Hin). lia.
    + apply Forall_app. split.
      * eapply Forall_impl; [| exact Hlt]. simpl. intros; lia.
      * constructor; [simpl; lia | constructor].
  - split.
    + now rewrite map_rewrite_key.
    + apply Forall_forall. intros t Hin. apply in_map_iff in Hin.
      destruct Hin as [t0 [Heq Hin0]].
      rewrite Forall_forall in Hlt.
      destruct (task_id t0 =? task_id task') eqn:E; subst t.
      * rewrite H1. now apply Hlt.
      * now apply Hlt.
  - split.
    + now apply keys_unique_filter.
    + apply Forall_forall. intros t Hin. apply filter_In in Hin.
      rewrite Forall_forall in Hlt. now apply Hlt.
Qed.

Lemma filter_map_stable {A} (p : A -> bool) (f : A -> A) (l : list A) :
  (forall a, In a l -> p (f a) = p a /\ (p a = true -> f a = a)) ->
  filter p (map f l) = filter p l.
Proof.
  induction l as [| a l IH]; simpl; intro H; [reflexivity |].
  destruct (H a (or_introl eq_refl)) as [Hp Hf].
  rewrite Hp, IH by (intros; apply H; now right).
  destruct (p a) eqn:E; [| reflexivity].
  now rewrite Hf.
Qed.

Lemma filter_filter_stable {A} (p q : A -> bool) (l : list A) :
  (forall a, In a l -> p a = true -> q a = true) ->
  filter p (filter q l) = filter p l.
Proof.
  induction l as [| a l IH]; simpl; intro H; [reflexivity |].
  specialize (IH (fun x Hx => H x (or_intror Hx))).
  destruct (q a) eqn:Eq; simpl; rewrite IH; [reflexivity |].
  destruct (p a) eqn:Ep; [| reflexivity].
  rewrite (H a (or_introl eq_refl) Ep) in Eq. discriminate.
Qed.

(** A tool that runs for [uid] leaves the tasks of every other user as
    they were. *)
Lemma task_effect_others (uid : Z) (w w' : world) :
  task_keys_ok w -> task_effect uid w w' ->
  tasks_of_others uid (tasks w') = tasks_of_others uid (tasks w).
Proof.
  intros [Hnd _] Heff. unfold tasks_of_others.
  destruct Heff as [| title description created updated
                    | task task' Hin Hown Hid Hown' | task Hin Hown]; simpl.
  - reflexivity.
  - rewrite filter_app. simpl. rewrite Z.eqb_refl. simpl. apply app_nil_r.
  - apply filter_map_stable. intros t Ht.
    destruct (task_id t =? task_id task') eqn:E; [| tauto].
    apply Z.eqb_eq in E. rewrite Hid in E.
    assert (t = task) by (eapply key_of_one_owner; eauto). subst t.
    rewrite Hown, Hown', Z.eqb_refl. simpl. split; [reflexivity | discriminate].
  - apply filter_filter_stable. intros t Ht Hother.
    destruct (task_id t =? task_id task) eqn:E; [| reflexivity].
    apply Z.eqb_eq in E.
    assert (t = task) by (eapply key_of_one_owner; eauto). subst t.
    rewrite Hown, Z.eqb_refl in Hother. discriminate.
Qed.

Lemma agent_effects_keys_ok (uid : Z) (w w' : world) :
  agent_effects uid w w' -> task_keys_ok w -> task_keys_ok w'.
Proof.
  induction 1 as [w | w1 w2 w3 _ IH Hstep | w1 w2 _ IH]; intro Hok.
  - exact Hok.
  - eapply task_effect_keys_ok; [apply IH; exact Hok | exact Hstep].
  - apply IH in Hok. exact Hok.
Qed.

Lemma agent_effects_others (uid : Z) (w w' : world) :
  agent_effects uid w w' -> task_keys_ok w ->
  tasks_of_others uid (tasks w') = tasks_of_others uid (tasks w).
Proof.
  induction 1 as [w | w1 w2 w3 H12 IH Hstep | w1 w2 _ IH]; intro Hok.
  - reflexivity.
  - rewrite <- IH by exact Hok.
    eapply task_effect_others; [| exact Hstep].
    eapply agent_effects_keys_ok; eassumption.
  - simpl. now apply IH.
Qed.

(** ** The four tools *)

(** Messages are not computed while a proof walks through the cases. *)
#[local] Arguments String.append : simpl never.
#[local] Arguments Py.str_of_int : simpl never.

(** Unfolds the monad and the store primitives. *)
Ltac run_monad :=
  unfold try_except, bind, ret, raise, lift, get_world, utcnow, rollback,
    reraise_as, insert_task, commit_task, delete_row; simpl.

(** Splits on the next test or match that blocks the computation: first on
    the shape of a Python value that is inspected, then on a test. *)
Ltac split_value :=
  match goal with
  | |- context [truthy ?v] => is_var v; destruct v
  | |- context [py_len ?v] => is_var v; destruct v
  | |- context [bind_text ?v] => is_var v; destruct v
  | |- context [bind_opt_text ?v] => is_var v; destruct v
  | |- context [bind_bool ?v] => is_var v; destruct v
  | |- context [bind_int ?v] => is_var v; destruct v
  | |- context [match ?v with JNull => _ | _ => _ end] => is_var v; destruct v
  | |- context [of_opt_str ?o] => destruct o
  end; simpl.

Ltac split_test :=
  match goal with
  | |- context [if ?b then _ else _] => destruct b eqn:?
  | |- context [match ?x with Some _ => _ | None => _ end] => destruct x eqn:?
  | |- context [match ?x with [] => _ | _ :: _ => _ end] => destruct x eqn:?
  | |- context [match ?x with Ok _ => _ | Raise _ => _ end] => destruct x eqn:?
  end; simpl.

Ltac split_next := first [split_value | split_test]; run_monad.

Lemma create_task_effect (title : jval) (uid : Z) (description : jval) (w : world) :
  task_effect uid w (snd (create_task title uid description w)).
Proof.
  unfold create_task. run_monad.
  repeat split_next; try apply eff_none; apply eff_insert.
Qed.

Lemma list_tasks_effect (uid : Z) (completed : jval) (w : world) :
  snd (list_tasks uid completed w) = w.
Proof.
  unfold list_tasks. run_monad. repeat split_next; reflexivity.
Qed.

(** A row that the ownership query returned is a row of the caller. *)
Lemma owned_row_found (id uid : Z) (ts : list Task) (task : Task) (rest : list Task) :
  filter (fun t => (task_id t =? id) && (task_user_id t =? uid)) ts = task :: rest ->
  In task ts /\ task_user_id task = uid.
Proof.
  intro H.
  assert (Hin : In task (filter (fun t => (task_id t =? id) && (task_user_id t =? uid)) ts))
    by (rewrite H; now left).
  apply filter_In in Hin. destruct Hin as [Hin Hc].
  apply andb_true_iff in Hc. destruct Hc as [_ Hu]. apply Z.eqb_eq in Hu. tauto.
Qed.

Lemma update_task_effect (task_id_arg : jval) (uid : Z)
      (title description completed : jval) (w : world) :
  task_effect uid w (snd (update_task task_id_arg uid title description completed w)).
Proof.
  unfold update_task, find_task, scalar_one_or_none. run_monad.
  destruct task_id_arg; simpl; try apply eff_none.
  destruct (filter _ (tasks w)) as [| task [| second rest]] eqn:Hrows; simpl;
    try apply eff_none.
  destruct (owned_row_found _ _ _ Hrows) as [Hin Hown].
  repeat split_next; try apply eff_none;
    match goal with
    | |- task_effect _ _ (set_tasks (map (fun t => if _ then ?t' else _) _) _ _) =>
        apply eff_update with (task := task) (task' := t'); auto
    end.
Qed.

Lemma delete_task_effect (task_id_arg : jval) (uid : Z) (w : world) :
  task_effect uid w (snd (delete_task task_id_arg uid w)).
Proof.
  unfold delete_task, find_task, scalar_one_or_none. run_monad.
  destruct task_id_arg; simpl; try apply eff_none.
  destruct (filter _ (tasks w)) as [| task [| second rest]] eqn:Hrows; simpl;
    try apply eff_none.
  destruct (owned_row_found _ _ _ Hrows) as [Hin Hown].
  now apply eff_delete.
Qed.

Lemma call_tool_effect (t : tool) (uid : Z) (tool_args : jval) (w : world) :
  task_effect uid w (snd (call_tool t uid tool_args w)).
Proof.
  unfold call_tool, bind, lift.
  destruct (bind_keywords t tool_args) as [kw | e]; [| apply eff_none].
  destruct t.
  - apply create_task_effect.
  - rewrite list_tasks_effect. apply eff_none.
  - apply update_task_effect.
  - apply delete_task_effect.
Qed.

(** [_execute_tool] never raises: a failure comes back as the [error] of
    the result. *)
Lemma execute_tool_returns (tool_name : string) (tool_args : jval) (uid : Z) (w : world) :
  exists r, fst (_execute_tool tool_name tool_args uid w) = Ok r.
Proof.
  unfold _execute_tool, try_except, bind, ret, raise.
  destruct (tool_map tool_name) as [t |]; [| eexists; reflexivity].
  destruct (call_tool t uid tool_args w) as [[v | e] w']; eexists; reflexivity.
Qed.

Lemma execute_tool_effect (tool_name : string) (tool_args : jval) (uid : Z) (w : world) :
  task_effect uid w (snd (_execute_tool tool_name tool_args uid w)).
Proof.
  unfold _execute_tool, try_except, bind, ret, raise.
  destruct (tool_map tool_name) as [t |]; [| apply eff_none].
  pose proof (call_tool_effect t uid tool_args w) as H.
  destruct (call_tool t uid tool_args w) as [[v | e] w']; exact H.
Qed.

(** ** The agent *)

(** The fallback runs one tool at most, and sends nothing to the provider. *)
Lemma fallback_effect (messages : list chat_message) (uid : Z) (w : world) :
  task_effect uid w (snd (fallback messages uid w)).
Proof.
  unfold fallback.
  repeat match goal with
         | |- context [if ?b then _ else _] => destruct b
         end; try apply eff_none.
  - unfold try_except, bind, ret.
    pose proof (create_task_effect (JStr (extract_title
      match last_message messages with
      | Ok m => Py.lower (cm_content m)
      | Raise _ => ""
      end)) uid JNull w) as H.
    destruct (create_task _ uid JNull w) as [[v | e] w']; exact H.
  - unfold try_except, bind at 1.
    pose proof (list_tasks_effect uid JNull w) as H.
    destruct (list_tasks uid JNull w) as [[v | e] w']; simpl in H; subst w';
      [| apply eff_none].
    run_monad. repeat split_test; apply eff_none.
  - run_monad. repeat split_test; apply eff_none.
Qed.

Lemma run_tool_call_effect (tc : tool_call) (uid : Z) (w : world) :
  task_effect uid w (snd (run_tool_call tc uid w)).
Proof.
  unfold run_tool_call, bind, lift, ret.
  destruct (tc_arguments tc) as [tool_args |]; [| apply eff_none].
  pose proof (execute_tool_effect (tc_name tc) tool_args uid w) as H.
  destruct (_execute_tool (tc_name tc) tool_args uid w) as [[r | e] w']; [| exact H].
  destruct (with_user_id tool_args uid); exact H.
Qed.

Lemma run_tool_calls_effects (calls : list tool_call) (uid : Z)
      (acc : list invocation) (w : world) :
  agent_effects uid w (snd (run_tool_calls calls uid acc w)).
Proof.
  revert acc w. induction calls as [| tc calls IH]; intros acc w; simpl.
  - apply effs_refl.
  - unfold bind.
    pose proof (run_tool_call_effect tc uid w) as H.
    destruct (run_tool_call tc uid w) as [[inv | e] w1]; simpl in H.
    + eapply agent_effects_trans; [apply agent_effects_one; exact H | apply IH].
    + now apply agent_effects_one.
Qed.

Lemma completions_create_effects (uid : Z) (self : AgentService) (req : request)
      (w : world) :
  agent_effects uid w (snd (completions_create self req w)).
Proof. unfold completions_create. simpl. apply effs_request, effs_refl. Qed.

(** One run of the agent: tool steps and requests to the provider only. *)
Lemma chat_effects (self : AgentService) (messages : list chat_message)
      (uid : Z) (w : world) :
  agent_effects uid w (snd (chat self messages uid w)).
Proof.
  unfold chat, try_except.
  match goal with
  | |- context [bind ?m ?k w] => set (body := bind m k)
  end.
  assert (Hbody : agent_effects uid w (snd (body w))).
  { subst body. unfold bind at 1.
    set (req := mkRequest _ true).
    pose proof (completions_create_effects uid self req w) as H1.
    destruct (completions_create self req w) as [[am | e] w1]; simpl in H1;
      [| exact H1].
    destruct (tool_calls am) as [| tc calls] eqn:Hcalls; [exact H1 |].
    unfold bind at 1.
    pose proof (run_tool_calls_effects (tc :: calls) uid [] w1) as H2.
    destruct (run_tool_calls (tc :: calls) uid [] w1) as [[invs | e] w2];
      simpl in H2; [| eapply agent_effects_trans; eassumption].
    unfold bind at 1.
    match goal with
    | |- context [completions_create self ?r w2] =>
        pose proof (completions_create_effects uid self r w2) as H3;
        destruct (completions_create self r w2) as [[fr | e] w3]
    end; simpl in H3 |- *;
      eapply agent_effects_trans; [| exact H3 | | exact H3];
      eapply agent_effects_trans; eassumption. }
  destruct (body w) as [[a | e] w1]; simpl in Hbody |- *; [exact Hbody |].
  unfold bind, ret.
  pose proof (fallback_effect messages uid w1) as Hf.
  destruct (fallback messages uid w1) as [[r | e'] w2]; simpl in Hf |- *;
    eapply effs_tool; eassumption.
Qed.

(** ** Tenant isolation of the dispatcher *)

Lemma filter_owned (id uid : Z) (ts : list Task) :
  filter (fun t => (task_id t =? id) && (task_user_id t =? uid)) ts
  = filter (fun t => task_id t =? id) (tasks_of uid ts).
Proof.
  unfold tasks_of. induction ts as [| t ts IH]; simpl; [reflexivity |].
  destruct (task_user_id t =? uid); simpl; rewrite IH.
  - now rewrite andb_true_r.
  - now rewrite andb_false_r.
Qed.

Section ReadIsolation.
Variables (uid : Z) (w1 w2 : world).
Hypothesis Hview : own_view uid w1 = own_view uid w2.

Let Htasks : tasks_of uid (tasks w1) = tasks_of uid (tasks w2).
Proof. unfold own_view in Hview. congruence. Qed.

Let Hseq : task_seq w1 = task_seq w2.
Proof. unfold own_view in Hview. congruence. Qed.

Let Hnow : now w1 = now w2.
Proof. unfold own_view in Hview. congruence. Qed.

Lemma create_task_reads (title description : jval) :
  fst (create_task title uid description w1)
  = fst (create_task title uid description w2).
Proof.
  unfold create_task. run_monad.
  repeat split_next; rewrite ?Hseq, ?Hnow; reflexivity.
Qed.

Lemma list_tasks_reads (completed : jval) :
  fst (list_tasks uid completed w1) = fst (list_tasks uid completed w2).
Proof.
  unfold list_tasks. run_monad. rewrite Htasks.
  repeat split_next; reflexivity.
Qed.

Lemma update_task_reads (task_id_arg title description completed : jval) :
  fst (update_task task_id_arg uid title description completed w1)
  = fst (update_task task_id_arg uid title description completed w2).
Proof.
  unfold update_task, find_task, scalar_one_or_none. run_monad.
  destruct task_id_arg; simpl; try reflexivity.
  rewrite !filter_owned, Htasks.
  destruct (filter _ (tasks_of uid (tasks w2))) as [| task [| second rest]];
    simpl; try reflexivity.
  repeat split_next; rewrite ?Hnow; reflexivity.
Qed.

Lemma delete_task_reads (task_id_arg : jval) :
  fst (delete_task task_id_arg uid w1) = fst (delete_task task_id_arg uid w2).
Proof.
  unfold delete_task, find_task, scalar_one_or_none. run_monad.
  destruct task_id_arg; simpl; try reflexivity.
  rewrite !filter_owned, Htasks.
  destruct (filter _ (tasks_of uid (tasks w2))) as [| task [| second rest]];
    reflexivity.
Qed.

Lemma execute_tool_reads (tool_name : string) (tool_args : jval) :
  fst (_execute_tool tool_name tool_args uid w1)
  = fst (_execute_tool tool_name tool_args uid w2).
Proof.
  assert (Hcall : forall t,
             fst (call_tool t uid tool_args w1) = fst (call_tool t uid tool_args w2)).
  { intro t. unfold call_tool, bind, lift.
    destruct (bind_keywords t tool_args) as [kw | e]; [| reflexivity].
    destruct t; [apply create_task_reads | apply list_tasks_reads
                 | apply update_task_reads | apply delete_task_reads]. }
  unfold _execute_tool, try_except, bind, ret, raise.
  destruct (tool_map tool_name) as [t |]; [| reflexivity].
  specialize (Hcall t).
  destruct (call_tool t uid tool_args w1) as [[v1 | e1] w1'],
           (call_tool t uid tool_args w2) as [[v2 | e2] w2'];
    simpl in Hcall |- *; congruence.
Qed.
End ReadIsolation.

(** Arguments that carry a [user_id] of their own are refused by the call
    itself: no tool body runs. *)
Lemma execute_tool_rejects_user_id (tool_name : string) (d : dict) (uid : Z)
      (w : world) :
  dict_mem "user_id" d = true ->
  exists msg,
    _execute_tool tool_name (JDict d) uid w = (Ok (mkToolResult None (Some msg)), w).
Proof.
  intro Hmem. unfold _execute_tool, try_except, bind, ret, raise.
  destruct (tool_map tool_name) as [t |]; [| eexists; reflexivity].
  unfold call_tool, bind, lift, bind_keywords. rewrite Hmem.
  eexists; reflexivity.
Qed.

Lemma dict_get_set (k : string) (v : jval) (d : dict) :
  dict_get k (dict_set k v d) = Some v.
Proof.
  induction d as [| [k' v'] d IH]; simpl.
  - now rewrite String.eqb_refl.
  - destruct (String.eqb k' k) eqn:E; simpl.
    + now rewrite String.eqb_refl.
    + now rewrite E.
Qed.

Lemma create_task_truthy (title : jval) (uid : Z) (description : jval) (w : world) :
  returns_truthy (fst (create_task title uid description w)).
Proof.
  unfold create_task. run_monad. repeat split_next; simpl; auto.
Qed.

Lemma list_tasks_truthy (uid : Z) (completed : jval) (w : world) :
  returns_truthy (fst (list_tasks uid completed w)).
Proof.
  unfold list_tasks. run_monad. repeat split_next; simpl; auto.
Qed.

Lemma update_task_truthy (task_id_arg : jval) (uid : Z)
      (title description completed : jval) (w : world) :
  returns_truthy (fst (update_task task_id_arg uid title description completed w)).
Proof.
  unfold update_task, find_task, scalar_one_or_none. run_monad.
  destruct task_id_arg; simpl; auto.
  destruct (filter _ (tasks w)) as [| task [| second rest]]; simpl; auto.
  repeat split_next; simpl; auto.
Qed.

Lemma delete_task_truthy (task_id_arg : jval) (uid : Z) (w : world) :
  returns_truthy (fst (delete_task task_id_arg uid w)).
Proof.
  unfold delete_task, find_task, scalar_one_or_none. run_monad.
  destruct task_id_arg; simpl; auto.
  destruct (filter _ (tasks w)) as [| task [| second rest]]; simpl; auto.
Qed.

Lemma execute_tool_result (tool_name : string) (tool_args : jval) (uid : Z)
      (w : world) :
  exists r, fst (_execute_tool tool_name tool_args uid w) = Ok r /\
    ((exists v, outputs r = Some v /\ truthy v = true /\ error r = None)
     \/ (exists msg, outputs r = None /\ error r = Some msg)).
Proof.
  unfold _execute_tool, try_except, bind, ret, raise.
  destruct (tool_map tool_name) as [t |];
    [| eexists; split; [reflexivity | right; eexists; split; reflexivity]].
  assert (Ht : returns_truthy (fst (call_tool t uid tool_args w))).
  { unfold call_tool, bind, lift.
    destruct (bind_keywords t tool_args) as [kw | e]; [| exact I].
    destruct t; [apply create_task_truthy | apply list_tasks_truthy
                 | apply update_task_truthy | apply delete_task_truthy]. }
  destruct (call_tool t uid tool_args w) as [[v | e] w']; simpl in Ht |- *.
  - eexists; split; [reflexivity | left; exists v; auto].
  - eexists; split; [reflexivity | right; eexists; split; reflexivity].
Qed.

Lemma run_tool_call_ok (tc : tool_call) (uid : Z) (w : world) :
  match fst (run_tool_call tc uid w) with
  | Ok inv => invocation_ok inv
  | Raise _ => True
  end.
Proof.
  unfold run_tool_call, bind, lift, ret.
  destruct (tc_arguments tc) as [tool_args |]; [| exact I].
  destruct (execute_tool_result (tc_name tc) tool_args uid w) as [r [Hr Hshape]].
  destruct (_execute_tool (tc_name tc) tool_args uid w) as [[r' | e] w'];
    simpl in Hr; [| discriminate].
  injection Hr as ->.
  destruct (with_user_id tool_args uid); simpl; [exact Hshape | exact I].
Qed.

Lemma run_tool_calls_ok (calls : list tool_call) (uid : Z)
      (acc : list invocation) (w : world) :
  Forall invocation_ok acc ->
  match fst (run_tool_calls calls uid acc w) with
  | Ok invs => Forall invocation_ok invs
  | Raise _ => True
  end.
Proof.
  revert acc w. induction calls as [| tc calls IH]; intros acc w Hacc; simpl.
  - exact Hacc.
  - unfold bind.
    pose proof (run_tool_call_ok tc uid w) as H.
    destruct (run_tool_call tc uid w) as [[inv | e] w1]; simpl in H |- *; [| exact I].
    apply IH. apply Forall_app. split; [exact Hacc | now constructor].
Qed.

Lemma fallback_ok (messages : list chat_message) (uid : Z) (w : world) :
  match fst (fallback messages uid w) with
  | Ok r => Forall invocation_ok (snd r)
  | Raise _ => True
  end.
Proof.
  unfold fallback.
  repeat match goal with
         | |- context [if ?b then _ else _] => destruct b
         end; try (simpl; constructor).
  - unfold try_except, bind, ret.
    match goal with
    | |- context [create_task ?t uid JNull w] =>
        pose proof (create_task_truthy t uid JNull w) as H;
        destruct (create_task t uid JNull w) as [[v | e] w']
    end; simpl in H |- *; (constructor; [| constructor]).
    + left. exists v. auto.
    + right. eexists. split; reflexivity.
  - unfold try_except, bind at 1.
    pose proof (list_tasks_truthy uid JNull w) as H.
    destruct (list_tasks uid JNull w) as [[v | e] w']; simpl in H.
    + assert (Hinv : invocation_ok
                (mkInvocation "list_tasks" [("user_id", JInt uid)] (Some v) None))
        by (left; exists v; auto).
      assert (Herr : forall msg, invocation_ok
                (mkInvocation "list_tasks" [("user_id", JInt uid)] None (Some msg)))
        by (intro msg; right; exists msg; split; reflexivity).
      run_monad.
      repeat match goal with
             | |- context [get_default ?a ?b ?c] => destruct (get_default a b c)
             | |- context [py_len ?a] => destruct (py_len a)
             | |- context [subscript ?a ?b] => destruct (subscript a b)
             | |- context [iterate ?a] => destruct (iterate a)
             | |- context [enumerate_tasks ?a ?b ?c] => destruct (enumerate_tasks a b c)
             | |- context [?a =? 0] => destruct (a =? 0)
             end; simpl;
        repeat first [apply Forall_nil | apply Forall_cons]; auto.
    + simpl. constructor; [| constructor]. right. eexists. split; reflexivity.
  - run_monad. destruct (last_message messages); simpl; auto.
Qed.

(** Every call that the agent reports has one of the two shapes. *)
Lemma chat_ok (self : AgentService) (messages : list chat_message)
      (uid : Z) (w : world) :
  match fst (chat self messages uid w) with
  | Ok r => Forall invocation_ok (snd r)
  | Raise _ => True
  end.
Proof.
  unfold chat, try_except.
  match goal with
  | |- context [bind ?m ?k w] => set (body := bind m k)
  end.
  assert (Hbody : match fst (body w) with
                  | Ok r => Forall invocation_ok (snd r)
                  | Raise _ => True
                  end).
  { subst body. unfold bind at 1.
    destruct (completions_create self _ w) as [[am | e] w1]; [| exact I].
    destruct (tool_calls am) as [| tc calls] eqn:Hcalls; [simpl; constructor |].
    unfold bind at 1.
    pose proof (run_tool_calls_ok (tc :: calls) uid w1 (Forall_nil _)) as H2.
    destruct (run_tool_calls (tc :: calls) uid [] w1) as [[invs | e] w2];
      simpl in H2; [| exact I].
    unfold bind at 1.
    destruct (completions_create self _ w2) as [[fr | e] w3]; simpl; auto. }
  destruct (body w) as [[a | e] w1]; simpl in Hbody |- *; [exact Hbody |].
  unfold bind, ret.
  pose proof (fallback_ok messages uid w1) as Hf.
  destruct (fallback messages uid w1) as [[r | e'] w2]; simpl in Hf |- *; auto.
Qed.

(** ** Stepwise reasoning about a computation

    For a reflexive and transitive relation [R] between worlds: a
    computation built from [R]-steps is an [R]-step, and what it returns
    satisfies the postcondition of its last step. *)

Section Steps.
Variable R : world -> world -> Prop.
Hypothesis R_refl : forall w, R w w.
Hypothesis R_trans : forall w1 w2 w3, R w1 w2 -> R w2 w3 -> R w1 w3.

Lemma run_ret {A} (a : A) (Q : A -> Prop) : Q a -> run_ok R (ret a) Q.
Proof. intros H w. simpl. auto. Qed.

Lemma run_raise {A} (e : exn) (Q : A -> Prop) : run_ok R (raise e) Q.
Proof. intros w. simpl. auto. Qed.

Lemma run_bind {A B} (m : M A) (k : A -> M B) (Q : A -> Prop) (Q' : B -> Prop) :
  run_ok R m Q -> (forall a, Q a -> run_ok R (k a) Q') -> run_ok R (bind m k) Q'.
Proof.
  intros Hm Hk w. unfold bind. destruct (Hm w) as [HR HQ].
  destruct (m w) as [[a | e] w1]; simpl in *; [| auto].
  destruct (Hk a HQ w1) as [HR' HQ']. eauto.
Qed.

Lemma run_try {A} (m : M A) (h : exn -> M A) (Q : A -> Prop) :
  run_ok R m Q -> (forall e, run_ok R (h e) Q) -> run_ok R (try_except m h) Q.
Proof.
  intros Hm Hh w. unfold try_except. destruct (Hm w) as [HR HQ].
  destruct (m w) as [[a | e] w1]; simpl in *; [auto |].
  destruct (Hh e w1) as [HR' HQ']. eauto.
Qed.

Lemma run_weaken {A} (m : M A) (Q Q' : A -> Prop) :
  run_ok R m Q -> (forall a, Q a -> Q' a) -> run_ok R m Q'.
Proof.
  intros Hm HQ w. destruct (Hm w) as [HR H]. split; [exact HR |].
  destruct (fst (m w)); auto.
Qed.
End Steps.

(** ** The audit trail *)

Lemma log_grows_refl (w : world) : log_grows w w.
Proof. exists []. split; [now rewrite app_nil_r | constructor]. Qed.

Lemma log_grows_trans (w1 w2 w3 : world) :
  log_grows w1 w2 -> log_grows w2 w3 -> log_grows w1 w3.
Proof.
  intros [n1 [H1 F1]] [n2 [H2 F2]]. exists (n1 ++ n2)%list. split.
  - rewrite H2, H1. now rewrite app_assoc.
  - apply Forall_app. tauto.
Qed.

Lemma log_grows_same (w w' : world) :
  tool_invocation_logs w' = tool_invocation_logs w -> log_grows w w'.
Proof. intro H. exists []. split; [now rewrite app_nil_r | constructor]. Qed.

Lemma log_tool_invocation_audit (uid : Z) (inv : invocation) (message_id : option Z) :
  invocation_ok inv ->
  run_ok log_grows
    (log_tool_invocation uid (inv_tool inv) (inv_inputs inv) (inv_outputs inv)
       (match inv_error inv with None => true | Some _ => false end)
       (inv_error inv) message_id)
    (fun _ => True).
Proof.
  intros Hinv w. split; [| exact I]. unfold log_tool_invocation. simpl.
  eexists. split; [reflexivity |].
  constructor; [| constructor]. unfold audit_ok. simpl.
  destruct Hinv as [[v [Ho [Ht He]]] | [msg [Ho He]]]; rewrite Ho, He.
  - rewrite Ht. split; [split; [reflexivity | discriminate] | reflexivity].
  - split; [discriminate | intros [H _]; discriminate].
Qed.

Lemma log_tool_invocations_audit (invs : list invocation) (uid message_id : Z) :
  Forall invocation_ok invs ->
  run_ok log_grows (Routes.log_tool_invocations invs uid message_id) (fun _ => True).
Proof.
  induction 1 as [| inv invs Hinv _ IH]; simpl.
  - apply run_ret; [apply log_grows_refl | exact I].
  - eapply run_bind; [apply log_grows_trans | |].
    + apply log_tool_invocation_audit. exact Hinv.
    + intros _ _. exact IH.
Qed.

Lemma chat_audit (self : AgentService) (messages : list chat_message) (uid : Z) :
  run_ok log_grows (chat self messages uid)
         (fun r => Forall invocation_ok (snd r)).
Proof.
  intro w. split; [| apply chat_ok].
  apply log_grows_same.
  pose proof (agent_effects_same_conversations (chat_effects self messages uid w)) as H.
  unfold same_conversations in H. tauto.
Qed.

Lemma add_message_audit (cid : Z) (role : string) (content : option string)
      (tis : option (list invocation)) :
  run_ok log_grows (add_message cid role content tis) (fun _ => True).
Proof.
  intro w. split; [| destruct (fst _); exact I].
  apply log_grows_same. unfold add_message. destruct content; reflexivity.
Qed.

Lemma create_conversation_audit (uid : Z) :
  run_ok log_grows (create_conversation uid) (fun _ => True).
Proof. intro w. split; [apply log_grows_same; reflexivity | exact I]. Qed.

Lemma load_conversation_messages_world (cid uid : Z) (limit : nat) (w : world) :
  snd (load_conversation_messages cid uid limit w) = w.
Proof.
  unfold load_conversation_messages, bind, get_world, raise, ret.
  destruct (get_conversation cid w); [| reflexivity].
  destruct (negb _); reflexivity.
Qed.

Lemma load_conversation_messages_audit (cid uid : Z) (limit : nat) :
  run_ok log_grows (load_conversation_messages cid uid limit) (fun _ => True).
Proof.
  intro w. split; [| destruct (fst _); exact I].
  rewrite load_conversation_messages_world. apply log_grows_refl.
Qed.

(** C3.  Every audit record that a chat request persists satisfies
    [success == true] iff [error_message] is absent and [outputs] is
    present: the request only appends to the audit table, and each record
    it appends has that property, whatever the provider answers. *)
Theorem audit_record_invariant :
  forall (agent : AgentService) (request : ChatRequest) (user_id : Z) (w : world),
  exists new,
    tool_invocation_logs (snd (Routes.chat agent request user_id w))
    = (tool_invocation_logs w ++ new)%list
    /\ Forall (fun record =>
                 success record = true <->
                 (error_message record = None /\ log_outputs record <> None))
              new.
Proof.
  intros agent request user_id w.
  assert (H : run_ok log_grows (Routes.chat agent request user_id) (fun _ => True)).
  { pose proof log_grows_refl as Hrefl. pose proof log_grows_trans as Htrans.
    unfold Routes.chat.
    apply run_try; auto;
      [| intros e; destruct e; apply run_raise; auto].
    eapply run_bind with (Q := fun _ => True); auto.
    { destruct (_ || _); [apply run_raise | apply run_ret]; auto. }
    intros _ _.
    eapply run_bind with (Q := fun _ => True); auto.
    { destruct (_ <? _); [apply run_raise | apply run_ret]; auto. }
    intros _ _.
    eapply run_bind with (Q := fun _ => True); auto.
    { destruct (conversation_id request) as [cid |].
      - eapply run_bind with (Q := fun _ => True); auto.
        + apply run_try; auto; [apply load_conversation_messages_audit |].
          intros e. destruct (is_ValueError e); apply run_raise; auto.
        + intros h _. apply run_ret; auto.
      - eapply run_bind; auto; [apply create_conversation_audit |].
        intros c _. apply run_ret; auto. }
    intros loaded _.
    eapply run_bind; auto; [apply add_message_audit |].
    intros user_message _.
    eapply run_bind with (Q := fun r => Forall invocation_ok (snd r)); auto.
    { apply run_try; auto; [apply chat_audit |].
      intros e. apply run_raise; auto. }
    intros answer Hanswer.
    eapply run_bind; auto; [apply add_message_audit |].
    intros assistant_message _.
    eapply run_bind; auto; [apply log_tool_invocations_audit; exact Hanswer |].
    intros _ _. apply run_ret; auto. }
  destruct (H w) as [[new [Hlogs Hnew]] _].
  exists new. split; [exact Hlogs | exact Hnew].
Qed.

(** ** Scoping by the caller *)

Lemma two_tenants_keys_ok : task_keys_ok two_tenants.
Proof.
  split; simpl.
  - repeat constructor; simpl; intuition discriminate.
  - repeat constructor.
Qed.

(** C2.  A tool invoked for a caller is scoped by the caller's [user_id]:
    whatever the provider's arguments are, the tasks of every other user
    stay as they were (also over a whole run of the agent), what the tool
    returns depends on the caller's rows only, arguments that bring a
    [user_id] of their own make the call fail before any store access, and
    the recorded inputs carry the caller's [user_id]. *)
Theorem tool_access_scoped_by_caller :
  forall (tool_name : string) (tool_args : jval) (user_id : Z) (w : world),
    (task_keys_ok w ->
     tasks_of_others user_id (tasks (snd (_execute_tool tool_name tool_args user_id w)))
     = tasks_of_others user_id (tasks w))
    /\ (forall w2, own_view user_id w2 = own_view user_id w ->
                   fst (_execute_tool tool_name tool_args user_id w2)
                   = fst (_execute_tool tool_name tool_args user_id w))
    /\ (forall d, tool_args = JDict d -> dict_mem "user_id" d = true ->
                  exists msg,
                    _execute_tool tool_name tool_args user_id w
                    = (Ok (mkToolResult None (Some msg)), w))
    /\ (forall d, tool_args = JDict d ->
                  exists inputs,
                    with_user_id tool_args user_id = Ok inputs
                    /\ dict_get "user_id" inputs = Some (JInt user_id))
    /\ (forall self messages,
           task_keys_ok w ->
           tasks_of_others user_id (tasks (snd (chat self messages user_id w)))
           = tasks_of_others user_id (tasks w)).
Proof.
  intros tool_name tool_args user_id w. repeat split.
  - intro Hok. apply task_effect_others; [exact Hok | apply execute_tool_effect].
  - intros w2 Hview. now apply execute_tool_reads.
  - intros d -> Hmem. now apply execute_tool_rejects_user_id.
  - intros d ->. simpl. eexists. split; [reflexivity | apply dict_get_set].
  - intros self messages Hok.
    apply agent_effects_others; [apply chat_effects | exact Hok].
Qed.

Lemma tool_access_scoped_by_caller_witness :
  tasks_of_others 1
    (tasks (snd (_execute_tool "update_task" foreign_arguments 1 two_tenants)))
  = [mkTask 2 "call bank" None false 2 0 0]
  /\ _execute_tool "update_task" foreign_arguments 1 two_tenants
     = (Ok (mkToolResult None
              (Some "got multiple values for keyword argument 'user_id'")),
        two_tenants).
Proof.
  destruct (tool_access_scoped_by_caller "update_task" foreign_arguments 1 two_tenants)
    as [Hwrite [_ [Hreject _]]].
  split.
  - rewrite (Hwrite two_tenants_keys_ok). reflexivity.
  - destruct (Hreject _ eq_refl eq_refl) as [msg Hmsg]. rewrite Hmsg.
    vm_compute in Hmsg. injection Hmsg as <-. reflexivity.
Defined.

(** The statements below name every argument. *)
Unset Implicit Arguments.

(** ** Sequence numbers *)

(** C1.  [add_message] does not number a message [1 + max]: the maximum
    is read through [or -1], which takes a maximum of 0 for no maximum at
    all.  A message gets 0 when the conversation is empty or its highest
    number is 0, and [max + 1] otherwise; so on a fresh conversation the
    turn "hi", with the provider unavailable, stores the user message and
    the assistant message both under number 0. *)
Theorem add_message_repeats_zero :
  (forall (w : world) (cid : Z) (role text : string)
          (tis : option (list invocation)),
      exists m w',
        add_message cid role (Some text) tis w = (Ok m, w')
        /\ sequence_number m
           = match max_sequence_number cid w with
             | None => 0
             | Some n => if n =? 0 then 0 else n + 1
             end)
  /\ map (fun m => (msg_role m, sequence_number m))
         (messages (snd (Routes.chat unavailable (mkChatRequest None "hi") 7
                                     empty_world)))
     = [("user", 0); ("assistant", 0)].
Proof.
  split.
  - intros w cid role text tis. unfold add_message, or_minus_one.
    eexists. eexists. split; [reflexivity |]. simpl.
    destruct (max_sequence_number cid w) as [n |]; [| reflexivity].
    destruct (n =? 0); reflexivity.
  - vm_compute. reflexivity.
Qed.

(** ** Loading a conversation of another user *)

(** C4.  For a conversation id that does not exist or whose owner is not
    the caller, loading fails with the error that the handler maps to 404
    NOT_FOUND and returns no message; the request fails and leaves the
    world as it was, so no message was appended. *)
Theorem foreign_conversation_not_found :
  forall (agent : AgentService) (cid : Z) (msg : string) (user_id : Z) (w : world),
    not_owned cid user_id w ->
    (forall limit,
        load_conversation_messages cid user_id limit w
        = (Raise (ValueError "Conversation not found or does not belong to user"), w))
    /\ (exists e,
           Routes.chat agent (mkChatRequest (Some cid) msg) user_id w = (Raise e, w))
    /\ (message_valid msg ->
        Routes.chat agent (mkChatRequest (Some cid) msg) user_id w
        = (Raise (HTTPException 404 "NOT_FOUND" "Conversation not found"), w)).
Proof.
  intros agent cid msg user_id w Hnot.
  assert (Hload : forall limit,
             load_conversation_messages cid user_id limit w
             = (Raise (ValueError "Conversation not found or does not belong to user"), w)).
  { intro limit. unfold load_conversation_messages, bind, get_world, raise.
    unfold not_owned in Hnot.
    destruct (get_conversation cid w) as [c |]; [| reflexivity].
    destruct (conv_user_id c =? user_id) eqn:E; [| reflexivity].
    apply Z.eqb_eq in E. contradiction. }
  split; [exact Hload |].
  assert (Hvalid : message_valid msg ->
             Routes.chat agent (mkChatRequest (Some cid) msg) user_id w
             = (Raise (HTTPException 404 "NOT_FOUND" "Conversation not found"), w)).
  { intros [H1 H2]. unfold Routes.chat, try_except, bind. simpl.
    rewrite H1, H2. unfold ret. rewrite Hload. reflexivity. }
  split; [| exact Hvalid].
  destruct (String.eqb msg "" || (Py.len (Py.strip msg) =? 0)) eqn:H1.
  - eexists. unfold Routes.chat, try_except, bind. simpl. rewrite H1. reflexivity.
  - destruct (10000 <? Py.len msg) eqn:H2.
    + eexists. unfold Routes.chat, try_except, bind. simpl. rewrite H1, H2.
      reflexivity.
    + eexists. apply Hvalid. split; assumption.
Qed.

Lemma foreign_conversation_not_found_witness :
  Routes.chat unavailable (mkChatRequest (Some 1) "show my tasks") 2 one_conversation
  = (Raise (HTTPException 404 "NOT_FOUND" "Conversation not found"), one_conversation)
  /\ Routes.chat unavailable (mkChatRequest (Some 9) "show my tasks") 1 one_conversation
     = (Raise (HTTPException 404 "NOT_FOUND" "Conversation not found"), one_conversation).
Proof.
  split.
  - apply (foreign_conversation_not_found unavailable 1 "show my tasks" 2 one_conversation).
    + simpl. discriminate.
    + split; reflexivity.
  - apply (foreign_conversation_not_found unavailable 9 "show my tasks" 1 one_conversation).
    + simpl. exact I.
    + split; reflexivity.
Defined.

(** ** The fallback *)

Lemma last_message_snoc (history : list chat_message) (m : chat_message) :
  last_message (history ++ [m]) = Ok m.
Proof. unfold last_message. now rewrite rev_app_distr. Qed.

(** The fallback looks at the latest message only. *)
Lemma fallback_latest (history : list chat_message) (m : chat_message)
      (uid : Z) (w : world) :
  fallback (history ++ [m]) uid w = fallback [m] uid w.
Proof. unfold fallback. rewrite last_message_snoc. reflexivity. Qed.

(** When the first request to the provider fails, the agent answers by
    the fallback, one request later. *)
Lemma chat_provider_down (self : AgentService) (messages : list chat_message)
      (uid : Z) (w : world) :
  (forall req, req_tools req = true -> client self req = None) ->
  chat self messages uid w
  = match fallback messages uid (count_provider_call w) with
    | (Ok r, w') => (Ok (Some (fst r), snd r), w')
    | (Raise e, w') => (Raise e, w')
    end.
Proof.
  intro Hdown. unfold chat, try_except. unfold bind at 2.
  unfold completions_create at 1. rewrite Hdown by reflexivity.
  unfold bind, ret. destruct (fallback messages uid (count_provider_call w)) as [[r | e] w'];
    reflexivity.
Qed.

(** A title that is text, not empty and within 500 characters, without a
    description, is stored as it is. *)
Lemma create_task_stores (title : string) (uid : Z) (w : world) :
  title <> "" -> (String.length title <= 500)%nat ->
  create_task (JStr title) uid JNull w
  = (Ok (JDict [("task_id", JInt (task_seq w)); ("title", JStr title);
                ("description", JNull); ("completed", JBool false);
                ("created_at", JStr (isoformat (now w)))]),
     set_tasks (tasks w ++ [mkTask (task_seq w) title None false uid (now w) (now w)])
               (task_seq w + 1) w).
Proof.
  intros Hne Hlen. unfold create_task, try_except, bind, lift, ret, utcnow. simpl.
  assert (E1 : String.eqb title "" = false) by now apply String.eqb_neq.
  rewrite E1. simpl.
  assert (E2 : (500 <? Py.len title) = false)
    by (apply Z.ltb_ge; unfold Py.len; lia).
  rewrite E2. reflexivity.
Qed.

(** C5.  With the provider unavailable and "Create a task to buy milk" as
    the latest user message, the agent extracts the title "buy milk",
    calls [create_task] with it and no description, answers with a reply
    that contains "buy milk", and reports exactly one invocation, of
    [create_task], without error. *)
Theorem fallback_creates_buy_milk :
  forall (self : AgentService) (history : list chat_message) (user_id : Z) (w : world),
    (forall req, client self req = None) ->
    extract_title (Py.lower "Create a task to buy milk") = "buy milk"
    /\ exists reply inv,
        chat self (history ++ [mkChatMessage "user" "Create a task to buy milk"])
             user_id w
        = (Ok (Some reply, [inv]),
           set_tasks (tasks w ++ [mkTask (task_seq w) "buy milk" None false user_id
                                         (now w) (now w)])
                     (task_seq w + 1) (count_provider_call w))
        /\ Py.contains "buy milk" reply = true
        /\ inv_tool inv = "create_task"
        /\ inv_inputs inv = [("title", JStr "buy milk"); ("user_id", JInt user_id)]
        /\ (exists out, inv_outputs inv = Some out)
        /\ inv_error inv = None.
Proof.
  intros self history user_id w Hdown.
  split; [vm_compute; reflexivity |].
  rewrite chat_provider_down by (intros; apply Hdown).
  rewrite fallback_latest.
  unfold fallback.
  match goal with
  | |- context [Py.contains "hello" ?c] => set (message_content := c)
  end.
  assert (Hcontent : message_content = "create a task to buy milk")
    by (vm_compute; reflexivity).
  clearbody message_content. subst message_content.
  replace (Py.contains "hello" "create a task to buy milk"
           || Py.contains "hi" "create a task to buy milk"
           || Py.contains "hey" "create a task to buy milk") with false
    by (vm_compute; reflexivity).
  replace (Py.any_in ["create"; "add"; "make"; "new"] "create a task to buy milk")
    with true by (vm_compute; reflexivity).
  replace (extract_title "create a task to buy milk") with "buy milk"
    by (vm_compute; reflexivity).
  cbv beta iota zeta.
  unfold try_except, bind.
  rewrite create_task_stores by (simpl; (discriminate || lia)).
  simpl. eexists. eexists. split; [reflexivity |].
  repeat split; try reflexivity. eexists; reflexivity.
Qed.

Lemma fallback_creates_buy_milk_witness :
  exists reply inv,
    chat unavailable [mkChatMessage "user" "Create a task to buy milk"] 7 empty_world
    = (Ok (Some reply, [inv]),
       set_tasks [mkTask 1 "buy milk" None false 7 0 0] 2
                 (count_provider_call empty_world))
    /\ Py.contains "buy milk" reply = true
    /\ inv_tool inv = "create_task"
    /\ inv_inputs inv = [("title", JStr "buy milk"); ("user_id", JInt 7)]
    /\ (exists out, inv_outputs inv = Some out)
    /\ inv_error inv = None.
Proof.
  apply (fallback_creates_buy_milk unavailable [] 7 empty_world).
  intro req. reflexivity.
Defined.

(** The branches of the fallback that call no tool. *)
Lemma fallback_without_tool (messages : list chat_message) (uid : Z) (w : world) :
  match classify (latest_content messages) with
  | Greeting => fallback messages uid w = (Ok (greeting_reply, []), w)
  | Update => fallback messages uid w = (Ok (update_reply, []), w)
  | Delete => fallback messages uid w = (Ok (delete_reply, []), w)
  | _ => True
  end.
Proof.
  unfold classify, fallback. fold (latest_content messages).
  repeat match goal with
         | |- context [if ?b then _ else _] => destruct b
         end; try exact I; reflexivity.
Qed.

(** C7.  The fallback sends no request to the provider: the count of
    requests is the same after it as before, and a run of the agent whose
    first request fails has sent that one request only.  For a message of
    update or delete intent the fallback calls no tool: its list of
    invocations is empty, the world is as it was, and the reply asks to
    specify which task. *)
Theorem fallback_never_calls_provider :
  forall (self : AgentService) (messages : list chat_message) (user_id : Z) (w : world),
    provider_calls (snd (fallback messages user_id w)) = provider_calls w
    /\ ((forall req, req_tools req = true -> client self req = None) ->
        provider_calls (snd (chat self messages user_id w)) = S (provider_calls w))
    /\ (classify (latest_content messages) = Update ->
        fallback messages user_id w = (Ok (update_reply, []), w)
        /\ Py.contains "Please specify which task" update_reply = true)
    /\ (classify (latest_content messages) = Delete ->
        fallback messages user_id w = (Ok (delete_reply, []), w)
        /\ Py.contains "Please specify which task" delete_reply = true).
Proof.
  intros self messages user_id w.
  assert (Hcalls : forall w0,
             provider_calls (snd (fallback messages user_id w0)) = provider_calls w0).
  { intro w0. eapply task_effect_provider_calls. apply fallback_effect. }
  split; [apply Hcalls |]. split; [| split].
  - intro Hdown. rewrite chat_provider_down by exact Hdown.
    specialize (Hcalls (count_provider_call w)).
    destruct (fallback messages user_id (count_provider_call w)) as [[r | e] w'];
      simpl in *; exact Hcalls.
  - intro Hc. pose proof (fallback_without_tool messages user_id w) as H.
    rewrite Hc in H. split; [exact H | vm_compute; reflexivity].
  - intro Hc. pose proof (fallback_without_tool messages user_id w) as H.
    rewrite Hc in H. split; [exact H | vm_compute; reflexivity].
Qed.

Lemma fallback_never_calls_provider_witness :
  provider_calls
    (snd (chat unavailable [mkChatMessage "user" "Mark the groceries task as done"]
               7 two_tenants)) = 1%nat
  /\ fallback [mkChatMessage "user" "Mark the groceries task as done"] 7 two_tenants
     = (Ok (update_reply, []), two_tenants)
  /\ fallback [mkChatMessage "user" "Remove task 2"] 7 two_tenants
     = (Ok (delete_reply, []), two_tenants).
Proof.
  split; [| split].
  - apply (fallback_never_calls_provider unavailable
             [mkChatMessage "user" "Mark the groceries task as done"] 7 two_tenants).
    intros req _. reflexivity.
  - apply (fallback_never_calls_provider unavailable
             [mkChatMessage "user" "Mark the groceries task as done"] 7 two_tenants).
    vm_compute. reflexivity.
  - apply (fallback_never_calls_provider unavailable
             [mkChatMessage "user" "Remove task 2"] 7 two_tenants).
    vm_compute. reflexivity.
Defined.

(** C10.  The greeting test is substring containment on the lower-cased
    message and comes first: a latest message that contains "hi", "hey"
    or "hello" anywhere, also inside another word and next to keywords of
    other intents, is answered with the fixed greeting and no tool
    invocation, and the world is left as it was. *)
Theorem greeting_by_substring :
  forall (messages : list chat_message) (m : chat_message) (user_id : Z) (w : world),
    last_message messages = Ok m ->
    Py.contains "hi" (Py.lower (cm_content m)) = true
    \/ Py.contains "hey" (Py.lower (cm_content m)) = true
    \/ Py.contains "hello" (Py.lower (cm_content m)) = true ->
    classify (Py.lower (cm_content m)) = Greeting
    /\ fallback messages user_id w = (Ok (greeting_reply, []), w).
Proof.
  intros messages m user_id w Hlast Hsub.
  assert (Hgreet : Py.contains "hello" (Py.lower (cm_content m))
                   || Py.contains "hi" (Py.lower (cm_content m))
                   || Py.contains "hey" (Py.lower (cm_content m)) = true).
  { destruct Hsub as [H | [H | H]]; rewrite H;
      repeat rewrite orb_true_r; reflexivity. }
  split.
  - unfold classify. now rewrite Hgreet.
  - unfold fallback. rewrite Hlast, Hgreet. reflexivity.
Qed.

Lemma greeting_by_substring_witness :
  classify (Py.lower "delete this task") = Greeting
  /\ fallback [mkChatMessage "user" "delete this task"] 7 two_tenants
     = (Ok (greeting_reply, []), two_tenants).
Proof.
  apply (greeting_by_substring [mkChatMessage "user" "delete this task"]
           (mkChatMessage "user" "delete this task") 7 two_tenants).
  - reflexivity.
  - left. vm_compute. reflexivity.
Defined.

(** ** Validation in [create_task] *)

(** What [create_task] does check: it returns only for a title that is
    text, not empty and of at most 500 characters, and a description that
    is absent or text of at most 5000 characters; otherwise it raises a
    [ValueError]. *)
Lemma create_task_validates (title : jval) (uid : Z) (description : jval) (w : world) :
  match fst (create_task title uid description w) with
  | Ok _ =>
      (exists s, title = JStr s /\ s <> "" /\ Py.len s <= 500)
      /\ (description = JNull
          \/ exists d, description = JStr d /\ Py.len d <= 5000)
  | Raise e => is_ValueError e = true
  end.
Proof.
  unfold create_task. run_monad.
  repeat split_next; simpl; auto;
    (split;
     [ eexists; split; [reflexivity |]; split;
       [ intro Hs; subst; discriminate | now apply Z.ltb_ge ]
     | first [ left; reflexivity | right; eexists; split; [reflexivity |] ] ]).
  - now apply Z.ltb_ge.
  - match goal with
    | H : negb _ = false |- Py.len ?d <= _ =>
        apply negb_false_iff, String.eqb_eq in H; subst d
    end.
    unfold Py.len. simpl. lia.
Qed.

(** C8.  [create_task] does not trim the title before it tests it: a
    title of three blanks, which is empty once trimmed, passes the test
    [not title or len(title) > 500] and is stored as it is, directly and
    through the dispatcher. *)
Theorem create_task_accepts_blank_title :
  forall (user_id : Z) (w : world),
    Py.strip "   " = ""
    /\ create_task (JStr "   ") user_id JNull w
       = (Ok (JDict [("task_id", JInt (task_seq w)); ("title", JStr "   ");
                     ("description", JNull); ("completed", JBool false);
                     ("created_at", JStr (isoformat (now w)))]),
          set_tasks (tasks w ++ [mkTask (task_seq w) "   " None false user_id
                                        (now w) (now w)])
                    (task_seq w + 1) w)
    /\ error (match fst (_execute_tool "create_task" (JDict [("title", JStr "   ")])
                                       user_id w) with
              | Ok r => r
              | Raise _ => mkToolResult None None
              end) = None.
Proof.
  intros user_id w. split; [reflexivity |]. split.
  - apply create_task_stores; [discriminate | simpl; lia].
  - vm_compute. reflexivity.
Qed.

(** ** The tool loop *)

Lemma run_tool_call_object (tc : tool_call) (uid : Z) (w : world) :
  arguments_object tc ->
  run_tool_call tc uid w
  = (let (r, w1) := _execute_tool (tc_name tc) (JDict (arguments_of tc)) uid w in
     let res := match r with Ok res => res | Raise _ => mkToolResult None None end in
     (Ok (mkInvocation (tc_name tc)
                       (dict_set "user_id" (JInt uid) (arguments_of tc))
                       (outputs res) (error res)), w1)).
Proof.
  intros [d Hd]. unfold run_tool_call, arguments_of, bind, lift, ret. rewrite Hd.
  destruct (execute_tool_returns (tc_name tc) (JDict d) uid w) as [r Hr].
  destruct (_execute_tool (tc_name tc) (JDict d) uid w) as [[r' | e] w1];
    simpl in Hr; [| discriminate].
  reflexivity.
Qed.

Lemma run_tool_calls_sequential (calls : list tool_call) (uid : Z)
      (acc : list invocation) (w : world) :
  Forall arguments_object calls ->
  run_tool_calls calls uid acc w
  = (Ok (acc ++ fst (sequential calls uid w))%list, snd (sequential calls uid w)).
Proof.
  intro Hall. revert acc w.
  induction Hall as [| tc rest Htc _ IH]; intros acc w; simpl.
  - unfold ret. now rewrite app_nil_r.
  - unfold bind. rewrite run_tool_call_object by exact Htc.
    destruct (_execute_tool (tc_name tc) (JDict (arguments_of tc)) uid w) as [r w1].
    cbv beta iota zeta. rewrite IH.
    destruct (sequential rest uid w1) as [invs w2]. simpl.
    now rewrite <- app_assoc.
Qed.

Lemma sequential_records (calls : list tool_call) (uid : Z) (w : world) :
  map inv_tool (fst (sequential calls uid w)) = map tc_name calls
  /\ Forall (fun inv => dict_get "user_id" (inv_inputs inv) = Some (JInt uid)
                        /\ invocation_ok inv)
            (fst (sequential calls uid w)).
Proof.
  revert w. induction calls as [| tc rest IH]; intro w; simpl.
  - split; [reflexivity | constructor].
  - destruct (execute_tool_result (tc_name tc) (JDict (arguments_of tc)) uid w)
      as [r [Hr Hshape]].
    destruct (_execute_tool (tc_name tc) (JDict (arguments_of tc)) uid w)
      as [r' w1]. simpl in Hr. subst r'.
    specialize (IH w1). destruct (sequential rest uid w1) as [invs w2].
    simpl in *. destruct IH as [IH1 IH2]. split.
    + now rewrite IH1.
    + constructor; [| exact IH2]. simpl. split; [apply dict_get_set | exact Hshape].
Qed.

Lemma sequential_app (c1 c2 : list tool_call) (uid : Z) (w : world) :
  sequential (c1 ++ c2) uid w
  = (let (i1, w1) := sequential c1 uid w in
     let (i2, w2) := sequential c2 uid w1 in
     ((i1 ++ i2)%list, w2)).
Proof.
  revert w. induction c1 as [| tc c1 IH]; intro w; simpl.
  - destruct (sequential c2 uid w); reflexivity.
  - destruct (_execute_tool (tc_name tc) (JDict (arguments_of tc)) uid w) as [r w1].
    rewrite IH. destruct (sequential c1 uid w1) as [i1 w2].
    destruct (sequential c2 uid w2) as [i2 w3]. reflexivity.
Qed.

Lemma arguments_object_dec (tc : tool_call) :
  {arguments_object tc} + {~ arguments_object tc}.
Proof.
  unfold arguments_object.
  destruct (tc_arguments tc) as [[| b | n | s | l | d] |];
    try (right; intros [d' H]; discriminate).
  left. exists d. reflexivity.
Qed.

(** A call whose arguments are no JSON object makes the body of the loop
    raise. *)
Lemma run_tool_call_not_object (tc : tool_call) (uid : Z) (w : world) :
  ~ arguments_object tc -> exists e, fst (run_tool_call tc uid w) = Raise e.
Proof.
  intro Hnot. unfold run_tool_call, bind, lift, ret.
  destruct (tc_arguments tc) as [tool_args |] eqn:Hargs; [| eexists; reflexivity].
  destruct (execute_tool_returns (tc_name tc) tool_args uid w) as [r Hr].
  destruct (_execute_tool (tc_name tc) tool_args uid w) as [[r' | e] w1];
    simpl in Hr; [| discriminate].
  destruct tool_args; simpl; try (eexists; reflexivity).
  exfalso. apply Hnot. unfold arguments_object. rewrite Hargs. eexists; reflexivity.
Qed.

Lemma run_tool_calls_stop (calls : list tool_call) (uid : Z)
      (acc : list invocation) (w : world) :
  Exists (fun tc => ~ arguments_object tc) calls ->
  exists e, fst (run_tool_calls calls uid acc w) = Raise e.
Proof.
  revert acc w. induction calls as [| tc rest IH]; intros acc w Hex.
  - inversion Hex.
  - simpl. unfold bind.
    destruct (arguments_object_dec tc) as [Hobj | Hnot].
    + rewrite run_tool_call_object by exact Hobj.
      destruct (_execute_tool (tc_name tc) (JDict (arguments_of tc)) uid w) as [r w1].
      cbv beta iota zeta. apply IH.
      inversion Hex as [x l Hhead | x l Htail]; subst; [contradiction | exact Htail].
    + destruct (run_tool_call_not_object tc uid w Hnot) as [e He].
      destruct (run_tool_call tc uid w) as [[inv | e'] w1]; simpl in He;
        [discriminate | eexists; reflexivity].
Qed.

(** C6, as the code has it.  When the arguments of every call that the
    provider returned decode to a JSON object, the loop carries the calls
    out one after the other in the order returned, each at the world that
    the calls before it left, whether they failed or not; it records one
    invocation per call, in that order, with the tool's name, the
    arguments extended by the caller's [user_id], and either outputs or an
    error; and when the provider then answers, the agent returns that
    answer with the whole list.  When the arguments of some call are no
    JSON object, the loop raises instead of returning a list, and the
    agent answers by the fallback. *)
Theorem tool_calls_run_in_order :
  forall (calls : list tool_call) (user_id : Z) (w : world),
    (Forall arguments_object calls ->
     run_tool_calls calls user_id [] w
     = (Ok (fst (sequential calls user_id w)), snd (sequential calls user_id w))
     /\ map inv_tool (fst (sequential calls user_id w)) = map tc_name calls
     /\ Forall (fun inv =>
                  dict_get "user_id" (inv_inputs inv) = Some (JInt user_id)
                  /\ ((exists v, inv_outputs inv = Some v /\ inv_error inv = None)
                      \/ (exists msg, inv_outputs inv = None
                                      /\ inv_error inv = Some msg)))
               (fst (sequential calls user_id w))
     /\ (forall c1 c2, calls = (c1 ++ c2)%list ->
           sequential calls user_id w
           = (let (i1, w1) := sequential c1 user_id w in
              let (i2, w2) := sequential c2 user_id w1 in
              ((i1 ++ i2)%list, w2)))
     /\ (forall messages reply, calls <> [] ->
           chat (planner calls reply) messages user_id w
           = (Ok (reply, fst (sequential calls user_id (count_provider_call w))),
              count_provider_call
                (snd (sequential calls user_id (count_provider_call w))))))
    /\ (Exists (fun tc => ~ arguments_object tc) calls ->
        (exists e, fst (run_tool_calls calls user_id [] w) = Raise e)
        /\ forall messages reply,
            exists w1,
              chat (planner calls reply) messages user_id w
              = match fallback messages user_id w1 with
                | (Ok r, w') => (Ok (Some (fst r), snd r), w')
                | (Raise e, w') => (Raise e, w')
                end).
Proof.
  intros calls user_id w. split.
  - intro Hall.
    split; [apply (run_tool_calls_sequential calls user_id [] w Hall) |].
    destruct (sequential_records calls user_id w) as [Hnames Hrecords].
    split; [exact Hnames |]. split; [| split].
    + eapply Forall_impl; [| exact Hrecords]. simpl.
      intros inv [Huid [[v [Ho [_ He]]] | Herr]]; split; auto.
      left. exists v. auto.
    + intros c1 c2 ->. apply sequential_app.
    + intros messages reply Hne. unfold chat, try_except.
      unfold bind at 1. unfold completions_create at 1. simpl.
      destruct calls as [| tc rest]; [contradiction |].
      unfold bind at 1.
      rewrite (run_tool_calls_sequential _ user_id [] (count_provider_call w) Hall).
      simpl app.
      unfold bind, completions_create, ret. simpl. reflexivity.
  - intro Hex. split; [apply run_tool_calls_stop; exact Hex |].
    intros messages reply.
    destruct (run_tool_calls_stop calls user_id [] (count_provider_call w) Hex)
      as [e He].
    unfold chat, try_except.
    unfold bind at 1. unfold completions_create at 1. simpl.
    destruct calls as [| tc rest]; [inversion Hex |].
    unfold bind at 1.
    destruct (run_tool_calls (tc :: rest) user_id [] (count_provider_call w))
      as [[invs | e'] w1]; simpl in He; [discriminate |].
    exists w1. unfold bind, ret.
    destruct (fallback messages user_id w1) as [[r | e''] w2]; reflexivity.
Qed.

Lemma tool_calls_run_in_order_witness :
  run_tool_calls unknown_then_create 7 [] empty_world
  = (Ok [mkInvocation "archive_task" [("task_id", JInt 1); ("user_id", JInt 7)]
                      None (Some "Unknown tool: archive_task");
         mkInvocation "create_task" [("title", JStr "buy milk"); ("user_id", JInt 7)]
                      (Some (JDict [("task_id", JInt 1); ("title", JStr "buy milk");
                                    ("description", JNull); ("completed", JBool false);
                                    ("created_at", JStr "0")]))
                      None],
     set_tasks [mkTask 1 "buy milk" None false 7 0 0] 2 empty_world)
  /\ exists e, fst (run_tool_calls undecodable_then_create 7 [] empty_world) = Raise e.
Proof.
  split.
  - assert (Hall : Forall arguments_object unknown_then_create).
    { repeat constructor; eexists; reflexivity. }
    destruct (tool_calls_run_in_order unknown_then_create 7 empty_world)
      as [Hgood _].
    destruct (Hgood Hall) as [Hrun _].
    rewrite Hrun. vm_compute. reflexivity.
  - destruct (tool_calls_run_in_order undecodable_then_create 7 empty_world)
      as [_ Hbad].
    apply Hbad. apply Exists_cons_hd. intros [d Hd]. discriminate.
Defined.

(** The claim of C6 fails when a call's arguments are no JSON object.
    For the argument text [[]] the first call fails inside the dispatcher,
    recording it raises, the loop stops, the second call is never carried
    out (no task is created) and the agent answers by the fallback with no
    invocation at all; for an argument text that is no JSON the loop stops
    before the first call. *)
Lemma tool_calls_stop_at_bad_arguments :
  run_tool_calls list_then_create 7 [] empty_world
  = (Raise (TypeError "object is not a mapping"), empty_world)
  /\ run_tool_calls undecodable_then_create 7 [] empty_world
     = (Raise (ValueError "Expecting value"), empty_world)
  /\ chat (planner list_then_create (Some "Done."))
          [mkChatMessage "user" "hello"] 7 empty_world
     = (Ok (Some greeting_reply, []), count_provider_call empty_world)
  /\ ~ (exists invs w',
          run_tool_calls list_then_create 7 [] empty_world = (Ok invs, w')
          /\ map inv_tool invs = map tc_name list_then_create).
Proof.
  assert (H : run_tool_calls list_then_create 7 [] empty_world
              = (Raise (TypeError "object is not a mapping"), empty_world))
    by (vm_compute; reflexivity).
  split; [exact H |]. split; [vm_compute; reflexivity |].
  split; [vm_compute; reflexivity |].
  intros [invs [w' [Hrun _]]]. rewrite H in Hrun. discriminate.
Qed.

(** C9.  When the provider planned tool calls, the loop carried them out,
    and the second request fails, the agent answers by the fallback, run
    at the world that the tool calls left: the invocations of the loop are
    not in the result, which is the fallback's own, and their effects
    stay.  So a tool can run twice for one message: for a create request
    answered by a planned [create_task] the world ends with two tasks of
    the same title and one reported invocation. *)
Theorem grounding_failure_falls_back :
  forall (self : AgentService) (messages : list chat_message) (user_id : Z)
         (w w1 : world) (assistant_message : completion_message)
         (invs : list invocation),
    client self (mkRequest (Plain (mkChatMessage "system" (SYSTEM_PROMPT self))
                              :: map Plain messages) true)
    = Some assistant_message ->
    tool_calls assistant_message <> [] ->
    run_tool_calls (tool_calls assistant_message) user_id [] (count_provider_call w)
    = (Ok invs, w1) ->
    (forall req, req_tools req = false -> client self req = None) ->
    chat self messages user_id w
    = match fallback messages user_id (count_provider_call w1) with
      | (Ok r, w') => (Ok (Some (fst r), snd r), w')
      | (Raise e, w') => (Raise e, w')
      end
    /\ let create := [mkToolCall "call_1" "create_task"
                                 (Some (JDict [("title", JStr "buy milk")]))] in
       let outcome := chat (planner_then_down create)
                           [mkChatMessage "user" "Create a task to buy milk"]
                           7 empty_world in
       map task_title (tasks (snd outcome)) = ["buy milk"; "buy milk"]
       /\ match fst outcome with
          | Ok r => map inv_tool (snd r) = ["create_task"]
          | Raise _ => False
          end.
Proof.
  intros self messages user_id w w1 am invs Hplan Hcalls Hrun Hdown.
  split; [| vm_compute; split; reflexivity].
  unfold chat, try_except.
  unfold bind at 1. unfold completions_create at 1. rewrite Hplan.
  destruct (tool_calls am) as [| tc rest] eqn:Htc; [contradiction |].
  unfold bind at 1. rewrite Hrun.
  unfold bind at 1. unfold completions_create at 1. rewrite Hdown by reflexivity.
  unfold bind, ret.
  destruct (fallback messages user_id (count_provider_call w1)) as [[r | e] w'];
    reflexivity.
Qed.

Lemma grounding_failure_falls_back_witness :
  chat (planner_then_down unknown_then_create)
       [mkChatMessage "user" "Mark the groceries task as done"] 7 empty_world
  = (Ok (Some update_reply, []),
     count_provider_call (count_provider_call
       (set_tasks [mkTask 1 "buy milk" None false 7 0 0] 2 empty_world))).
Proof.
  destruct (grounding_failure_falls_back
              (planner_then_down unknown_then_create)
              [mkChatMessage "user" "Mark the groceries task as done"] 7
              empty_world
              (set_tasks [mkTask 1 "buy milk" None false 7 0 0] 2
                         (count_provider_call empty_world))
              (mkCompletion None unknown_then_create)
              [mkInvocation "archive_task" [("task_id", JInt 1); ("user_id", JInt 7)]
                            None (Some "Unknown tool: archive_task");
               mkInvocation "create_task"
                            [("title", JStr "buy milk"); ("user_id", JInt 7)]
                            (Some (JDict [("task_id", JInt 1); ("title", JStr "buy milk");
                                          ("description", JNull);
                                          ("completed", JBool false);
                                          ("created_at", JStr "0")]))
                            None]) as [H _].
  - reflexivity.
  - discriminate.
  - vm_compute. reflexivity.
  - intros req Hreq. simpl. rewrite Hreq. reflexivity.
  - rewrite H. vm_compute. reflexivity.
Defined.

(* ===================================================================== *)
(** * Further properties of the code *)
(* ===================================================================== *)

(** ** The tools as a store: round trips *)

(** When [create_task] returns, the title was text, the description text
    or absent, and one row of the caller went in under the next key. *)
Lemma create_task_returns (title : jval) (uid : Z) (description : jval)
      (w w1 : world) (out : jval) :
  create_task title uid description w = (Ok out, w1) ->
  exists s d,
    title = JStr s /\ bind_opt_text description = Ok d
    /\ w1 = set_tasks (tasks w ++ [mkTask (task_seq w) s d false uid (now w) (now w)])
                      (task_seq w + 1) w
    /\ out = JDict [("task_id", JInt (task_seq w)); ("title", JStr s);
                    ("description", of_opt_str d); ("completed", JBool false);
                    ("created_at", JStr (isoformat (now w)))].
Proof.
  unfold create_task. run_monad.
  repeat split_next; intro H; try discriminate;
    injection H as <- <-; eexists; eexists; repeat split; reflexivity.
Qed.

(** X1.  A task that [create_task] stored is listed: [list_tasks] for the
    same user then returns the tasks listed before, followed by the new
    task under the id and title that [create_task] reported, and a
    [total_count] one higher. *)
Theorem create_task_then_list_tasks :
  forall (title description : jval) (user_id : Z) (w w1 : world) (out : jval),
    create_task title user_id description w = (Ok out, w1) ->
    exists entry,
      list_tasks user_id JNull w1
      = (Ok (JDict [("tasks", JList (map task_entry (tasks_of user_id (tasks w))
                                      ++ [entry]));
                    ("total_count",
                     JInt (Z.of_nat (length (tasks_of user_id (tasks w))) + 1))]),
         w1)
      /\ dict_get "task_id" (match entry with JDict d => d | _ => [] end)
         = dict_get "task_id" (match out with JDict d => d | _ => [] end)
      /\ dict_get "title" (match entry with JDict d => d | _ => [] end)
         = Some title
      /\ dict_get "completed" (match entry with JDict d => d | _ => [] end)
         = Some (JBool false).
Proof.
  intros title description user_id w w1 out Hcreate.
  destruct (create_task_returns _ _ _ _ _ _ Hcreate) as [s [d [-> [Hd [-> ->]]]]].
  exists (task_entry (mkTask (task_seq w) s d false user_id (now w) (now w))).
  split; [| repeat split; reflexivity].
  unfold list_tasks, try_except, bind, get_world, ret. simpl.
  unfold tasks_of. rewrite filter_app. simpl. rewrite Z.eqb_refl.
  rewrite map_app, length_app, Nat2Z.inj_add, !length_map. reflexivity.
Qed.

Lemma create_task_then_list_tasks_witness :
  exists entry,
    list_tasks 1 JNull
      (snd (create_task (JStr "water plants") 1 JNull two_tenants))
    = (Ok (JDict [("tasks",
                   JList (map task_entry [mkTask 1 "pay rent" None false 1 0 0]
                          ++ [entry]));
                  ("total_count", JInt 2)]),
       snd (create_task (JStr "water plants") 1 JNull two_tenants))
    /\ dict_get "title" (match entry with JDict d => d | _ => [] end)
       = Some (JStr "water plants").
Proof.
  destruct (create_task_then_list_tasks (JStr "water plants") JNull 1 two_tenants
              (snd (create_task (JStr "water plants") 1 JNull two_tenants))
              (JDict [("task_id", JInt 3); ("title", JStr "water plants");
                      ("description", JNull); ("completed", JBool false);
                      ("created_at", JStr "5")]))
    as [entry [Hlist [_ [Htitle _]]]].
  - vm_compute. reflexivity.
  - exists entry. split; [exact Hlist | exact Htitle].
Defined.

Lemma not_own_task_none (id uid : Z) (w : world) :
  not_own_task id uid w ->
  filter (fun t => (task_id t =? id) && (task_user_id t =? uid)) (tasks w) = [].
Proof.
  intro H. unfold not_own_task in H.
  induction (tasks w) as [| t ts IH]; simpl; [reflexivity |].
  destruct ((task_id t =? id) && (task_user_id t =? uid)) eqn:E.
  - apply andb_true_iff in E. destruct E as [E1 E2].
    apply Z.eqb_eq in E1, E2. exfalso. eapply H; eauto. now left.
  - apply IH. intros t' Hin. apply H. now right.
Qed.

(** A key that is not a row of the caller is "not found" for both
    tools that look a task up. *)
Lemma task_not_found_raises (id uid : Z) (title description completed : jval)
      (w : world) :
  not_own_task id uid w ->
  update_task (JInt id) uid title description completed w
  = (Raise (ValueError ("Task " ++ Py.str_of_int id
                        ++ " not found or does not belong to user")), w)
  /\ delete_task (JInt id) uid w
     = (Raise (ValueError ("Task " ++ Py.str_of_int id
                           ++ " not found or does not belong to user")), w).
Proof.
  intro Hnone. pose proof (not_own_task_none id uid w Hnone) as Hrows. split.
  - unfold update_task, find_task, try_except, bind, lift, get_world. simpl.
    rewrite Hrows. reflexivity.
  - unfold delete_task, find_task, try_except, bind, lift, get_world. simpl.
    rewrite Hrows. reflexivity.
Qed.

(** X2.  A task id that is absent or belongs to another user is "not
    found" for the caller: [update_task] and [delete_task] raise the same
    [ValueError], the dispatcher reports it as the error of the invocation
    with no outputs, and the world is left as it was. *)
Theorem foreign_task_not_found :
  forall (id user_id : Z) (title description completed : jval) (w : world),
    not_own_task id user_id w ->
    let not_found :=
      ValueError ("Task " ++ Py.str_of_int id
                  ++ " not found or does not belong to user") in
    update_task (JInt id) user_id title description completed w
    = (Raise not_found, w)
    /\ delete_task (JInt id) user_id w = (Raise not_found, w)
    /\ _execute_tool "delete_task" (JDict [("task_id", JInt id)]) user_id w
       = (Ok (mkToolResult None (Some (str not_found))), w).
Proof.
  intros id user_id title description completed w Hnone.
  destruct (task_not_found_raises id user_id title description completed w Hnone)
    as [Hupdate Hdelete].
  simpl. split; [exact Hupdate | split; [exact Hdelete |]].
  assert (Hcall : call_tool Delete_task user_id (JDict [("task_id", JInt id)]) w
                  = delete_task (JInt id) user_id w) by reflexivity.
  unfold _execute_tool.
  change (tool_map "delete_task") with (Some Delete_task).
  unfold try_except, bind. rewrite Hcall, Hdelete. reflexivity.
Qed.

Lemma foreign_task_not_found_witness :
  update_task (JInt 2) 1 JNull JNull (JBool true) two_tenants
  = (Raise (ValueError "Task 2 not found or does not belong to user"), two_tenants)
  /\ delete_task (JInt 2) 1 two_tenants
     = (Raise (ValueError "Task 2 not found or does not belong to user"), two_tenants).
Proof.
  assert (H : not_own_task 2 1 two_tenants).
  { intros t Hin Hid. simpl in Hin.
    destruct Hin as [<- | [<- | []]]; simpl in *; [discriminate | discriminate]. }
  destruct (foreign_task_not_found 2 1 JNull JNull (JBool true) two_tenants H)
    as [Hupdate [Hdelete _]].
  split; [exact Hupdate | exact Hdelete].
Defined.

Lemma delete_task_returns (task_id_arg : jval) (uid : Z) (w w1 : world) (out : jval) :
  delete_task task_id_arg uid w = (Ok out, w1) ->
  exists id task,
    task_id_arg = JInt id /\ In task (tasks w) /\ task_id task = id
    /\ task_user_id task = uid
    /\ w1 = set_tasks (filter (fun t => negb (task_id t =? id)) (tasks w))
                      (task_seq w) w.
Proof.
  unfold delete_task, find_task, scalar_one_or_none. run_monad.
  destruct task_id_arg as [| b | id | s | l | d]; simpl; try discriminate.
  destruct (filter _ (tasks w)) as [| task [| second rest]] eqn:Hrows; simpl;
    try discriminate.
  intro H. injection H as _ <-.
  assert (Hin : In task (filter (fun t => (task_id t =? id) && (task_user_id t =? uid))
                                (tasks w))) by (rewrite Hrows; now left).
  apply filter_In in Hin. destruct Hin as [Hin Hc].
  apply andb_true_iff in Hc. destruct Hc as [Hid Hown].
  apply Z.eqb_eq in Hid, Hown.
  exists id, task. rewrite Hid. repeat split; auto.
Qed.

(** X3.  A task that [delete_task] deleted is gone: the table is the old
    one without the rows of that id, and for the same caller the id is
    then "not found" for [update_task] and for a second [delete_task],
    which leave the world as it is. *)
Theorem delete_task_then_not_found :
  forall (task_id_arg : jval) (user_id : Z) (w w1 : world) (out : jval),
    delete_task task_id_arg user_id w = (Ok out, w1) ->
    exists id,
      task_id_arg = JInt id
      /\ tasks w1 = filter (fun t => negb (task_id t =? id)) (tasks w)
      /\ ~ In id (map task_id (tasks w1))
      /\ delete_task task_id_arg user_id w1
         = (Raise (ValueError ("Task " ++ Py.str_of_int id
                               ++ " not found or does not belong to user")), w1)
      /\ forall title description completed,
          update_task task_id_arg user_id title description completed w1
          = (Raise (ValueError ("Task " ++ Py.str_of_int id
                                ++ " not found or does not belong to user")), w1).
Proof.
  intros task_id_arg user_id w w1 out Hdel.
  destruct (delete_task_returns task_id_arg user_id w w1 out Hdel)
    as [id [task [-> [Hin [Hid [Hown ->]]]]]].
  exists id. split; [reflexivity |]. split; [reflexivity |].
  assert (Hgone : ~ In id (map task_id
                     (filter (fun t => negb (task_id t =? id)) (tasks w)))).
  { intro H. apply in_map_iff in H. destruct H as [t [Ht Hfil]].
    apply filter_In in Hfil. destruct Hfil as [_ Hne].
    rewrite Ht, Z.eqb_refl in Hne. discriminate. }
  split; [exact Hgone |].
  assert (Hnone : not_own_task id user_id
                    (set_tasks (filter (fun t => negb (task_id t =? id)) (tasks w))
                               (task_seq w) w)).
  { intros t Ht Heq. exfalso. apply Hgone.
    apply in_map_iff. exists t. split; [exact Heq | exact Ht]. }
  split.
  - apply (task_not_found_raises id user_id JNull JNull JNull _ Hnone).
  - intros title description completed.
    apply (task_not_found_raises id user_id title description completed _ Hnone).
Qed.

Lemma delete_task_then_not_found_witness :
  tasks (snd (delete_task (JInt 1) 1 two_tenants))
  = [mkTask 2 "call bank" None false 2 0 0]
  /\ delete_task (JInt 1) 1 (snd (delete_task (JInt 1) 1 two_tenants))
     = (Raise (ValueError "Task 1 not found or does not belong to user"),
        snd (delete_task (JInt 1) 1 two_tenants)).
Proof.
  destruct (delete_task_then_not_found (JInt 1) 1 two_tenants
              (snd (delete_task (JInt 1) 1 two_tenants))
              (JDict [("success", JBool true);
                      ("message", JStr "Task deleted successfully");
                      ("deleted_task_id", JInt 1)]))
    as [id [Hid [Htasks [_ [Hagain _]]]]].
  - vm_compute. reflexivity.
  - injection Hid as <-. split; [rewrite Htasks; reflexivity | exact Hagain].
Defined.



(** ** The agent: requests, totality, the fallback's tool branches *)

(** The paths of one run of the agent. *)
Lemma chat_paths (self : AgentService) (messages : list chat_message) (uid : Z)
      (w : world) :
  chat self messages uid w
  = match client self (planning_request self messages) with
    | None => fallback_answer messages uid (count_provider_call w)
    | Some answer =>
        match tool_calls answer with
        | [] => (Ok (content answer, []), count_provider_call w)
        | _ :: _ =>
            match run_tool_calls (tool_calls answer) uid [] (count_provider_call w) with
            | (Raise e, w1) => fallback_answer messages uid w1
            | (Ok invs, w1) =>
                match client self (grounding_request self messages answer invs) with
                | Some final => (Ok (content final, invs), count_provider_call w1)
                | None => fallback_answer messages uid (count_provider_call w1)
                end
            end
        end
    end.
Proof.
  assert (Hfb : forall w0,
             bind (fallback messages uid) (fun r => ret (Some (fst r), snd r)) w0
             = fallback_answer messages uid w0).
  { intro w0. unfold bind, ret, fallback_answer.
    destruct (fallback messages uid w0) as [[r | e] w1]; reflexivity. }
  unfold chat, try_except.
  match goal with
  | |- context [bind ?m ?k w] => set (body := bind m k)
  end.
  fold (planning_request self messages) in body.
  assert (Hbody :
            body w
            = match client self (planning_request self messages) with
              | None => (Raise (APIError "Connection error."), count_provider_call w)
              | Some answer =>
                  match tool_calls answer with
                  | [] => (Ok (content answer, []), count_provider_call w)
                  | _ :: _ =>
                      match run_tool_calls (tool_calls answer) uid []
                                           (count_provider_call w) with
                      | (Raise e, w1) => (Raise e, w1)
                      | (Ok invs, w1) =>
                          match client self
                                  (grounding_request self messages answer invs) with
                          | Some final =>
                              (Ok (content final, invs), count_provider_call w1)
                          | None => (Raise (APIError "Connection error."),
                                     count_provider_call w1)
                          end
                      end
                  end
              end).
  { subst body. unfold bind at 1. unfold completions_create at 1.
    destruct (client self (planning_request self messages)) as [answer |];
      [| reflexivity].
    destruct (tool_calls answer) as [| tc rest] eqn:Hcalls; [reflexivity |].
    unfold bind at 1.
    destruct (run_tool_calls (tc :: rest) uid [] (count_provider_call w))
      as [[invs | e] w1]; [| reflexivity].
    unfold bind at 1. unfold completions_create at 1.
    unfold grounding_request. rewrite Hcalls.
    destruct (client self _) as [final |]; reflexivity. }
  rewrite Hbody.
  destruct (client self (planning_request self messages)) as [answer |];
    [| apply Hfb].
  destruct (tool_calls answer) as [| tc rest]; [reflexivity |].
  destruct (run_tool_calls (tc :: rest) uid [] (count_provider_call w))
    as [[invs | e] w1]; [| apply Hfb].
  destruct (client self _) as [final |]; [reflexivity | apply Hfb].
Qed.

Lemma run_tool_calls_provider_calls (calls : list tool_call) (uid : Z)
      (acc : list invocation) (w : world) :
  provider_calls (snd (run_tool_calls calls uid acc w)) = provider_calls w.
Proof.
  revert acc w. induction calls as [| tc calls IH]; intros acc w; simpl.
  - reflexivity.
  - unfold bind.
    pose proof (task_effect_provider_calls (run_tool_call_effect tc uid w)) as H.
    destruct (run_tool_call tc uid w) as [[inv | e] w1]; simpl in H |- *.
    + rewrite IH. exact H.
    + exact H.
Qed.

Lemma fallback_answer_provider_calls (messages : list chat_message) (uid : Z)
      (w : world) :
  provider_calls (snd (fallback_answer messages uid w)) = provider_calls w.
Proof.
  unfold fallback_answer.
  pose proof (task_effect_provider_calls (fallback_effect messages uid w)) as H.
  destruct (fallback messages uid w) as [[r | e] w1]; exact H.
Qed.

(** X5.  One run of the agent sends one request to the provider, or two:
    two only when the first answer asked for tool calls.  When the first
    answer asks for none, its text is the reply as it is, no invocation is
    reported and nothing else in the world changes. *)
Theorem chat_sends_one_or_two_requests :
  forall (self : AgentService) (messages : list chat_message) (user_id : Z)
         (w : world),
    let sent := provider_calls (snd (chat self messages user_id w)) in
    (sent = S (provider_calls w) \/ sent = S (S (provider_calls w)))
    /\ (sent = S (S (provider_calls w)) ->
        exists answer,
          client self (planning_request self messages) = Some answer
          /\ tool_calls answer <> [])
    /\ (forall text,
           client self (planning_request self messages) = Some (mkCompletion text []) ->
           chat self messages user_id w = (Ok (text, []), count_provider_call w)).
Proof.
  intros self messages user_id w sent. subst sent.
  rewrite chat_paths.
  assert (Hone : forall n : nat, S n <> S (S n)) by (intros n H; lia).
  destruct (client self (planning_request self messages)) as [answer |] eqn:Hfirst.
  - destruct (tool_calls answer) as [| tc rest] eqn:Hcalls.
    + simpl. split; [left; reflexivity |]. split.
      * intro H. exfalso. exact (Hone _ H).
      * intros text Htext. injection Htext as ->. reflexivity.
    + pose proof (run_tool_calls_provider_calls (tc :: rest) user_id []
                    (count_provider_call w)) as Hloop.
      destruct (run_tool_calls (tc :: rest) user_id [] (count_provider_call w))
        as [[invs | e] w1]; simpl in Hloop.
      * assert (Htwo : exists answer0 : completion_message,
                   Some answer = Some answer0 /\ tool_calls answer0 <> []).
        { exists answer. split; [reflexivity |]. rewrite Hcalls. discriminate. }
        destruct (client self (grounding_request self messages answer invs))
          as [final |].
        -- simpl. rewrite Hloop.
           split; [right; reflexivity |]. split; [intros _; exact Htwo |].
           intros text Htext. injection Htext as ->. discriminate Hcalls.
        -- rewrite fallback_answer_provider_calls. simpl. rewrite Hloop. simpl.
           split; [right; reflexivity |]. split; [intros _; exact Htwo |].
           intros text Htext. injection Htext as ->. discriminate Hcalls.
      * rewrite fallback_answer_provider_calls, Hloop. simpl.
        split; [left; reflexivity |]. split.
        -- intro H. exfalso. exact (Hone _ H).
        -- intros text Htext. injection Htext as ->. discriminate Hcalls.
  - rewrite fallback_answer_provider_calls. simpl.
    split; [left; reflexivity |]. split.
    + intro H. exfalso. exact (Hone _ H).
    + intros text Htext. discriminate.
Qed.

Lemma chat_sends_one_or_two_requests_witness :
  chat (mkAgentService "prompt"
          (fun _ => Some (mkCompletion (Some "You have no tasks.") [])))
       [mkChatMessage "user" "anything due?"] 7 two_tenants
  = (Ok (Some "You have no tasks.", []), count_provider_call two_tenants).
Proof.
  apply (chat_sends_one_or_two_requests
           (mkAgentService "prompt"
              (fun _ => Some (mkCompletion (Some "You have no tasks.") [])))
           [mkChatMessage "user" "anything due?"] 7 two_tenants).
  reflexivity.
Defined.

Lemma append_assoc (a b c : string) : (a ++ b) ++ c = a ++ b ++ c.
Proof.
  induction a as [| x a IH]; [reflexivity |].
  change (String x ((a ++ b) ++ c) = String x (a ++ b ++ c)). now rewrite IH.
Qed.

Lemma prefix_append (needle rest : string) : prefix needle (needle ++ rest) = true.
Proof.
  induction needle as [| x needle IH]; simpl.
  - now destruct rest.
  - destruct (ascii_dec x x) as [_ | Hne]; [exact IH | contradiction].
Qed.

Lemma contains_prefix (needle hay : string) :
  prefix needle hay = true -> Py.contains needle hay = true.
Proof. intro H. destruct hay; simpl; simpl in H; now rewrite H. Qed.

(** Text that is put together from parts contains each part. *)
Lemma contains_append (needle before after : string) :
  Py.contains needle (before ++ needle ++ after) = true.
Proof.
  induction before as [| x before IH].
  - change ("" ++ needle ++ after) with (needle ++ after).
    apply contains_prefix, prefix_append.
  - change (String x before ++ needle ++ after)
      with (String x (before ++ needle ++ after)).
    cbn [Py.contains].
    destruct (prefix needle (String x (before ++ needle ++ after)));
      [reflexivity | exact IH].
Qed.

Lemma strip_empty_len (s : string) : Py.strip s = "" -> Py.len (Py.strip s) = 0.
Proof. intros ->. reflexivity. Qed.

(** The title that the fallback makes up is never blank. *)
Lemma extract_title_not_blank (message_content : string) :
  extract_title message_content <> ""
  /\ Py.strip (extract_title message_content) <> "".
Proof.
  unfold extract_title.
  destruct (Re.search title_pattern message_content) as [m |];
    [| split; [discriminate | vm_compute; discriminate]].
  destruct (Re.group m 1) as [g |];
    [| split; [discriminate | vm_compute; discriminate]].
  cbv zeta.
  destruct (_ || _) eqn:E; [split; [discriminate | vm_compute; discriminate] |].
  apply orb_false_iff in E. destruct E as [E1 E2].
  apply String.eqb_neq in E1. apply Z.eqb_neq in E2.
  split; [exact E1 |].
  intro Hblank. apply E2. now apply strip_empty_len.
Qed.

Lemma classify_create (message_content : string) :
  classify message_content = Create ->
  (Py.contains "hello" message_content || Py.contains "hi" message_content
   || Py.contains "hey" message_content) = false
  /\ Py.any_in ["create"; "add"; "make"; "new"] message_content = true.
Proof.
  unfold classify.
  destruct (_ || _ || _); [discriminate |].
  destruct (Py.any_in ["create"; "add"; "make"; "new"] message_content);
    [tauto |].
  repeat match goal with
         | |- context [if ?b then _ else _] => destruct b
         end; discriminate.
Qed.

Lemma classify_list (message_content : string) :
  classify message_content = List ->
  (Py.contains "hello" message_content || Py.contains "hi" message_content
   || Py.contains "hey" message_content) = false
  /\ Py.any_in ["create"; "add"; "make"; "new"] message_content = false
  /\ Py.any_in ["show"; "list"; "view"; "see"; "my tasks"] message_content = true.
Proof.
  unfold classify.
  destruct (_ || _ || _); [discriminate |].
  destruct (Py.any_in ["create"; "add"; "make"; "new"] message_content);
    [discriminate |].
  destruct (Py.any_in ["show"; "list"; "view"; "see"; "my tasks"] message_content);
    [tauto |].
  repeat match goal with
         | |- context [if ?b then _ else _] => destruct b
         end; discriminate.
Qed.

Lemma create_task_too_long (title : string) (uid : Z) (w : world) :
  (500 < String.length title)%nat ->
  create_task (JStr title) uid JNull w
  = (Raise (ValueError "Title must be between 1 and 500 characters"), w).
Proof.
  intro Hlen. unfold create_task, try_except, bind, lift, ret, raise. simpl.
  destruct (String.eqb title "") eqn:E; simpl; [reflexivity |].
  assert (E2 : (500 <? Py.len title) = true)
    by (apply Z.ltb_lt; unfold Py.len; lia).
  rewrite E2. reflexivity.
Qed.

(** X6.  For a message of create intent the fallback calls [create_task]
    once, with a title that is never blank.  A title of at most 500
    characters is stored for the caller and confirmed in the reply; a
    longer one is refused by the tool, nothing is stored, and the reply and
    the one reported invocation carry the tool's error. *)
Theorem fallback_create_reports_one_invocation :
  forall (messages : list chat_message) (user_id : Z) (w : world),
    classify (latest_content messages) = Create ->
    let title := extract_title (latest_content messages) in
    title <> "" /\ Py.strip title <> ""
    /\ ((String.length title <= 500)%nat ->
        fallback messages user_id w
        = (Ok ("I've created a task '" ++ title ++ "' for you.",
               [mkInvocation "create_task"
                  [("title", JStr title); ("user_id", JInt user_id)]
                  (Some (JDict [("task_id", JInt (task_seq w)); ("title", JStr title);
                                ("description", JNull); ("completed", JBool false);
                                ("created_at", JStr (isoformat (now w)))]))
                  None]),
           set_tasks (tasks w ++ [mkTask (task_seq w) title None false user_id
                                         (now w) (now w)])
                     (task_seq w + 1) w))
    /\ ((500 < String.length title)%nat ->
        fallback messages user_id w
        = (Ok ("I had trouble creating the task '" ++ title
               ++ "': Title must be between 1 and 500 characters",
               [mkInvocation "create_task"
                  [("title", JStr title); ("user_id", JInt user_id)]
                  None (Some "Title must be between 1 and 500 characters")]),
           w)).
Proof.
  intros messages user_id w Hclass title. subst title.
  destruct (extract_title_not_blank (latest_content messages)) as [Hne Hblank].
  destruct (classify_create _ Hclass) as [Hgreet Hcreate].
  split; [exact Hne |]. split; [exact Hblank |].
  assert (Hbranch : fallback messages user_id w
            = try_except
                (bind (create_task (JStr (extract_title (latest_content messages)))
                                   user_id JNull)
                      (fun task_result =>
                         ret ("I've created a task '"
                              ++ extract_title (latest_content messages)
                              ++ "' for you.",
                              [mkInvocation "create_task"
                                 [("title", JStr (extract_title (latest_content messages)));
                                  ("user_id", JInt user_id)]
                                 (Some task_result) None])))
                (fun e =>
                   ret ("I had trouble creating the task '"
                        ++ extract_title (latest_content messages) ++ "': " ++ str e,
                        [mkInvocation "create_task"
                           [("title", JStr (extract_title (latest_content messages)));
                            ("user_id", JInt user_id)]
                           None (Some (str e))])) w).
  { unfold fallback. fold (latest_content messages). rewrite Hgreet, Hcreate.
    reflexivity. }
  rewrite Hbranch. unfold try_except, bind. split; intro Hlen.
  - rewrite create_task_stores by assumption. reflexivity.
  - rewrite create_task_too_long by assumption. reflexivity.
Qed.

Lemma fallback_create_reports_one_invocation_witness :
  fallback [mkChatMessage "user" "Add milk now please"] 7 empty_world
  = (Ok ("I've created a task 'milk now' for you.",
         [mkInvocation "create_task" [("title", JStr "milk now"); ("user_id", JInt 7)]
            (Some (JDict [("task_id", JInt 1); ("title", JStr "milk now");
                          ("description", JNull); ("completed", JBool false);
                          ("created_at", JStr "0")]))
            None]),
     set_tasks [mkTask 1 "milk now" None false 7 0 0] 2 empty_world).
Proof.
  destruct (fallback_create_reports_one_invocation
              [mkChatMessage "user" "Add milk now please"] 7 empty_world)
    as [_ [_ [Hshort _]]].
  - vm_compute. reflexivity.
  - rewrite Hshort; [vm_compute; reflexivity | vm_compute; lia].
Defined.

(** The loop over what [list_tasks] returned never misses a key: it adds
    one line per task. *)
Lemma append_empty (s : string) : s ++ "" = s.
Proof.
  induction s as [| c s IH]; [reflexivity |].
  change (String c (s ++ "") = String c s). now rewrite IH.
Qed.

Lemma append_assoc3 (a b c d : string) : (a ++ b ++ c) ++ d = a ++ b ++ c ++ d.
Proof. now rewrite !append_assoc. Qed.

Lemma enumerate_tasks_lines (rows : list Task) (i : Z) (response_text : string) :
  enumerate_tasks i (map task_entry rows) response_text
  = Ok (response_text ++ task_lines i rows).
Proof.
  revert i response_text. induction rows as [| t rows IH]; intros i text.
  - simpl. now rewrite append_empty.
  - change (enumerate_tasks i (map task_entry (t :: rows)) text)
      with (enumerate_tasks (i + 1) (map task_entry rows) (text ++ task_line i t)).
    rewrite IH. cbn [task_lines]. now rewrite append_assoc.
Qed.

Lemma task_lines_contains (rows : list Task) (i : Z) (before : string) (t : Task) :
  In t rows -> Py.contains (task_title t) (before ++ task_lines i rows) = true.
Proof.
  revert i before. induction rows as [| r rows IH]; intros i before Hin; [contradiction |].
  cbn [task_lines]. destruct Hin as [-> | Hin].
  - unfold task_line.
    replace (before
             ++ (String "010" (Py.str_of_int i) ++ ". " ++ task_title t ++ " ("
                 ++ (if task_completed t then "completed" else "not completed") ++ ")")
             ++ task_lines (i + 1) rows)
      with ((before ++ String "010" (Py.str_of_int i) ++ ". ") ++ task_title t
            ++ (" (" ++ (if task_completed t then "completed" else "not completed")
                ++ ")") ++ task_lines (i + 1) rows)
      by (rewrite !append_assoc; reflexivity).
    apply contains_append.
  - rewrite <- append_assoc. apply IH. exact Hin.
Qed.

(** X7.  For a message of list intent the fallback calls [list_tasks] once
    and changes nothing.  The one reported invocation has no error and
    carries the caller's tasks with their count; the reply says that there
    are none when the caller has none, and otherwise gives the count and
    one numbered line per task, so that it contains every title. *)
Theorem fallback_list_reports_own_tasks :
  forall (messages : list chat_message) (user_id : Z) (w : world),
    classify (latest_content messages) = List ->
    let rows := tasks_of user_id (tasks w) in
    let reply :=
      match rows with
      | [] => "You don't have any tasks yet. You can create one by asking me to create a task."
      | _ :: _ => "You have " ++ Py.str_of_int (Z.of_nat (length rows)) ++ " tasks:"
                  ++ task_lines 1 rows
      end in
    fallback messages user_id w
    = (Ok (reply,
           [mkInvocation "list_tasks" [("user_id", JInt user_id)]
              (Some (JDict [("tasks", JList (map task_entry rows));
                            ("total_count", JInt (Z.of_nat (length rows)))]))
              None]),
       w)
    /\ forall t, In t rows -> Py.contains (task_title t) reply = true.
Proof.
  intros messages user_id w Hclass rows reply.
  destruct (classify_list _ Hclass) as [Hgreet [Hcreate Hlist]].
  split.
  - unfold fallback. fold (latest_content messages).
    rewrite Hgreet, Hcreate, Hlist.
    unfold try_except, bind at 1.
    assert (Hl : list_tasks user_id JNull w
                 = (Ok (JDict [("tasks", JList (map task_entry rows));
                               ("total_count",
                                JInt (Z.of_nat (length (map task_entry rows))))]), w))
      by reflexivity.
    rewrite Hl. unfold bind, lift, ret. simpl.
    rewrite length_map. subst reply.
    destruct rows as [| t rows'] eqn:Hrows; [reflexivity |].
    rewrite <- Hrows.
    assert (Hnz : (Z.of_nat (length rows) =? 0) = false).
    { apply Z.eqb_neq. rewrite Hrows. simpl. lia. }
    rewrite Hnz. rewrite enumerate_tasks_lines.
    rewrite <- (append_assoc3 "You have " (Py.str_of_int (Z.of_nat (length rows)))
                              " tasks:" (task_lines 1 rows)).
    reflexivity.
  - intros t Hin. subst reply. destruct rows as [| r rows'] eqn:Hrows; [contradiction |].
    rewrite <- Hrows in Hin |- *.
    rewrite <- append_assoc3.
    apply task_lines_contains. exact Hin.
Qed.

Lemma fallback_list_reports_own_tasks_witness :
  fallback [mkChatMessage "user" "Show my tasks"] 1 two_tenants
  = (Ok ("You have 1 tasks:" ++ String "010" "1. pay rent (not completed)",
         [mkInvocation "list_tasks" [("user_id", JInt 1)]
            (Some (JDict [("tasks",
                           JList [task_entry (mkTask 1 "pay rent" None false 1 0 0)]);
                          ("total_count", JInt 1)]))
            None]),
     two_tenants).
Proof.
  destruct (fallback_list_reports_own_tasks
              [mkChatMessage "user" "Show my tasks"] 1 two_tenants) as [H _].
  - vm_compute. reflexivity.
  - rewrite H. vm_compute. reflexivity.
Defined.

(** The fallback answers whenever there is a latest message. *)
Lemma fallback_returns (messages : list chat_message) (m : chat_message)
      (uid : Z) (w : world) :
  last_message messages = Ok m ->
  exists r, fst (fallback messages uid w) = Ok r.
Proof.
  intro Hlast. unfold fallback. rewrite Hlast.
  repeat match goal with
         | |- context [if ?b then _ else _] => destruct b
         end; try (eexists; reflexivity).
  - unfold try_except, bind, ret.
    destruct (create_task _ uid JNull w) as [[v | e] w']; eexists; reflexivity.
  - unfold try_except.
    match goal with
    | |- context [bind ?m ?k w] => destruct (bind m k w) as [[v | e] w']
    end; eexists; reflexivity.
Qed.

(** X8.  With a history that is not empty the agent always returns a reply:
    no failure of the provider, of a tool or of the decoding of arguments
    gets out of it.  With an empty history and the provider unavailable it
    raises [IndexError], from the last branch of the fallback. *)
Theorem chat_returns_for_nonempty_history :
  forall (self : AgentService) (user_id : Z) (w : world),
    (forall messages, messages <> [] ->
       exists reply invocations,
         fst (chat self messages user_id w) = Ok (reply, invocations))
    /\ (client self (planning_request self []) = None ->
        chat self [] user_id w
        = (Raise (IndexError "list index out of range"), count_provider_call w)).
Proof.
  intros self user_id w. split.
  - intros messages Hne.
    assert (Hlast : exists m, last_message messages = Ok m).
    { unfold last_message. destruct (rev messages) as [| m l] eqn:Hrev.
      - exfalso. apply Hne. rewrite <- (rev_involutive messages), Hrev. reflexivity.
      - exists m. reflexivity. }
    destruct Hlast as [m Hlast].
    assert (Hfb : forall w0, exists reply invocations,
               fst (fallback_answer messages user_id w0) = Ok (reply, invocations)).
    { intro w0. unfold fallback_answer.
      destruct (fallback_returns messages m user_id w0 Hlast) as [r Hr].
      destruct (fallback messages user_id w0) as [[r' | e] w1]; simpl in Hr;
        [| discriminate].
      eexists. eexists. reflexivity. }
    rewrite chat_paths.
    destruct (client self (planning_request self messages)) as [answer |];
      [| apply Hfb].
    destruct (tool_calls answer) as [| tc rest]; [eexists; eexists; reflexivity |].
    destruct (run_tool_calls (tc :: rest) user_id [] (count_provider_call w))
      as [[invs | e] w1]; [| apply Hfb].
    destruct (client self _) as [final |]; [eexists; eexists; reflexivity | apply Hfb].
  - intro Hdown. rewrite chat_paths, Hdown. reflexivity.
Qed.

Lemma chat_returns_for_nonempty_history_witness :
  (exists reply invocations,
      fst (chat unavailable [mkChatMessage "user" "remind me"] 7 empty_world)
      = Ok (reply, invocations))
  /\ chat unavailable [] 7 empty_world
     = (Raise (IndexError "list index out of range"), count_provider_call empty_world).
Proof.
  destruct (chat_returns_for_nonempty_history unavailable 7 empty_world)
    as [Hreturns Hempty].
  split.
  - apply Hreturns. discriminate.
  - apply Hempty. reflexivity.
Defined.

(** X9.  A call that the dispatcher cannot bind runs no tool: for a name
    that is not one of the four tools, for arguments that are no JSON
    object, for a keyword that the tool does not take and for a required
    argument that is left out, the result carries an error and no outputs,
    and the world is as it was. *)
Theorem unbindable_call_runs_no_tool :
  forall (tool_name : string) (tool_args : jval) (user_id : Z) (w : world),
    (tool_map tool_name = None
     \/ (forall d, tool_args <> JDict d)
     \/ (exists t d k,
            tool_map tool_name = Some t /\ tool_args = JDict d
            /\ dict_mem k d = true
            /\ mem k (fst (signature t) ++ snd (signature t)) = false)
     \/ (exists t d k,
            tool_map tool_name = Some t /\ tool_args = JDict d
            /\ In k (fst (signature t)) /\ dict_mem k d = false)) ->
    exists msg,
      _execute_tool tool_name tool_args user_id w
      = (Ok (mkToolResult None (Some msg)), w).
Proof.
  intros tool_name tool_args user_id w Hbad.
  unfold _execute_tool, try_except, bind, ret, raise.
  destruct (tool_map tool_name) as [t |] eqn:Htool; [| eexists; reflexivity].
  assert (Hbind : exists e, bind_keywords t tool_args = Raise e).
  { destruct Hbad as [H | [H | [H | H]]].
    - discriminate.
    - destruct tool_args; try (eexists; reflexivity).
      exfalso. eapply H. reflexivity.
    - destruct H as [t' [d [k [Ht [-> [Hk Hmem]]]]]]. injection Ht as <-.
      unfold bind_keywords.
      destruct (dict_mem "user_id" d); [eexists; reflexivity |].
      destruct (dict_mem "db" d); [eexists; reflexivity |].
      destruct (signature t) as [required optional]. simpl in Hmem.
      assert (Hall : forallb (fun kv => mem (fst kv) (required ++ optional)) d = false).
      { clear - Hk Hmem. unfold dict_mem in Hk.
        induction d as [| [k' v] d IH]; simpl in *; [discriminate |].
        destruct (String.eqb k' k) eqn:E.
        - apply String.eqb_eq in E. subst k'. rewrite Hmem. reflexivity.
        - rewrite IH by exact Hk. apply andb_false_r. }
      rewrite Hall. eexists; reflexivity.
    - destruct H as [t' [d [k [Ht [-> [Hk Hmem]]]]]]. injection Ht as <-.
      unfold bind_keywords.
      destruct (dict_mem "user_id" d); [eexists; reflexivity |].
      destruct (dict_mem "db" d); [eexists; reflexivity |].
      destruct (signature t) as [required optional]. simpl in Hk.
      destruct (negb (forallb _ d)); [eexists; reflexivity |].
      assert (Hall : forallb (fun k0 => dict_mem k0 d) required = false).
      { clear - Hk Hmem.
        induction required as [| r required IH]; simpl in *; [contradiction |].
        destruct Hk as [-> | Hk].
        - rewrite Hmem. reflexivity.
        - rewrite IH by exact Hk. apply andb_false_r. }
      rewrite Hall. eexists; reflexivity. }
  destruct Hbind as [e He].
  unfold call_tool, bind, lift. rewrite He. eexists; reflexivity.
Qed.

Lemma unbindable_call_runs_no_tool_witness :
  (exists msg, _execute_tool "create_task" (JDict [("description", JStr "2 litres")])
                             7 two_tenants
               = (Ok (mkToolResult None (Some msg)), two_tenants))
  /\ (exists msg, _execute_tool "list_tasks" (JDict [("limit", JInt 5)]) 7 two_tenants
                  = (Ok (mkToolResult None (Some msg)), two_tenants)).
Proof.
  split.
  - apply (unbindable_call_runs_no_tool "create_task"
             (JDict [("description", JStr "2 litres")]) 7 two_tenants).
    right. right. right.
    exists Create_task, [("description", JStr "2 litres")], "title".
    repeat split; try reflexivity. simpl. now left.
  - apply (unbindable_call_runs_no_tool "list_tasks"
             (JDict [("limit", JInt 5)]) 7 two_tenants).
    right. right. left.
    exists List_tasks, [("limit", JInt 5)], "limit".
    repeat split; reflexivity.
Defined.

(** ** The chat handler *)



(** *** Reading a successful run backwards *)

Lemma bind_ok_inv {A B} (m : M A) (k : A -> M B) (w w' : world) (b : B) :
  bind m k w = (Ok b, w') ->
  exists a w1, m w = (Ok a, w1) /\ k a w1 = (Ok b, w').
Proof.
  unfold bind. destruct (m w) as [[a | e] w1]; intro H; [| discriminate].
  exists a, w1. split; [reflexivity | exact H].
Qed.

Lemma try_raising_ok_inv {A} (m : M A) (h : exn -> M A) (w w' : world) (a : A) :
  (forall e w0 a0 w1, h e w0 <> (Ok a0, w1)) ->
  try_except m h w = (Ok a, w') -> m w = (Ok a, w').
Proof.
  intros Hh. unfold try_except. destruct (m w) as [[a0 | e] w1]; intro H.
  - exact H.
  - exfalso. exact (Hh e w1 a w' H).
Qed.

Lemma add_message_ok_inv (cid : Z) (role : string) (content : option string)
      (tis : option (list invocation)) (w w' : world) (m : Message) :
  add_message cid role content tis w = (Ok m, w') ->
  exists text,
    content = Some text
    /\ msg_id m = message_seq w /\ msg_conversation_id m = cid
    /\ msg_role m = role /\ msg_content m = text
    /\ messages w' = (messages w ++ [m])%list
    /\ message_seq w' = message_seq w + 1
    /\ tool_invocation_logs w' = tool_invocation_logs w
    /\ log_seq w' = log_seq w /\ now w' = now w
    /\ conversation_seq w' = conversation_seq w.
Proof.
  unfold add_message. destruct content as [text |]; intro H; [| discriminate].
  injection H as <- <-. exists text. simpl. repeat split; reflexivity.
Qed.

Lemma log_tool_invocations_world (invs : list invocation) (uid mid : Z) (w : world) :
  exists new,
    Routes.log_tool_invocations invs uid mid w
    = (Ok tt, set_logs (tool_invocation_logs w ++ new)
                       (log_seq w + Z.of_nat (length invs)) w)
    /\ map log_entry new = map (audit_entry uid mid) invs.
Proof.
  revert w. induction invs as [| inv invs IH]; intro w; simpl.
  - exists []. split; [| reflexivity].
    unfold ret, set_logs. rewrite app_nil_r, Z.add_0_r. now destruct w.
  - unfold bind. unfold log_tool_invocation at 1.
    match goal with
    | |- context [Routes.log_tool_invocations invs uid mid ?w1] =>
        destruct (IH w1) as [new [Hrun Hnew]]
    end.
    rewrite Hrun. simpl.
    eexists (_ :: new). split.
    + unfold set_logs. simpl. rewrite <- app_assoc. simpl. f_equal. f_equal. lia.
    + simpl. rewrite Hnew. reflexivity.
Qed.

(** The steps of a request that succeeds, one after the other. *)
Lemma successful_turn_steps (agent : AgentService) (request : ChatRequest)
      (user_id : Z) (w w' : world) (resp : ChatResponse) :
  Routes.chat agent request user_id w = (Ok resp, w') ->
  exists loaded w1 u w2 answer w3 a w4,
    match conversation_id request with
    | Some cid =>
        fst loaded = cid /\ w1 = w
        /\ load_conversation_messages cid user_id 50 w = (Ok (snd loaded), w)
    | None =>
        fst loaded = conversation_seq w /\ snd loaded = []
        /\ w1 = snd (create_conversation user_id w)
    end
    /\ add_message (fst loaded) "user" (Some (message request)) None w1 = (Ok u, w2)
    /\ chat agent (snd loaded ++ [mkChatMessage "user" (message request)])%list
            user_id w2 = (Ok answer, w3)
    /\ add_message (fst loaded) "assistant" (fst answer) (Some (snd answer)) w3
       = (Ok a, w4)
    /\ Routes.log_tool_invocations (snd answer) user_id (msg_id a) w4 = (Ok tt, w')
    /\ resp = mkChatResponse (fst loaded) (msg_id a)
                (match fst answer with Some t => t | None => "" end) (snd answer).
Proof.
  intro Hrun. unfold Routes.chat in Hrun.
  apply try_raising_ok_inv in Hrun;
    [| intros e w0 a0 w1; destruct e; discriminate].
  apply bind_ok_inv in Hrun. destruct Hrun as [[] [w1 [Hv1 Hrun]]].
  assert (w1 = w) as ->.
  { destruct (_ || _); [discriminate | now injection Hv1]. }
  clear Hv1. apply bind_ok_inv in Hrun. destruct Hrun as [[] [w1 [Hv2 Hrun]]].
  assert (w1 = w) as ->.
  { destruct (_ <? _); [discriminate | now injection Hv2]. }
  clear Hv2. apply bind_ok_inv in Hrun. destruct Hrun as [loaded [w1 [Hload Hrun]]].
  cbv zeta in Hrun.
  apply bind_ok_inv in Hrun. destruct Hrun as [u [w2 [Hu Hrun]]].
  apply bind_ok_inv in Hrun. destruct Hrun as [answer [w3 [Hanswer Hrun]]].
  apply try_raising_ok_inv in Hanswer; [| intros e w0 a0 w4; discriminate].
  apply bind_ok_inv in Hrun. destruct Hrun as [a [w4 [Ha Hrun]]].
  apply bind_ok_inv in Hrun. destruct Hrun as [[] [w5 [Hlog Hret]]].
  injection Hret as <- <-.
  exists loaded, w1, u, w2, answer, w3, a, w4.
  repeat split; try assumption.
  destruct (conversation_id request) as [cid |].
  - apply bind_ok_inv in Hload. destruct Hload as [h [w6 [Hh Hret]]].
    apply try_raising_ok_inv in Hh;
      [| intros e w0 a0 w7; destruct (is_ValueError e); discriminate].
    pose proof (load_conversation_messages_world cid user_id 50 w) as Hw.
    rewrite Hh in Hw. simpl in Hw. subst w6.
    injection Hret as <- <-. simpl. tauto.
  - apply bind_ok_inv in Hload. destruct Hload as [c [w6 [Hc Hret]]].
    unfold create_conversation in Hc. injection Hc as <- <-.
    injection Hret as <- <-. simpl. tauto.
Qed.

(** X11.  A chat request that succeeds has stored exactly two messages,
    the user's and then the assistant's, under the next two message ids
    and in the conversation that the response names (the one requested, or
    a new one); the response carries the assistant message's id and text.
    It has also stored exactly one audit record per reported invocation,
    in the same order, each with the caller as user, the assistant message
    as origin, and the invocation's tool, inputs and error. *)
Theorem successful_turn_is_recorded :
  forall (agent : AgentService) (request : ChatRequest) (user_id : Z)
         (w w' : world) (resp : ChatResponse),
    Routes.chat agent request user_id w = (Ok resp, w') ->
    resp_conversation_id resp = target_conversation request w
    /\ exists u a new,
        messages w' = (messages w ++ [u; a])%list
        /\ msg_id u = message_seq w /\ msg_id a = message_seq w + 1
        /\ msg_role u = "user" /\ msg_content u = message request
        /\ msg_role a = "assistant" /\ msg_content a = response resp
        /\ msg_conversation_id u = resp_conversation_id resp
        /\ msg_conversation_id a = resp_conversation_id resp
        /\ resp_message_id resp = msg_id a
        /\ tool_invocation_logs w' = (tool_invocation_logs w ++ new)%list
        /\ map log_entry new
           = map (audit_entry user_id (msg_id a)) (resp_tool_invocations resp).
Proof.
  intros agent request user_id w w' resp Hrun.
  destruct (successful_turn_steps agent request user_id w w' resp Hrun)
    as [loaded [w1 [u [w2 [answer [w3 [a [w4
          [Hload [Hu [Hanswer [Ha [Hlog ->]]]]]]]]]]]]].
  assert (Hloaded : fst loaded = target_conversation request w
                    /\ messages w1 = messages w
                    /\ message_seq w1 = message_seq w
                    /\ tool_invocation_logs w1 = tool_invocation_logs w).
  { unfold target_conversation.
    destruct (conversation_id request) as [cid |].
    - destruct Hload as [Hcid [-> _]]. tauto.
    - destruct Hload as [Hcid [_ ->]]. simpl. tauto. }
  destruct Hloaded as [Htarget [Hm1 [Hs1 Hl1]]].
  destruct (add_message_ok_inv _ _ _ _ _ _ _ Hu)
    as [utext [Hutext [Huid [Hucid [Hurole [Hucontent [Hm2 [Hs2 [Hl2 _]]]]]]]]].
  injection Hutext as <-.
  pose proof (agent_effects_same_conversations
                (chat_effects agent
                   (snd loaded ++ [mkChatMessage "user" (message request)])%list
                   user_id w2)) as Hsame.
  rewrite Hanswer in Hsame. simpl in Hsame.
  destruct Hsame as [_ [Hm3 [Hl3 [_ [Hs3 _]]]]].
  destruct (add_message_ok_inv _ _ _ _ _ _ _ Ha)
    as [atext [Hatext [Haid [Hacid [Harole [Hacontent [Hm4 [Hs4 [Hl4 _]]]]]]]]].
  destruct (log_tool_invocations_world (snd answer) user_id (msg_id a) w4)
    as [new [Hlogrun Hnew]].
  rewrite Hlogrun in Hlog. injection Hlog as <-.
  simpl.
  split; [exact Htarget |].
  exists u, a, new.
  rewrite Hatext. simpl.
  repeat split; try assumption; try reflexivity.
  - rewrite Hm4, Hm3, Hm2, Hm1. rewrite <- app_assoc. reflexivity.
  - rewrite Huid. exact Hs1.
  - rewrite Haid, Hs3, Hs2, Hs1. reflexivity.
  - rewrite Hl4, Hl3, Hl2, Hl1. reflexivity.
Qed.

Lemma successful_turn_is_recorded_witness :
  map (fun m => (msg_id m, msg_role m, msg_content m))
      (messages (snd (Routes.chat unavailable (mkChatRequest None "Show my tasks")
                                  1 two_tenants)))
  = [(1, "user", "Show my tasks");
     (2, "assistant", "You have 1 tasks:" ++ String "010" "1. pay rent (not completed)")].
Proof.
  destruct (successful_turn_is_recorded unavailable (mkChatRequest None "Show my tasks")
              1 two_tenants
              (snd (Routes.chat unavailable (mkChatRequest None "Show my tasks")
                                1 two_tenants))
              (mkChatResponse 1 2
                 ("You have 1 tasks:" ++ String "010" "1. pay rent (not completed)")
                 [mkInvocation "list_tasks" [("user_id", JInt 1)]
                    (Some (JDict [("tasks",
                                   JList [task_entry
                                            (mkTask 1 "pay rent" None false 1 0 0)]);
                                  ("total_count", JInt 1)]))
                    None]))
    as [_ [u [a [new [Hmessages _]]]]].
  - vm_compute. reflexivity.
  - vm_compute. reflexivity.
Defined.

(** *** What the handler keeps *)

Lemma conversations_kept_refl (uid : Z) (w : world) : conversations_kept uid w w.
Proof. exists []. simpl. rewrite app_nil_r. split; [reflexivity | constructor]. Qed.

Lemma conversations_kept_trans (uid : Z) (w1 w2 w3 : world) :
  conversations_kept uid w1 w2 -> conversations_kept uid w2 w3 ->
  conversations_kept uid w1 w3.
Proof.
  intros [n1 [H1 F1]] [n2 [H2 F2]]. exists (n1 ++ n2)%list. split.
  - rewrite H2, H1, map_app. now rewrite app_assoc.
  - apply Forall_app. tauto.
Qed.

Lemma conversations_kept_same (uid : Z) (w w' : world) :
  map conversation_key (conversations w') = map conversation_key (conversations w) ->
  conversations_kept uid w w'.
Proof.
  intro H. exists []. simpl. rewrite app_nil_r. split; [exact H | constructor].
Qed.

Lemma add_message_keeps_conversations (uid cid : Z) (role : string)
      (content : option string) (tis : option (list invocation)) :
  run_ok (conversations_kept uid) (add_message cid role content tis) (fun _ => True).
Proof.
  intro w. split; [| destruct (fst _); exact I].
  apply conversations_kept_same. unfold add_message.
  destruct content as [text |]; [| reflexivity]. simpl.
  rewrite map_map. apply map_ext. intro c.
  destruct (conv_id c =? cid); reflexivity.
Qed.

Lemma chat_keeps_conversations (uid : Z) (self : AgentService)
      (messages : list chat_message) (caller : Z) :
  run_ok (conversations_kept uid) (chat self messages caller) (fun _ => True).
Proof.
  intro w. split; [| destruct (fst _); exact I].
  apply conversations_kept_same.
  pose proof (agent_effects_same_conversations (chat_effects self messages caller w))
    as H.
  unfold same_conversations in H. destruct H as [H _]. now rewrite H.
Qed.

Lemma log_tool_invocations_keeps_conversations (uid : Z) (invs : list invocation)
      (caller mid : Z) :
  run_ok (conversations_kept uid) (Routes.log_tool_invocations invs caller mid)
         (fun _ => True).
Proof.
  intro w. split; [| destruct (fst _); exact I].
  destruct (log_tool_invocations_world invs caller mid w) as [new [H _]].
  rewrite H. apply conversations_kept_same. reflexivity.
Qed.

(** X12.  Whatever a chat request does and however it ends, every
    conversation that existed keeps its place, id, owner and creation
    time, and a conversation that it adds belongs to the caller. *)
Theorem chat_request_keeps_conversation_owners :
  forall (agent : AgentService) (request : ChatRequest) (user_id : Z) (w : world),
  exists new,
    map conversation_key (conversations (snd (Routes.chat agent request user_id w)))
    = (map conversation_key (conversations w) ++ map conversation_key new)%list
    /\ Forall (fun c => conv_user_id c = user_id) new.
Proof.
  intros agent request user_id w.
  assert (H : run_ok (conversations_kept user_id)
                     (Routes.chat agent request user_id) (fun _ => True)).
  { pose proof (conversations_kept_refl user_id) as Hrefl.
    pose proof (conversations_kept_trans user_id) as Htrans.
    unfold Routes.chat.
    apply run_try; auto; [| intros e; destruct e; apply run_raise; auto].
    eapply run_bind with (Q := fun _ => True); auto.
    { destruct (_ || _); [apply run_raise | apply run_ret]; auto. }
    intros _ _.
    eapply run_bind with (Q := fun _ => True); auto.
    { destruct (_ <? _); [apply run_raise | apply run_ret]; auto. }
    intros _ _.
    eapply run_bind with (Q := fun _ => True); auto.
    { destruct (conversation_id request) as [cid |].
      - eapply run_bind with (Q := fun _ => True); auto.
        + apply run_try; auto.
          * intro w0. split; [| destruct (fst _); exact I].
            rewrite load_conversation_messages_world. apply Hrefl.
          * intros e. destruct (is_ValueError e); apply run_raise; auto.
        + intros h _. apply run_ret; auto.
      - eapply run_bind with (Q := fun _ => True); auto.
        + intro w0. split; [| exact I].
          exists [mkConversation (conversation_seq w0) user_id (now w0) (now w0)].
          simpl. rewrite map_app. split; [reflexivity |].
          constructor; [reflexivity | constructor].
        + intros c _. apply run_ret; auto. }
    intros loaded _.
    eapply run_bind; auto; [apply add_message_keeps_conversations |].
    intros user_message _.
    eapply run_bind with (Q := fun _ => True); auto.
    { apply run_try; auto; [apply chat_keeps_conversations |].
      intros e. apply run_raise; auto. }
    intros answer _.
    eapply run_bind; auto; [apply add_message_keeps_conversations |].
    intros assistant_message _.
    eapply run_bind; auto; [apply log_tool_invocations_keeps_conversations |].
    intros _ _. apply run_ret; auto. }
  destruct (H w) as [Hkept _]. exact Hkept.
Qed.

Lemma tasks_guarded_refl (uid : Z) (w : world) : tasks_guarded uid w w.
Proof. intro H. split; [exact H | reflexivity]. Qed.

Lemma tasks_guarded_trans (uid : Z) (w1 w2 w3 : world) :
  tasks_guarded uid w1 w2 -> tasks_guarded uid w2 w3 -> tasks_guarded uid w1 w3.
Proof.
  intros H12 H23 Hok. destruct (H12 Hok) as [Hok2 E12].
  destruct (H23 Hok2) as [Hok3 E23]. split; [exact Hok3 | congruence].
Qed.

Lemma tasks_guarded_same (uid : Z) (w w' : world) :
  tasks w' = tasks w -> task_seq w' = task_seq w -> tasks_guarded uid w w'.
Proof.
  intros Ht Hs [Hnd Hlt]. unfold task_keys_ok. rewrite Ht, Hs. tauto.
Qed.

Lemma add_message_guards_tasks (uid cid : Z) (role : string)
      (content : option string) (tis : option (list invocation)) :
  run_ok (tasks_guarded uid) (add_message cid role content tis) (fun _ => True).
Proof.
  intro w. split; [| destruct (fst _); exact I].
  unfold add_message. destruct content; apply tasks_guarded_same; reflexivity.
Qed.

(** X13.  A chat request keeps the primary key of the task table (unique
    ids, below the next value of the sequence) and, whatever the provider
    plans and however the request ends, leaves the tasks of every user
    other than the caller as they were. *)
Theorem chat_request_guards_other_tasks :
  forall (agent : AgentService) (request : ChatRequest) (user_id : Z) (w : world),
    task_keys_ok w ->
    task_keys_ok (snd (Routes.chat agent request user_id w))
    /\ tasks_of_others user_id (tasks (snd (Routes.chat agent request user_id w)))
       = tasks_of_others user_id (tasks w).
Proof.
  intros agent request user_id w.
  assert (H : run_ok (tasks_guarded user_id)
                     (Routes.chat agent request user_id) (fun _ => True)).
  { pose proof (tasks_guarded_refl user_id) as Hrefl.
    pose proof (tasks_guarded_trans user_id) as Htrans.
    unfold Routes.chat.
    apply run_try; auto; [| intros e; destruct e; apply run_raise; auto].
    eapply run_bind with (Q := fun _ => True); auto.
    { destruct (_ || _); [apply run_raise | apply run_ret]; auto. }
    intros _ _.
    eapply run_bind with (Q := fun _ => True); auto.
    { destruct (_ <? _); [apply run_raise | apply run_ret]; auto. }
    intros _ _.
    eapply run_bind with (Q := fun _ => True); auto.
    { destruct (conversation_id request) as [cid |].
      - eapply run_bind with (Q := fun _ => True); auto.
        + apply run_try; auto.
          * intro w0. split; [| destruct (fst _); exact I].
            rewrite load_conversation_messages_world. apply Hrefl.
          * intros e. destruct (is_ValueError e); apply run_raise; auto.
        + intros h _. apply run_ret; auto.
      - eapply run_bind with (Q := fun _ => True); auto.
        + intro w0. split; [| exact I]. apply tasks_guarded_same; reflexivity.
        + intros c _. apply run_ret; auto. }
    intros loaded _.
    eapply run_bind; auto; [apply add_message_guards_tasks |].
    intros user_message _.
    eapply run_bind with (Q := fun _ => True); auto.
    { apply run_try; auto; [| intros e; apply run_raise; auto].
      intro w0. split; [| destruct (fst _); exact I].
      intro Hok. split.
      - eapply agent_effects_keys_ok; [apply chat_effects | exact Hok].
      - apply agent_effects_others; [apply chat_effects | exact Hok]. }
    intros answer _.
    eapply run_bind; auto; [apply add_message_guards_tasks |].
    intros assistant_message _.
    eapply run_bind with (Q := fun _ => True); auto.
    { intro w0. split; [| destruct (fst _); exact I].
      destruct (log_tool_invocations_world (snd answer) user_id
                  (msg_id assistant_message) w0) as [new [Hlog _]].
      rewrite Hlog. apply tasks_guarded_same; reflexivity. }
    intros _ _. apply run_ret; auto. }
  intro Hok. destruct (H w) as [Hguard _]. exact (Hguard Hok).
Qed.

Lemma chat_request_guards_other_tasks_witness :
  tasks_of_others 1
    (tasks (snd (Routes.chat (planner_then_down
                                [mkToolCall "call_1" "delete_task"
                                            (Some (JDict [("task_id", JInt 2)]))])
                             (mkChatRequest None "Create a task to call bank")
                             1 two_tenants)))
  = [mkTask 2 "call bank" None false 2 0 0].
Proof.
  destruct (chat_request_guards_other_tasks
              (planner_then_down
                 [mkToolCall "call_1" "delete_task" (Some (JDict [("task_id", JInt 2)]))])
              (mkChatRequest None "Create a task to call bank") 1 two_tenants
              two_tenants_keys_ok) as [_ H].
  rewrite H. reflexivity.
Defined.

Lemma messages_only_into_same (target : Z) (P : Prop) (w w' : world) :
  messages w' = messages w -> messages_only_into target P w w'.
Proof.
  intro H. exists []. rewrite app_nil_r. split; [exact H |].
  split; [constructor | intro Hnew; now elim Hnew].
Qed.

Lemma messages_only_into_trans (target : Z) (P : Prop) (w1 w2 w3 : world) :
  messages_only_into target P w1 w2 -> messages_only_into target P w2 w3 ->
  messages_only_into target P w1 w3.
Proof.
  intros [n1 [H1 [F1 P1]]] [n2 [H2 [F2 P2]]]. exists (n1 ++ n2)%list.
  split; [rewrite H2, H1; now rewrite app_assoc |].
  split; [apply Forall_app; tauto |].
  intro Hnew. destruct n1 as [| m n1]; [apply P2; exact Hnew | apply P1; discriminate].
Qed.

Lemma add_message_only_into (cid : Z) (P : Prop) (role : string)
      (content : option string) (tis : option (list invocation)) :
  P -> run_ok (messages_only_into cid P) (add_message cid role content tis)
              (fun _ => True).
Proof.
  intros HP w. split; [| destruct (fst _); exact I].
  unfold add_message. destruct content as [text |].
  - simpl. eexists. split; [reflexivity |].
    split; [constructor; [reflexivity | constructor] | intros _; exact HP].
  - apply messages_only_into_same. reflexivity.
Qed.

(** What the handler does once the conversation is known. *)
Lemma turn_only_into (agent : AgentService) (request : ChatRequest) (user_id : Z)
      (cid : Z) (P : Prop) {A} (history : list chat_message)
      (k : Message -> option string * list invocation -> A) :
  P ->
  run_ok (messages_only_into cid P)
    (user_message <- add_message cid "user" (Some (message request)) None ;;
     answer <-
       try_except
         (chat agent (history ++ [mkChatMessage "user" (message request)])%list user_id)
         (fun e => raise (HTTPException 500 "AGENT_ERROR"
                            "Failed to get response from AI agent")) ;;
     assistant_message <-
       add_message cid "assistant" (fst answer) (Some (snd answer)) ;;
     Routes.log_tool_invocations (snd answer) user_id (msg_id assistant_message) ;;;
     ret (k assistant_message answer))
    (fun _ => True).
Proof.
  intro HP.
  assert (Hrefl : forall w, messages_only_into cid P w w).
  { intro w. now apply messages_only_into_same. }
  pose proof (messages_only_into_trans cid P) as Htrans.
  eapply run_bind; auto; [apply add_message_only_into; exact HP |].
  intros user_message _.
  eapply run_bind with (Q := fun _ => True); auto.
  { apply run_try; auto; [| intros e; apply run_raise; auto].
    intro w. split; [| destruct (fst _); exact I].
    apply messages_only_into_same.
    pose proof (agent_effects_same_conversations
                  (chat_effects agent (history ++ [mkChatMessage "user" (message request)])
                                user_id w)) as H.
    unfold same_conversations in H. tauto. }
  intros answer _.
  eapply run_bind; auto; [apply add_message_only_into; exact HP |].
  intros assistant_message _.
  eapply run_bind with (Q := fun _ => True); auto.
  { intro w. split; [| destruct (fst _); exact I].
    destruct (log_tool_invocations_world (snd answer) user_id
                (msg_id assistant_message) w) as [new [Hlog _]].
    rewrite Hlog. apply messages_only_into_same. reflexivity. }
  intros _ _. apply run_ret; auto.
Qed.

Lemma load_conversation_messages_owner (cid uid : Z) (limit : nat) (w : world)
      (history : list chat_message) :
  fst (load_conversation_messages cid uid limit w) = Ok history ->
  exists c, get_conversation cid w = Some c /\ conv_user_id c = uid.
Proof.
  unfold load_conversation_messages, bind, get_world, raise, ret.
  destruct (get_conversation cid w) as [c |]; [| discriminate].
  destruct (conv_user_id c =? uid) eqn:Huid; simpl; [| discriminate].
  intros _. exists c. split; [reflexivity | now apply Z.eqb_eq].
Qed.

Lemma try_raising_world {A} (m : M A) (h : exn -> M A) (w : world) :
  (forall e w0, snd (h e w0) = w0) -> snd (try_except m h w) = snd (m w).
Proof.
  intro Hh. unfold try_except. destruct (m w) as [[a | e] w0]; [reflexivity |].
  apply Hh.
Qed.

(** X14.  A chat request never rewrites or removes a stored message and
    adds messages to one conversation only: the one it names, and then
    only if the caller owns it, or the one it creates.  This holds for
    every outcome of the request, failures included. *)
Theorem chat_request_writes_one_conversation :
  forall (agent : AgentService) (request : ChatRequest) (user_id : Z) (w : world),
  exists new,
    messages (snd (Routes.chat agent request user_id w)) = (messages w ++ new)%list
    /\ Forall (fun m => msg_conversation_id m = target_conversation request w) new
    /\ (new <> [] -> names_own_conversation request user_id w).
Proof.
  intros agent request user_id w.
  change (messages_only_into (target_conversation request w)
            (names_own_conversation request user_id w) w
            (snd (Routes.chat agent request user_id w))).
  set (T := target_conversation request w).
  set (P := names_own_conversation request user_id w).
  assert (Hrefl : forall w0, messages_only_into T P w0 w0).
  { intro w0. now apply messages_only_into_same. }
  unfold Routes.chat.
  rewrite try_raising_world by (intros [] ?; reflexivity).
  unfold bind at 1.
  destruct (_ || _); [apply Hrefl |]. unfold ret at 1.
  unfold bind at 1.
  destruct (_ <? _); [apply Hrefl |]. unfold ret at 1.
  unfold bind at 1.
  destruct (conversation_id request) as [cid |] eqn:Hcid.
  - unfold bind at 1, try_except at 1.
    pose proof (load_conversation_messages_world cid user_id 50 w) as Hw.
    pose proof (load_conversation_messages_owner cid user_id 50 w) as Hown.
    destruct (load_conversation_messages cid user_id 50 w) as [[history | e] w0].
    + simpl in Hw. subst w0. unfold ret at 1.
      assert (HP : P).
      { unfold P, names_own_conversation. rewrite Hcid. now apply (Hown history). }
      cbn [fst snd].
      assert (HT : cid = T). { unfold T, target_conversation. now rewrite Hcid. }
      rewrite HT.
      exact (proj1 (turn_only_into agent request user_id T P history _ HP w)).
    + simpl in Hw. subst w0.
      destruct (is_ValueError e); apply Hrefl.
  - unfold bind at 1, create_conversation at 1, ret at 1. cbn [fst snd conv_id].
    assert (HT : conversation_seq w = T).
    { unfold T, target_conversation. now rewrite Hcid. }
    rewrite HT.
    assert (HP : P). { unfold P, names_own_conversation. now rewrite Hcid. }
    eapply messages_only_into_trans;
      [| exact (proj1 (turn_only_into agent request user_id T P [] _ HP _))].
    apply messages_only_into_same. reflexivity.
Qed.

(** *** The orderings of the queries *)

Lemma insert_desc_by_perm {A} (key : A -> Z) (a : A) (l : list A) :
  Permutation (insert_desc_by key a l) (a :: l).
Proof.
  induction l as [| x l IH]; simpl; [reflexivity |].
  destruct (key x <? key a); [reflexivity |].
  rewrite IH. apply perm_swap.
Qed.

Lemma order_desc_by_perm {A} (key : A -> Z) (l : list A) :
  Permutation (order_desc_by key l) l.
Proof.
  induction l as [| a l IH]; simpl; [reflexivity |].
  rewrite insert_desc_by_perm. now constructor.
Qed.

Lemma insert_desc_by_sorted {A} (key : A -> Z) (a : A) (l : list A) :
  StronglySorted (fun x y => key y <= key x) l ->
  StronglySorted (fun x y => key y <= key x) (insert_desc_by key a l).
Proof.
  induction 1 as [| x l Hl IH Hx]; simpl.
  - constructor; constructor.
  - destruct (key x <? key a) eqn:Hlt.
    + apply Z.ltb_lt in Hlt. constructor; [constructor; assumption |].
      constructor; [lia |].
      eapply Forall_impl; [| exact Hx]. simpl. intros; lia.
    + apply Z.ltb_ge in Hlt. constructor; [exact IH |].
      eapply Permutation_Forall; [symmetry; apply insert_desc_by_perm |].
      constructor; assumption.
Qed.

Lemma order_desc_by_sorted {A} (key : A -> Z) (l : list A) :
  StronglySorted (fun x y => key y <= key x) (order_desc_by key l).
Proof.
  induction l as [| a l IH]; simpl; [constructor |].
  now apply insert_desc_by_sorted.
Qed.

Lemma insert_asc_by_perm {A} (key : A -> Z) (a : A) (l : list A) :
  Permutation (insert_asc_by key a l) (a :: l).
Proof.
  induction l as [| x l IH]; simpl; [reflexivity |].
  destruct (key a <=? key x); [reflexivity |].
  rewrite IH. apply perm_swap.
Qed.

Lemma order_asc_by_perm {A} (key : A -> Z) (l : list A) :
  Permutation (order_asc_by key l) l.
Proof.
  induction l as [| a l IH]; simpl; [reflexivity |].
  rewrite insert_asc_by_perm. now constructor.
Qed.



Lemma order_by_sequence_desc_by (l : list Message) :
  order_by_sequence_desc l = order_desc_by sequence_number l.
Proof.
  unfold order_by_sequence_desc, order_desc_by.
  induction l as [| m l IH]; simpl; [reflexivity |]. rewrite IH.
  generalize (fold_right (insert_desc_by sequence_number) [] l). intro r.
  induction r as [| x r IHr]; simpl; [reflexivity |]. now rewrite IHr.
Qed.






Lemma slice_to_length (n : nat) (s : string) :
  String.length (slice_to n s) = Nat.min n (String.length s).
Proof.
  unfold slice_to. revert s.
  induction n as [| n IH]; intros [| c s]; simpl; try reflexivity.
  now rewrite IH.
Qed.

Lemma substring_prefix (n : nat) (s : string) :
  prefix (substring 0 n s) s = true.
Proof.
  revert s. induction n as [| n IH]; intros [| c s]; simpl; try reflexivity.
  destruct (ascii_dec c c) as [_ | Hne]; [apply IH | now elim Hne].
Qed.

(** The newest message of a conversation, as the summary query finds it. *)
Lemma newest_message (cid : Z) (w : world) :
  match hd_error (firstn 1 (order_by_sequence_desc (messages_of cid w))) with
  | None => messages_of cid w = []
  | Some m =>
      In m (messages_of cid w)
      /\ forall m', In m' (messages_of cid w) ->
                    sequence_number m' <= sequence_number m
  end.
Proof.
  pose proof (order_desc_by_perm sequence_number (messages_of cid w)) as Hperm.
  pose proof (order_desc_by_sorted sequence_number (messages_of cid w)) as Hsorted.
  rewrite order_by_sequence_desc_by.
  destruct (order_desc_by sequence_number (messages_of cid w)) as [| m rest]; simpl.
  - now apply Permutation_nil in Hperm.
  - split; [eapply Permutation_in; [exact Hperm | now left] |].
    intros m' Hin. symmetry in Hperm.
    pose proof (Permutation_in m' Hperm Hin) as Hin'.
    inversion Hsorted as [| ? ? _ Hall]; subst.
    destruct Hin' as [<- | Hin']; [lia |].
    rewrite Forall_forall in Hall. now apply Hall.
Qed.

(** X16.  The list of conversations never fails and changes nothing.  It
    has one summary for each conversation of the caller and none for any
    other, the most recently updated first.  A summary gives the number of
    messages of the conversation and, as preview, the first 100 characters
    at most of a message with the highest sequence number, or no preview
    when the conversation is empty. *)
Theorem list_conversations_summarises_own :
  forall (user_id : Z) (w : world),
  exists convs,
    list_conversations user_id w = (Ok (map (conversation_summary w) convs), w)
    /\ Permutation convs
         (filter (fun c => conv_user_id c =? user_id) (conversations w))
    /\ StronglySorted (fun a b => conv_updated_at b <= conv_updated_at a) convs
    /\ forall conv, In conv convs ->
         exists preview,
           conversation_summary w conv
           = JDict [("id", JInt (conv_id conv));
                    ("created_at", JStr (isoformat (conv_created_at conv)));
                    ("updated_at", JStr (isoformat (conv_updated_at conv)));
                    ("message_count",
                     JInt (Z.of_nat (length (messages_of (conv_id conv) w))));
                    ("last_message_preview", preview)]
           /\ (messages_of (conv_id conv) w = [] -> preview = JNull)
           /\ (messages_of (conv_id conv) w <> [] ->
               exists m text,
                 preview = JStr text
                 /\ In m (messages_of (conv_id conv) w)
                 /\ (forall m', In m' (messages_of (conv_id conv) w) ->
                                sequence_number m' <= sequence_number m)
                 /\ prefix text (msg_content m) = true
                 /\ Py.len text = Z.min 100 (Py.len (msg_content m))).
Proof.
  intros user_id w.
  exists (order_desc_by conv_updated_at
            (filter (fun c => conv_user_id c =? user_id) (conversations w))).
  split; [reflexivity |].
  split; [apply order_desc_by_perm |].
  split; [apply order_desc_by_sorted |].
  intros conv _. unfold conversation_summary.
  pose proof (newest_message (conv_id conv) w) as Hnewest.
  destruct (hd_error _) as [m |].
  - eexists. split; [reflexivity |]. destruct Hnewest as [Hin Hmax]. split.
    + intro Hnil. rewrite Hnil in Hin. contradiction.
    + intros _. exists m, (slice_to 100 (msg_content m)).
      repeat split; try assumption.
      * apply substring_prefix.
      * unfold Py.len. rewrite slice_to_length. lia.
  - eexists. split; [reflexivity |]. split; [reflexivity |].
    intro Hne. now elim Hne.
Qed.

(** With unique conversation ids, the query by id finds what [db.get]
    finds. *)
Lemma conversation_by_id (cid : Z) (cs : list Conversation) :
  NoDup (map conv_id cs) ->
  filter (fun c => conv_id c =? cid) cs
  = match find (fun c => conv_id c =? cid) cs with
    | Some c => [c]
    | None => []
    end.
Proof.
  induction cs as [| c cs IH]; simpl; intro Hnd; [reflexivity |].
  inversion Hnd as [| ? ? Hnotin Hnd']; subst.
  destruct (conv_id c =? cid) eqn:Hc.
  - f_equal. apply Z.eqb_eq in Hc.
    assert (Hnone : forall l, ~ In cid (map conv_id l) ->
                              filter (fun c0 => conv_id c0 =? cid) l = []).
    { induction l as [| x l IHl]; simpl; intro Hl; [reflexivity |].
      destruct (conv_id x =? cid) eqn:Hx.
      - apply Z.eqb_eq in Hx. elim Hl. now left.
      - apply IHl. intro Hin. apply Hl. now right. }
    apply Hnone. now rewrite <- Hc.
  - now apply IH.
Qed.

(** X17.  The messages of a conversation that does not exist or belongs to
    another user are refused with 404 NOT_FOUND, whatever the page asked
    for, and nothing changes: the handler does not tell a foreign
    conversation from a missing one. *)
Theorem foreign_messages_not_found :
  forall (conversation_id limit offset user_id : Z) (w : world),
    NoDup (map conv_id (conversations w)) ->
    not_owned conversation_id user_id w ->
    get_conversation_messages conversation_id limit offset user_id w
    = (Raise (HTTPException 404 "NOT_FOUND" "Conversation not found"), w).
Proof.
  intros cid limit offset uid w Hnd Hnot.
  unfold get_conversation_messages, try_except, bind, get_world, lift.
  rewrite (conversation_by_id cid _ Hnd).
  unfold not_owned, get_conversation in Hnot.
  destruct (find _ (conversations w)) as [c |]; simpl; [| reflexivity].
  destruct (conv_user_id c =? uid) eqn:Huid; [| reflexivity].
  apply Z.eqb_eq in Huid. contradiction.
Qed.

Lemma foreign_messages_not_found_witness :
  get_conversation_messages 1 50 0 2 one_conversation
  = (Raise (HTTPException 404 "NOT_FOUND" "Conversation not found"), one_conversation)
  /\ get_conversation_messages 7 50 0 1 one_conversation
     = (Raise (HTTPException 404 "NOT_FOUND" "Conversation not found"), one_conversation).
Proof.
  split.
  - apply (foreign_messages_not_found 1 50 0 2 one_conversation).
    + simpl. constructor; [intros [] | constructor].
    + simpl. discriminate.
  - apply (foreign_messages_not_found 7 50 0 1 one_conversation).
    + simpl. constructor; [intros [] | constructor].
    + exact I.
Defined.

(** A page of the messages of a conversation, for its owner. *)
Lemma get_conversation_messages_page (cid uid limit offset : Z) (w : world)
      (c : Conversation) :
  NoDup (map conv_id (conversations w)) ->
  get_conversation cid w = Some c -> conv_user_id c = uid ->
  0 <= limit -> 0 <= offset ->
  get_conversation_messages cid limit offset uid w
  = (Ok (JDict [("messages",
                 JList (map message_entry
                            (firstn (Z.to_nat limit)
                                    (skipn (Z.to_nat offset)
                                           (order_asc_by sequence_number
                                                         (messages_of cid w))))));
                ("total", JInt (Z.of_nat (length (messages_of cid w))))]), w).
Proof.
  intros Hnd Hget Hown Hlimit Hoffset.
  unfold get_conversation_messages, try_except, bind, get_world, lift.
  rewrite (conversation_by_id cid _ Hnd).
  unfold get_conversation in Hget. rewrite Hget. simpl.
  rewrite Hown, Z.eqb_refl. simpl.
  unfold offset_limit.
  destruct (offset <? 0) eqn:Ho; [apply Z.ltb_lt in Ho; lia |].
  destruct (limit <? 0) eqn:Hl; [apply Z.ltb_lt in Hl; lia |].
  reflexivity.
Qed.



(** *** The REST interface to the task table *)

Lemma lstrip_length (s : string) :
  (String.length (Py.lstrip s) <= String.length s)%nat.
Proof.
  induction s as [| c s IH]; simpl; [lia |].
  destruct (Py.isspace c); simpl; lia.
Qed.

Lemma rstrip_length (s : string) :
  (String.length (Py.rstrip s) <= String.length s)%nat.
Proof.
  induction s as [| c s IH]; simpl; [lia |].
  destruct (Py.rstrip s) as [| d r]; simpl in *; [| lia].
  destruct (Py.isspace c); simpl; lia.
Qed.

Lemma rstrip_again (s : string) : Py.rstrip (Py.rstrip s) = Py.rstrip s.
Proof.
  induction s as [| c s IH]; simpl; [reflexivity |].
  destruct (Py.rstrip s) as [| d r] eqn:Hr.
  - destruct (Py.isspace c) eqn:Hc; simpl; [reflexivity |]. now rewrite Hc.
  - change (Py.rstrip (String c (String d r)))
      with (match Py.rstrip (String d r) with
            | EmptyString => if Py.isspace c then EmptyString else String c EmptyString
            | String d' r' => String c (String d' r')
            end).
    now rewrite IH.
Qed.

Lemma lstrip_clean (s : string) : starts_clean (Py.lstrip s).
Proof.
  induction s as [| c s IH]; simpl; [exact I |].
  destruct (Py.isspace c) eqn:Hc; [exact IH | exact Hc].
Qed.

Lemma rstrip_clean (s : string) : starts_clean s -> starts_clean (Py.rstrip s).
Proof.
  destruct s as [| c s]; simpl; [auto |]. intro Hc.
  destruct (Py.rstrip s); [rewrite Hc |]; exact Hc.
Qed.

Lemma lstrip_of_clean (s : string) : starts_clean s -> Py.lstrip s = s.
Proof. destruct s as [| c s]; simpl; [auto |]. now intros ->. Qed.

Lemma strip_again (s : string) : Py.strip (Py.strip s) = Py.strip s.
Proof.
  unfold Py.strip.
  rewrite (lstrip_of_clean _ (rstrip_clean _ (lstrip_clean s))).
  apply rstrip_again.
Qed.

Lemma strip_length (s : string) : Py.len (Py.strip s) <= Py.len s.
Proof.
  unfold Py.strip, Py.len.
  pose proof (rstrip_length (Py.lstrip s)). pose proof (lstrip_length s). lia.
Qed.

Lemma nonempty_length (s : string) : s <> "" -> 1 <= Py.len s.
Proof. destruct s; [congruence |]. unfold Py.len. simpl. lia. Qed.

(** X19.  The schema of a new task refuses a title that is blank once
    trimmed.  A body that it accepts is stored by [POST /users/{id}/tasks]
    as one new row of that user under the next key, not completed, whose
    title is the trimmed title: between 1 and 500 characters, with no
    white space at either end. *)
Theorem rest_create_stores_trimmed_title :
  forall (title : string) (description : option string) (user_id : Z) (w : world),
    (Py.strip title = "" ->
     exists e, validate_TaskCreate title description = Raise e)
    /\ forall task_data,
         validate_TaskCreate title description = Ok task_data ->
         exists task,
           TaskRoutes.create_task user_id user_id task_data w
           = (Ok task, set_tasks (tasks w ++ [task]) (task_seq w + 1) w)
           /\ task_id task = task_seq w
           /\ task_user_id task = user_id
           /\ task_completed task = false
           /\ task_title task = Py.strip title
           /\ Py.strip (task_title task) = task_title task
           /\ 1 <= Py.len (task_title task) <= 500.
Proof.
  intros title description user_id w. split.
  - intro Hblank. unfold validate_TaskCreate. rewrite Hblank.
    destruct (Py.len title <? 1); [eexists; reflexivity |].
    destruct (500 <? Py.len title); [eexists; reflexivity |].
    rewrite orb_true_r. eexists; reflexivity.
  - intros task_data Hvalid.
    assert (Hdata : create_title task_data = Py.strip title
                    /\ Py.strip title <> "" /\ Py.len title <= 500).
    { unfold validate_TaskCreate in Hvalid.
      destruct (Py.len title <? 1); [discriminate |].
      destruct (500 <? Py.len title) eqn:Hlong; [discriminate |].
      apply Z.ltb_ge in Hlong.
      destruct (String.eqb title "" || String.eqb (Py.strip title) "") eqn:Hblank;
        [discriminate |].
      apply orb_false_iff in Hblank. destruct Hblank as [_ Hblank].
      apply String.eqb_neq in Hblank.
      destruct description as [v |].
      - destruct (5000 <? Py.len v); [discriminate |].
        injection Hvalid as <-. simpl. tauto.
      - injection Hvalid as <-. simpl. tauto. }
    destruct Hdata as [Htitle [Hnonblank Hlen]].
    exists (mkTask (task_seq w) (create_title task_data)
                   (create_description task_data) false user_id (now w) (now w)).
    unfold TaskRoutes.create_task, verify_user_access.
    rewrite Z.eqb_refl. simpl.
    split; [reflexivity |]. repeat split; try assumption.
    + rewrite Htitle. apply strip_again.
    + rewrite Htitle. now apply nonempty_length.
    + rewrite Htitle. pose proof (strip_length title). lia.
Qed.

Lemma rest_create_stores_trimmed_title_witness :
  exists task,
    TaskRoutes.create_task 1 1 (mkTaskCreate "buy milk" None) empty_world
    = (Ok task, set_tasks (tasks empty_world ++ [task]) (task_seq empty_world + 1)
                          empty_world)
    /\ task_id task = task_seq empty_world
    /\ task_user_id task = 1
    /\ task_completed task = false
    /\ task_title task = Py.strip "  buy milk "
    /\ Py.strip (task_title task) = task_title task
    /\ 1 <= Py.len (task_title task) <= 500.
Proof.
  apply (proj2 (rest_create_stores_trimmed_title "  buy milk " None 1 empty_world)).
  vm_compute. reflexivity.
Defined.

(** X20.  Every task route refuses a path whose user is not the user of
    the token with 403 FORBIDDEN, before it reads or writes anything. *)
Theorem rest_routes_refuse_other_user :
  forall (current_user_id user_id task_id_arg : Z) (created : TaskCreate)
         (changes : TaskUpdate) (w : world),
    current_user_id <> user_id ->
    let forbidden {A} : result A * world :=
      (Raise (HTTPException 403 "FORBIDDEN" "Cannot access another user's resources"),
       w) in
    TaskRoutes.create_task current_user_id user_id created w = forbidden
    /\ TaskRoutes.get_tasks current_user_id user_id w = forbidden
    /\ TaskRoutes.get_task current_user_id user_id task_id_arg w = forbidden
    /\ TaskRoutes.update_task current_user_id user_id task_id_arg changes w = forbidden
    /\ TaskRoutes.delete_task current_user_id user_id task_id_arg w = forbidden.
Proof.
  intros current_user_id user_id task_id_arg created changes w Hother.
  apply Z.eqb_neq in Hother.
  unfold TaskRoutes.create_task, TaskRoutes.get_tasks, TaskRoutes.get_task,
    TaskRoutes.update_task, TaskRoutes.delete_task, verify_user_access, bind.
  rewrite Hother. simpl. repeat split.
Qed.

Lemma rest_routes_refuse_other_user_witness :
  TaskRoutes.get_tasks 1 2 two_tenants
  = (Raise (HTTPException 403 "FORBIDDEN" "Cannot access another user's resources"),
     two_tenants).
Proof.
  apply (rest_routes_refuse_other_user 1 2 0 (mkTaskCreate "x" None)
           (mkTaskUpdate None None None) two_tenants).
  discriminate.
Defined.

Lemma verify_user_access_same (uid : Z) {A} (k : Z -> M A) (w : world) :
  bind (verify_user_access uid uid) k w = k uid w.
Proof. unfold bind, verify_user_access. now rewrite Z.eqb_refl. Qed.

Lemma verify_user_access_other (user_id current_user_id : Z) {A} (k : Z -> M A)
      (w : world) :
  current_user_id <> user_id ->
  bind (verify_user_access user_id current_user_id) k w
  = (Raise (HTTPException 403 "FORBIDDEN" "Cannot access another user's resources"), w).
Proof.
  intro H. apply Z.eqb_neq in H. unfold bind, verify_user_access. now rewrite H.
Qed.

(** What the lookup of the routes returns. *)
Lemma find_own_task_cases (id uid : Z) (w : world) :
  (exists e, TaskRoutes.find_own_task id uid w = (Raise e, w))
  \/ (TaskRoutes.find_own_task id uid w = (Ok None, w)
      /\ not_own_task id uid w)
  \/ (exists t, TaskRoutes.find_own_task id uid w = (Ok (Some t), w)
                /\ In t (tasks w) /\ task_id t = id /\ task_user_id t = uid).
Proof.
  unfold TaskRoutes.find_own_task, bind, get_world, lift, scalar_one_or_none.
  destruct (filter _ (tasks w)) as [| t [| second rest]] eqn:Hrows.
  - right. left. split; [reflexivity |].
    intros t Hin Hid Hown.
    assert (Hf : In t (filter (fun t => (task_id t =? id) && (task_user_id t =? uid))
                              (tasks w))).
    { apply filter_In. split; [exact Hin |].
      apply andb_true_iff. split; now apply Z.eqb_eq. }
    rewrite Hrows in Hf. contradiction.
  - right. right. exists t. split; [reflexivity |].
    assert (Hf : In t (filter (fun t => (task_id t =? id) && (task_user_id t =? uid))
                              (tasks w))) by (rewrite Hrows; now left).
    apply filter_In in Hf. destruct Hf as [Hin Hc].
    apply andb_true_iff in Hc. destruct Hc as [Hid Hown].
    apply Z.eqb_eq in Hid, Hown. tauto.
  - left. eexists. reflexivity.
Qed.

Lemma own_row_found_once (id uid : Z) (ts : list Task) (t : Task) :
  NoDup (map task_id ts) -> In t ts -> task_id t = id -> task_user_id t = uid ->
  filter (fun t => (task_id t =? id) && (task_user_id t =? uid)) ts = [t].
Proof.
  intros Hnd Hin Hid Hown.
  induction ts as [| x ts IH]; simpl in *; [contradiction |].
  inversion Hnd as [| ? ? Hnotin Hnd']; subst.
  destruct Hin as [-> | Hin].
  - rewrite !Z.eqb_refl. simpl. f_equal.
    clear IH Hnd Hnd'. induction ts as [| y ts IHts]; simpl; [reflexivity |].
    destruct (task_id y =? task_id t) eqn:Hy.
    + apply Z.eqb_eq in Hy. elim Hnotin. left. exact Hy.
    + simpl. apply IHts. intro H. apply Hnotin. now right.
  - assert (Hx : (task_id x =? task_id t) = false).
    { apply Z.eqb_neq. intro Heq. apply Hnotin. rewrite Heq.
      now apply in_map. }
    rewrite Hx. simpl. now apply IH.
Qed.

Lemma rest_create_task_effect (current_user_id user_id : Z) (task_data : TaskCreate)
      (w : world) :
  task_effect current_user_id w
    (snd (TaskRoutes.create_task current_user_id user_id task_data w)).
Proof.
  unfold TaskRoutes.create_task.
  destruct (Z.eq_dec current_user_id user_id) as [<- | Hother];
    [| rewrite verify_user_access_other by exact Hother; constructor].
  rewrite verify_user_access_same. apply eff_insert.
Qed.

Lemma rest_get_task_world (current_user_id user_id id : Z) (w : world) :
  snd (TaskRoutes.get_task current_user_id user_id id w) = w.
Proof.
  unfold TaskRoutes.get_task.
  destruct (Z.eq_dec current_user_id user_id) as [<- | Hother];
    [| now rewrite verify_user_access_other by exact Hother].
  rewrite verify_user_access_same.
  unfold try_except, bind at 1.
  destruct (find_own_task_cases id current_user_id w)
    as [[e ->] | [[-> _] | [t [-> _]]]]; [destruct e | |]; reflexivity.
Qed.

Lemma rest_update_task_effect (current_user_id user_id id : Z) (task_data : TaskUpdate)
      (w : world) :
  task_effect current_user_id w
    (snd (TaskRoutes.update_task current_user_id user_id id task_data w)).
Proof.
  unfold TaskRoutes.update_task.
  destruct (Z.eq_dec current_user_id user_id) as [<- | Hother];
    [| rewrite verify_user_access_other by exact Hother; constructor].
  rewrite verify_user_access_same.
  unfold try_except, bind at 1.
  destruct (find_own_task_cases id current_user_id w)
    as [[e ->] | [[-> _] | [t [-> [Hin [Hid Hown]]]]]].
  - destruct e; constructor.
  - constructor.
  - unfold bind, utcnow, lift, TaskRoutes.not_null, commit_task, ret, rollback, raise.
    destruct (update_title task_data) as [[title |] |];
      destruct (update_completed task_data) as [[completed |] |];
      simpl; try constructor;
      match goal with
      | |- task_effect _ _ (set_tasks (map (fun x => if _ then ?t' else _) _) _ _) =>
          apply eff_update with (task := t) (task' := t'); auto
      end.
Qed.

Lemma rest_delete_task_effect (current_user_id user_id id : Z) (w : world) :
  task_effect current_user_id w
    (snd (TaskRoutes.delete_task current_user_id user_id id w)).
Proof.
  unfold TaskRoutes.delete_task.
  destruct (Z.eq_dec current_user_id user_id) as [<- | Hother];
    [| rewrite verify_user_access_other by exact Hother; constructor].
  rewrite verify_user_access_same.
  unfold try_except, bind at 1.
  destruct (find_own_task_cases id current_user_id w)
    as [[e ->] | [[-> _] | [t [-> [Hin [Hid Hown]]]]]].
  - destruct e; constructor.
  - constructor.
  - simpl. apply eff_delete; assumption.
Qed.

(** X21.  No task route touches the tasks of a user other than the user of
    the token, for any path and any body: after each of the five routes
    the primary key of the table still holds and the rows of every other
    user are the same, in the same order. *)
Theorem rest_routes_guard_other_tasks :
  forall (current_user_id user_id task_id_arg : Z) (created : TaskCreate)
         (changes : TaskUpdate) (w w' : world),
    task_keys_ok w ->
    In w' [snd (TaskRoutes.create_task current_user_id user_id created w);
           snd (TaskRoutes.get_tasks current_user_id user_id w);
           snd (TaskRoutes.get_task current_user_id user_id task_id_arg w);
           snd (TaskRoutes.update_task current_user_id user_id task_id_arg changes w);
           snd (TaskRoutes.delete_task current_user_id user_id task_id_arg w)] ->
    task_keys_ok w'
    /\ tasks_of_others current_user_id (tasks w')
       = tasks_of_others current_user_id (tasks w).
Proof.
  intros current_user_id user_id id created changes w w' Hok Hin.
  assert (Heff : task_effect current_user_id w w').
  { simpl in Hin. destruct Hin as [<- | [<- | [<- | [<- | [<- | []]]]]].
    - apply rest_create_task_effect.
    - unfold TaskRoutes.get_tasks, verify_user_access.
      destruct (current_user_id =? user_id); constructor.
    - rewrite rest_get_task_world. constructor.
    - apply rest_update_task_effect.
    - apply rest_delete_task_effect. }
  split.
  - exact (task_effect_keys_ok Hok Heff).
  - exact (task_effect_others Hok Heff).
Qed.

Lemma rest_routes_guard_other_tasks_witness :
  tasks_of_others 1
    (tasks (snd (TaskRoutes.delete_task 1 1 2 two_tenants)))
  = tasks_of_others 1 (tasks two_tenants).
Proof.
  apply (rest_routes_guard_other_tasks 1 1 2 (mkTaskCreate "x" None)
           (mkTaskUpdate None None None) two_tenants
           (snd (TaskRoutes.delete_task 1 1 2 two_tenants)) two_tenants_keys_ok).
  simpl. tauto.
Defined.

Lemma rest_get_task_found (uid id : Z) (w : world) (t : Task) :
  NoDup (map task_id (tasks w)) ->
  In t (tasks w) -> task_id t = id -> task_user_id t = uid ->
  TaskRoutes.get_task uid uid id w = (Ok t, w).
Proof.
  intros Hnd Hin Hid Hown. unfold TaskRoutes.get_task.
  rewrite verify_user_access_same.
  unfold TaskRoutes.find_own_task, try_except, bind, get_world, lift.
  now rewrite (own_row_found_once id uid (tasks w) t Hnd Hin Hid Hown).
Qed.

Lemma rest_get_task_not_found (uid id : Z) (w : world) :
  not_own_task id uid w ->
  TaskRoutes.get_task uid uid id w
  = (Raise (HTTPException 404 "NOT_FOUND" "Task not found"), w).
Proof.
  intro Hnot. unfold TaskRoutes.get_task.
  rewrite verify_user_access_same.
  unfold TaskRoutes.find_own_task, try_except, bind, get_world, lift.
  now rewrite (not_own_task_none id uid w Hnot).
Qed.

(** X22.  A task created through the REST interface can be read back: for
    its owner [GET .../tasks/{id}] returns the very row that the creation
    returned and [GET .../tasks] returns the owner's earlier tasks followed
    by it, while for any other user the same id is 404 NOT_FOUND. *)
Theorem rest_create_then_get :
  forall (user_id : Z) (task_data : TaskCreate) (w w1 : world) (task : Task),
    task_keys_ok w ->
    TaskRoutes.create_task user_id user_id task_data w = (Ok task, w1) ->
    TaskRoutes.get_task user_id user_id (task_id task) w1 = (Ok task, w1)
    /\ TaskRoutes.get_tasks user_id user_id w1
       = (Ok (tasks_of user_id (tasks w) ++ [task])%list, w1)
    /\ forall other, other <> user_id ->
         TaskRoutes.get_task other other (task_id task) w1
         = (Raise (HTTPException 404 "NOT_FOUND" "Task not found"), w1).
Proof.
  intros user_id task_data w w1 task Hok Hcreate.
  pose proof (task_effect_keys_ok Hok
                (rest_create_task_effect user_id user_id task_data w)) as Hok1.
  unfold TaskRoutes.create_task in Hcreate.
  rewrite verify_user_access_same in Hcreate.
  unfold try_except, bind, utcnow, insert_task in Hcreate.
  injection Hcreate as <- <-.
  unfold TaskRoutes.create_task in Hok1. rewrite verify_user_access_same in Hok1.
  unfold try_except, bind, utcnow, insert_task in Hok1. cbn [snd] in Hok1.
  destruct Hok1 as [Hnd1 _].
  set (task := mkTask (task_seq w) (create_title task_data)
                      (create_description task_data) false user_id (now w) (now w))
    in *.
  set (w1 := set_tasks (tasks w ++ [task]) (task_seq w + 1) w) in *.
  assert (Hin : In task (tasks w1)).
  { unfold w1. simpl. apply in_or_app. right. now left. }
  split; [| split].
  - now apply rest_get_task_found.
  - unfold TaskRoutes.get_tasks. rewrite verify_user_access_same.
    unfold try_except, bind, get_world, ret. f_equal. f_equal.
    unfold w1, tasks_of. simpl. rewrite filter_app. simpl.
    now rewrite Z.eqb_refl.
  - intros other Hother. apply rest_get_task_not_found.
    intros t Ht Hid Hown.
    assert (Heq : filter (fun x => (task_id x =? task_id task)
                                   && (task_user_id x =? user_id)) (tasks w1) = [task])
      by now apply own_row_found_once.
    assert (Hin' : In t (filter (fun x => (task_id x =? task_id task)
                                          && (task_user_id x =? user_id)) (tasks w1))).
    { rewrite Heq.
      destruct (in_app_or _ _ _ Ht) as [Hold | [<- | []]]; [| now left].
      exfalso. destruct Hok as [_ Hlt]. rewrite Forall_forall in Hlt.
      specialize (Hlt t Hold). simpl in Hid. lia. }
    apply filter_In in Hin'. destruct Hin' as [_ Hc].
    apply andb_true_iff in Hc. destruct Hc as [_ Hu]. apply Z.eqb_eq in Hu.
    congruence.
Qed.

Lemma rest_create_then_get_witness :
  TaskRoutes.get_task 1 1 3 (snd (TaskRoutes.create_task 1 1
                                    (mkTaskCreate "pay rent" None) two_tenants))
  = (Ok (mkTask 3 "pay rent" None false 1 (now two_tenants) (now two_tenants)),
     snd (TaskRoutes.create_task 1 1 (mkTaskCreate "pay rent" None) two_tenants)).
Proof.
  apply (rest_create_then_get 1 (mkTaskCreate "pay rent" None) two_tenants
           (snd (TaskRoutes.create_task 1 1 (mkTaskCreate "pay rent" None) two_tenants))
           (mkTask 3 "pay rent" None false 1 (now two_tenants) (now two_tenants))
           two_tenants_keys_ok).
  reflexivity.
Defined.

(** What the schema makes of the body of an update. *)
Lemma validate_TaskUpdate_fields (title description : option (option string))
      (completed : option (option bool)) (task_data : TaskUpdate) :
  validate_TaskUpdate title description completed = Ok task_data ->
  update_title task_data
  = match title with
    | Some (Some v) => Some (Some (Py.strip v))
    | _ => title
    end
  /\ update_description task_data = description
  /\ update_completed task_data = completed.
Proof.
  unfold validate_TaskUpdate. intro H.
  destruct title as [[v |] |].
  - destruct (Py.len v <? 1); [discriminate |].
    destruct (500 <? Py.len v); [discriminate |].
    destruct (String.eqb v "" || String.eqb (Py.strip v) ""); [discriminate |].
    destruct description as [[d |] |];
      [destruct (5000 <? Py.len d); [discriminate |] | |];
      injection H as <-; simpl; tauto.
  - destruct description as [[d |] |];
      [destruct (5000 <? Py.len d); [discriminate |] | |];
      injection H as <-; simpl; tauto.
  - destruct description as [[d |] |];
      [destruct (5000 <? Py.len d); [discriminate |] | |];
      injection H as <-; simpl; tauto.
Qed.

(** The update route on a task of the caller, by what the body sets. *)
Lemma rest_update_task_cases (user_id task_id_arg : Z) (task_data : TaskUpdate)
      (w : world) (old : Task) :
  NoDup (map task_id (tasks w)) ->
  In old (tasks w) -> task_id old = task_id_arg -> task_user_id old = user_id ->
  (update_title task_data = Some None \/ update_completed task_data = Some None ->
   TaskRoutes.update_task user_id user_id task_id_arg task_data w
   = (Raise (HTTPException 500 "INTERNAL_ERROR"
               "An unexpected error occurred while updating the task"), w))
  /\ (update_title task_data <> Some None ->
      update_completed task_data <> Some None ->
      TaskRoutes.update_task user_id user_id task_id_arg task_data w
      = (let new :=
           mkTask task_id_arg
                  (match update_title task_data with
                   | Some (Some v) => v
                   | _ => task_title old
                   end)
                  (match update_description task_data with
                   | Some v => v
                   | None => task_description old
                   end)
                  (match update_completed task_data with
                   | Some (Some v) => v
                   | _ => task_completed old
                   end)
                  user_id (task_created_at old) (now w) in
         (Ok new,
          set_tasks (map (fun t => if task_id t =? task_id_arg then new else t)
                         (tasks w))
                    (task_seq w) w))).
Proof.
  intros Hnd Hin Hid Hown.
  unfold TaskRoutes.update_task. rewrite verify_user_access_same.
  unfold TaskRoutes.find_own_task, try_except, bind, get_world, lift.
  rewrite (own_row_found_once task_id_arg user_id (tasks w) old Hnd Hin Hid Hown).
  unfold scalar_one_or_none, utcnow, TaskRoutes.not_null, commit_task, ret,
    rollback, raise.
  split.
  - intros [Htitle | Hcompleted].
    + rewrite Htitle. reflexivity.
    + rewrite Hcompleted. destruct (update_title task_data) as [[v |] |]; reflexivity.
  - intros Htitle Hcompleted.
    destruct (update_title task_data) as [[title |] |]; try congruence;
      destruct (update_completed task_data) as [[completed |] |]; try congruence;
      cbv beta iota zeta; rewrite <- Hid, <- Hown; reflexivity.
Qed.

(** X23.  [PUT .../tasks/{id}] with a body that the schema accepts, on a
    task of the caller, is a partial update.  A field that the body leaves
    out keeps its value; a title that it sets is stored trimmed, a
    completion flag as it is, a description as it is or cleared when set to
    [null]; the update time becomes the current time; id, owner and
    creation time stay, and so does every other row.  The schema also
    accepts a title or a completion flag set to [null]: the route then
    answers 500 INTERNAL_ERROR and leaves the table as it was. *)
Theorem rest_update_is_partial :
  forall (user_id task_id_arg : Z) (title description : option (option string))
         (completed : option (option bool)) (task_data : TaskUpdate)
         (w : world) (old : Task),
    NoDup (map task_id (tasks w)) ->
    In old (tasks w) -> task_id old = task_id_arg -> task_user_id old = user_id ->
    validate_TaskUpdate title description completed = Ok task_data ->
    (title = Some None \/ completed = Some None ->
     TaskRoutes.update_task user_id user_id task_id_arg task_data w
     = (Raise (HTTPException 500 "INTERNAL_ERROR"
                 "An unexpected error occurred while updating the task"), w))
    /\ (title <> Some None -> completed <> Some None ->
        exists new,
          TaskRoutes.update_task user_id user_id task_id_arg task_data w
          = (Ok new,
             set_tasks (map (fun t => if task_id t =? task_id_arg then new else t)
                            (tasks w))
                       (task_seq w) w)
          /\ task_id new = task_id_arg
          /\ task_user_id new = user_id
          /\ task_created_at new = task_created_at old
          /\ task_updated_at new = now w
          /\ task_title new
             = match title with
               | Some (Some v) => Py.strip v
               | _ => task_title old
               end
          /\ task_description new
             = match description with
               | Some v => v
               | None => task_description old
               end
          /\ task_completed new
             = match completed with
               | Some (Some v) => v
               | _ => task_completed old
               end).
Proof.
  intros user_id id title description completed task_data w old
         Hnd Hin Hid Hown Hvalid.
  destruct (validate_TaskUpdate_fields title description completed task_data Hvalid)
    as [Htitle [Hdescription Hcompleted]].
  destruct (rest_update_task_cases user_id id task_data w old Hnd Hin Hid Hown)
    as [Hnull Hset].
  split.
  - intros [-> | ->]; apply Hnull; [left | right]; assumption.
  - intros Ht Hc.
    assert (Ht' : update_title task_data <> Some None).
    { rewrite Htitle. destruct title as [[v |] |]; congruence. }
    assert (Hc' : update_completed task_data <> Some None) by congruence.
    rewrite (Hset Ht' Hc'). cbv zeta. eexists. split; [reflexivity |].
    rewrite Htitle, Hdescription, Hcompleted. simpl.
    repeat split; destruct title as [[v |] |]; reflexivity.
Qed.

Lemma rest_update_is_partial_witness :
  TaskRoutes.update_task 1 1 1 (mkTaskUpdate (Some None) None None) two_tenants
  = (Raise (HTTPException 500 "INTERNAL_ERROR"
              "An unexpected error occurred while updating the task"), two_tenants).
Proof.
  apply (rest_update_is_partial 1 1 (Some None) None None
           (mkTaskUpdate (Some None) None None) two_tenants
           (mkTask 1 "pay rent" None false 1 0 0)).
  - simpl. repeat constructor; simpl; intuition discriminate.
  - now left.
  - reflexivity.
  - reflexivity.
  - reflexivity.
  - now left.
Defined.

(** X24.  A task deleted through the REST interface is gone: the table is
    the old one without the rows of that id, every other row stays, and
    for the same caller the id is then 404 NOT_FOUND for a read and for a
    second deletion, which leave the table as it is. *)
Theorem rest_delete_then_not_found :
  forall (user_id task_id_arg : Z) (w w1 : world) (out : jval),
    TaskRoutes.delete_task user_id user_id task_id_arg w = (Ok out, w1) ->
    w1 = set_tasks (filter (fun t => negb (task_id t =? task_id_arg)) (tasks w))
                   (task_seq w) w
    /\ TaskRoutes.get_task user_id user_id task_id_arg w1
       = (Raise (HTTPException 404 "NOT_FOUND" "Task not found"), w1)
    /\ TaskRoutes.delete_task user_id user_id task_id_arg w1
       = (Raise (HTTPException 404 "NOT_FOUND" "Task not found"), w1).
Proof.
  intros user_id id w w1 out Hdelete.
  assert (Hw1 : w1 = set_tasks (filter (fun t => negb (task_id t =? id)) (tasks w))
                               (task_seq w) w).
  { unfold TaskRoutes.delete_task in Hdelete.
    rewrite verify_user_access_same in Hdelete.
    unfold try_except, bind at 1 in Hdelete.
    destruct (find_own_task_cases id user_id w)
      as [[e He] | [[Hnone _] | [t [Hsome [_ [Hid _]]]]]].
    - rewrite He in Hdelete. destruct e; discriminate.
    - rewrite Hnone in Hdelete. discriminate.
    - rewrite Hsome in Hdelete. simpl in Hdelete. rewrite Hid in Hdelete.
      now injection Hdelete as _ <-. }
  split; [exact Hw1 |].
  assert (Hnot : not_own_task id user_id w1).
  { intros t Ht Hid _. rewrite Hw1 in Ht. simpl in Ht.
    apply filter_In in Ht. destruct Ht as [_ Hc].
    rewrite Hid, Z.eqb_refl in Hc. discriminate. }
  split; [now apply rest_get_task_not_found |].
  unfold TaskRoutes.delete_task. rewrite verify_user_access_same.
  unfold TaskRoutes.find_own_task, try_except, bind, get_world, lift.
  now rewrite (not_own_task_none id user_id w1 Hnot).
Qed.

Lemma rest_delete_then_not_found_witness :
  TaskRoutes.get_task 1 1 1 (snd (TaskRoutes.delete_task 1 1 1 two_tenants))
  = (Raise (HTTPException 404 "NOT_FOUND" "Task not found"),
     snd (TaskRoutes.delete_task 1 1 1 two_tenants)).
Proof.
  apply (rest_delete_then_not_found 1 1 two_tenants
           (snd (TaskRoutes.delete_task 1 1 1 two_tenants))
           (JDict [("message", JStr "Task deleted successfully")])).
  reflexivity.
Defined.

(** X25.  The REST interface and the chat tools read one table: whatever
    the table holds, the tool [list_tasks] without a filter reports exactly
    the rows that [GET /users/{id}/tasks] returns for the same user, in the
    same order, with their number as [total_count]. *)
Theorem rest_and_tools_list_the_same :
  forall (user_id : Z) (w : world),
  exists rows,
    TaskRoutes.get_tasks user_id user_id w = (Ok rows, w)
    /\ list_tasks user_id JNull w
       = (Ok (JDict [("tasks", JList (map task_entry rows));
                     ("total_count", JInt (Z.of_nat (length rows)))]), w)
    /\ forall t, In t rows <-> In t (tasks w) /\ task_user_id t = user_id.
Proof.
  intros user_id w. exists (tasks_of user_id (tasks w)).
  split; [| split].
  - unfold TaskRoutes.get_tasks. now rewrite verify_user_access_same.
  - unfold list_tasks, try_except, bind, get_world, ret.
    now rewrite length_map.
  - intro t. unfold tasks_of. rewrite filter_In. now rewrite Z.eqb_eq.
Qed.

(** *** Writing a turn and reading it back *)

(** Two tables with the same keys answer a lookup by id alike. *)
Lemma same_keys_lookup (cid : Z) (l l' : list Conversation) (c : Conversation) :
  map conversation_key l' = map conversation_key l ->
  find (fun x => conv_id x =? cid) l = Some c ->
  exists c', find (fun x => conv_id x =? cid) l' = Some c'
             /\ conv_user_id c' = conv_user_id c.
Proof.
  revert l'. induction l as [| x l IH]; intros [| x' l'] Hkeys Hfind;
    simpl in *; try discriminate.
  unfold conversation_key in Hkeys at 1 3.
  injection Hkeys as Hid Howner _ Hrest. rewrite Hid.
  destruct (conv_id x =? cid).
  - injection Hfind as <-. exists x'. split; [reflexivity | exact Howner].
  - now apply IH.
Qed.

Lemma same_keys_ids (l l' : list Conversation) :
  map conversation_key l' = map conversation_key l ->
  map conv_id l' = map conv_id l.
Proof.
  intro H.
  assert (Hid : forall k, map conv_id k = map (fun p => fst (fst p)) (map conversation_key k)).
  { intro k. rewrite map_map. reflexivity. }
  now rewrite (Hid l'), (Hid l), H.
Qed.

Lemma add_message_same_keys (cid : Z) (role : string) (content : option string)
      (tis : option (list invocation)) (w : world) :
  map conversation_key (conversations (snd (add_message cid role content tis w)))
  = map conversation_key (conversations w).
Proof.
  unfold add_message. destruct content as [text |]; [| reflexivity]. simpl.
  rewrite map_map. apply map_ext. intro c.
  destruct (conv_id c =? cid); reflexivity.
Qed.

(** A conversation that was just created is found under its id and belongs
    to the user it was created for. *)
Lemma resolved_conversation (user_id : Z) (w : world) :
  conversation_keys_ok w ->
  let w1 := snd (create_conversation user_id w) in
  NoDup (map conv_id (conversations w1))
  /\ exists c, get_conversation (conversation_seq w) w1 = Some c
               /\ conv_user_id c = user_id.
Proof.
  intros [Hnd Hlt]. simpl. split.
  - rewrite map_app. simpl. apply NoDup_snoc; [exact Hnd |].
    intro Hin. apply in_map_iff in Hin. destruct Hin as [c [Hc Hin]].
    rewrite Forall_forall in Hlt. specialize (Hlt c Hin). lia.
  - unfold get_conversation. simpl.
    exists (mkConversation (conversation_seq w) user_id (now w) (now w)).
    split; [| reflexivity].
    induction (conversations w) as [| c cs IH]; simpl.
    + now rewrite Z.eqb_refl.
    + inversion Hlt as [| ? ? Hc Hcs]; subst. inversion Hnd; subst.
      destruct (conv_id c =? conversation_seq w) eqn:E;
        [apply Z.eqb_eq in E; lia | now apply IH].
Qed.

(** X26.  What a successful chat request wrote can be read back: for the
    caller, [GET /chat/conversations/{id}/messages] on the conversation
    that the response names then counts two messages more than the
    conversation had, and a page that is large enough lists the user's
    message with the text sent and the assistant's with the text
    answered, under the message id of the response. *)
Theorem chat_turn_can_be_read_back :
  forall (agent : AgentService) (request : ChatRequest) (user_id : Z)
         (w w' : world) (resp : ChatResponse) (limit : Z),
    conversation_keys_ok w ->
    Routes.chat agent request user_id w = (Ok resp, w') ->
    Z.of_nat (length (messages_of (resp_conversation_id resp) w')) <= limit ->
    exists entries u a,
      get_conversation_messages (resp_conversation_id resp) limit 0 user_id w'
      = (Ok (JDict [("messages", JList entries);
                    ("total",
                     JInt (Z.of_nat (length (messages_of (resp_conversation_id resp) w))
                           + 2))]), w')
      /\ In (message_entry u) entries /\ In (message_entry a) entries
      /\ msg_role u = "user" /\ msg_content u = message request
      /\ msg_role a = "assistant" /\ msg_content a = response resp
      /\ msg_id a = resp_message_id resp.
Proof.
  intros agent request user_id w w' resp limit Hkeys Hrun Hlimit.
  destruct (successful_turn_steps agent request user_id w w' resp Hrun)
    as [loaded [w1 [u [w2 [answer [w3 [a [w4
          [Hload [Hu [Hanswer [Ha [Hlog ->]]]]]]]]]]]]].
  cbn [resp_conversation_id resp_message_id response] in *.
  set (cid := fst loaded) in *.
  (* the conversation at the first step *)
  assert (Hconv1 : NoDup (map conv_id (conversations w1))
                   /\ (exists c, get_conversation cid w1 = Some c
                                 /\ conv_user_id c = user_id)
                   /\ messages w1 = messages w).
  { destruct (conversation_id request) as [rid |].
    - destruct Hload as [Hcid [-> Hloaded]]. fold cid in Hcid. subst rid.
      split; [exact (proj1 Hkeys) |]. split; [| reflexivity].
      apply (load_conversation_messages_owner cid user_id 50 w (snd loaded)).
      now rewrite Hloaded.
    - destruct Hload as [Hcid [_ ->]]. fold cid in Hcid. rewrite Hcid.
      destruct (resolved_conversation user_id w Hkeys) as [Hnd Hc].
      split; [exact Hnd |]. split; [exact Hc | reflexivity]. }
  destruct Hconv1 as [Hnd1 [[c1 [Hget1 Hown1]] Hm1]].
  (* the steps after it *)
  destruct (add_message_ok_inv _ _ _ _ _ _ _ Hu)
    as [utext [Hutext [_ [Hucid [Hurole [Hucontent [Hm2 _]]]]]]].
  injection Hutext as <-.
  pose proof (add_message_same_keys cid "user" (Some (message request)) None w1) as Hk2.
  rewrite Hu in Hk2. cbn [snd] in Hk2.
  pose proof (agent_effects_same_conversations
                (chat_effects agent
                   (snd loaded ++ [mkChatMessage "user" (message request)])%list
                   user_id w2)) as Hsame.
  rewrite Hanswer in Hsame. cbn [snd] in Hsame.
  destruct Hsame as [Hc3 [Hm3 _]].
  destruct (add_message_ok_inv _ _ _ _ _ _ _ Ha)
    as [atext [Hatext [_ [Hacid [Harole [Hacontent [Hm4 _]]]]]]].
  pose proof (add_message_same_keys cid "assistant" (fst answer) (Some (snd answer)) w3)
    as Hk4.
  rewrite Ha in Hk4. cbn [snd] in Hk4.
  destruct (log_tool_invocations_world (snd answer) user_id (msg_id a) w4)
    as [new [Hlogrun _]].
  rewrite Hlogrun in Hlog. injection Hlog as Hw'.
  assert (Hconvs : conversations w' = conversations w4) by (now rewrite <- Hw').
  assert (Hmsgs : messages w' = (messages w ++ [u; a])%list).
  { rewrite <- Hw'. simpl. rewrite Hm4, Hm3, Hm2, Hm1, <- app_assoc. reflexivity. }
  assert (Hkeys' : map conversation_key (conversations w')
                   = map conversation_key (conversations w1)).
  { rewrite Hconvs, Hk4, Hc3, Hk2. reflexivity. }
  assert (Hnd' : NoDup (map conv_id (conversations w'))).
  { now rewrite (same_keys_ids _ _ Hkeys'). }
  destruct (same_keys_lookup cid _ _ c1 Hkeys' Hget1) as [c' [Hget' Hown']].
  rewrite Hown1 in Hown'.
  assert (Hof : messages_of cid w' = (messages_of cid w ++ [u; a])%list).
  { unfold messages_of. rewrite Hmsgs, filter_app. simpl.
    now rewrite Hucid, Hacid, Z.eqb_refl. }
  assert (Hlimit0 : 0 <= limit) by lia.
  rewrite (get_conversation_messages_page cid user_id limit 0 w' c'
             Hnd' Hget' Hown' Hlimit0 (Z.le_refl 0)).
  pose proof (order_asc_by_perm sequence_number (messages_of cid w')) as Hperm.
  change (Z.to_nat 0) with 0%nat. cbn [skipn].
  rewrite firstn_all2
    by (rewrite (Permutation_length Hperm); apply Nat2Z.inj_le;
        rewrite Z2Nat.id; assumption).
  exists (map message_entry (order_asc_by sequence_number (messages_of cid w'))), u, a.
  split.
  - rewrite Hof, length_app, Nat2Z.inj_add. reflexivity.
  - assert (Hin : forall m, In m [u; a] ->
                    In (message_entry m)
                       (map message_entry
                            (order_asc_by sequence_number (messages_of cid w')))).
    { intros m Hm. apply in_map. apply Permutation_sym in Hperm.
      apply (Permutation_in m Hperm). rewrite Hof. apply in_or_app. now right. }
    rewrite Hatext. simpl.
    repeat split; try assumption; try reflexivity.
    + apply Hin. now left.
    + apply Hin. right. now left.
Qed.

Lemma chat_turn_can_be_read_back_witness :
  exists entries u a,
    get_conversation_messages 1 50 0 1
      (snd (Routes.chat unavailable (mkChatRequest None "Show my tasks") 1 two_tenants))
    = (Ok (JDict [("messages", JList entries);
                  ("total", JInt (Z.of_nat (length (messages_of 1 two_tenants)) + 2))]),
       snd (Routes.chat unavailable (mkChatRequest None "Show my tasks") 1 two_tenants))
    /\ In (message_entry u) entries /\ In (message_entry a) entries
    /\ msg_role u = "user" /\ msg_content u = "Show my tasks"
    /\ msg_role a = "assistant"
    /\ msg_content a = "You have 1 tasks:" ++ String "010" "1. pay rent (not completed)"
    /\ msg_id a = 2.
Proof.
  apply (chat_turn_can_be_read_back unavailable (mkChatRequest None "Show my tasks")
           1 two_tenants
           (snd (Routes.chat unavailable (mkChatRequest None "Show my tasks")
                             1 two_tenants))
           (mkChatResponse 1 2
              ("You have 1 tasks:" ++ String "010" "1. pay rent (not completed)")
              [mkInvocation "list_tasks" [("user_id", JInt 1)]
                 (Some (JDict [("tasks",
                                JList [task_entry
                                         (mkTask 1 "pay rent" None false 1 0 0)]);
                               ("total_count", JInt 1)]))
                 None])
           50).
  - split; [constructor | constructor].
  - vm_compute. reflexivity.
  - vm_compute. discriminate.
Defined.
